(** * TinyG controller: flow control between Sender, Feeder and firmware frames

    A shallow embedding of [src/server/controllers/TinyG/TinyGController.js].
    JavaScript strings are modelled as [string] (code units below 256),
    counters as [nat], queue-report values as [Z], the numbers of the
    override, motor and laser commands as IEEE 754 binary64 values, and
    the firmware build, which is only compared with 100 and 101, as the
    rational it denotes. *)

From Stdlib Require Import List String Ascii Bool Arith ZArith QArith Lia.
From Stdlib Require Import DecimalString Lqa.
From Stdlib Require SpecFloat.
Import ListNotations.
Open Scope string_scope.
Set Warnings "-register-all".

(** ** JavaScript string helpers *)

Module JsString.

(** Code units matched by the regular expression class [\s] (and stripped by
    [String.prototype.trim]) among the code units below 256:
    TAB, LF, VT, FF, CR, SPACE and NBSP. *)
Definition isSpace (c : ascii) : bool :=
  let n := nat_of_ascii c in
  ((n =? 9) || (n =? 10) || (n =? 11) || (n =? 12) || (n =? 13)
   || (n =? 32) || (n =? 160))%nat.

(** Line terminators: the characters that [.] does not match. *)
Definition isLineTerminator (c : ascii) : bool :=
  let n := nat_of_ascii c in ((n =? 10) || (n =? 13))%nat.

Definition isDigit (c : ascii) : bool :=
  let n := nat_of_ascii c in ((48 <=? n) && (n <=? 57))%nat.

Fixpoint trimStart (s : string) : string :=
  match s with
  | String c r => if isSpace c then trimStart r else s
  | EmptyString => EmptyString
  end.

(** [trimEnd] keeps a character when it is not a space or when something
    is kept after it. *)
Fixpoint trimEnd (s : string) : string :=
  match s with
  | EmptyString => EmptyString
  | String c r =>
      match trimEnd r with
      | EmptyString => if isSpace c then EmptyString else String c EmptyString
      | r' => String c r'
      end
  end.

Definition trim (s : string) : string := trimEnd (trimStart s).

(** [s.replace(/\s*;.*/g, '')].  The scan keeps the run of blanks read so far
    in [ws]: a [;] discards the run and everything up to the next line
    terminator, any other character flushes the run to the output. *)
Fixpoint removeCommentsFrom (inComment : bool) (ws : string) (s : string) : string :=
  match s with
  | EmptyString => ws
  | String c r =>
      if inComment then
        if isLineTerminator c
        then removeCommentsFrom false (String c EmptyString) r
        else removeCommentsFrom true EmptyString r
      else if Ascii.eqb c ";" then removeCommentsFrom true EmptyString r
      else if isSpace c then removeCommentsFrom false (ws ++ String c EmptyString) r
      else ws ++ String c (removeCommentsFrom false EmptyString r)
  end.

Definition removeComments (s : string) : string :=
  removeCommentsFrom false EmptyString s.

(** [s.replace(/\s+/g, '')]: every maximal run of blanks is deleted. *)
Fixpoint removeBlanks (s : string) : string :=
  match s with
  | EmptyString => EmptyString
  | String c r => if isSpace c then removeBlanks r else String c (removeBlanks r)
  end.

Fixpoint dropDigits (s : string) : string :=
  match s with
  | String c r => if isDigit c then dropDigits r else s
  | EmptyString => EmptyString
  end.

(** [s.replace(/^N[0-9]*/, '')]. *)
Definition stripLineNumber (s : string) : string :=
  match s with
  | String c r => if Ascii.eqb c "N" then dropDigits r else s
  | EmptyString => EmptyString
  end.

(** Decimal rendering of a non-negative integer, as [String(n)] gives it. *)
Definition ofNat (n : nat) : string := NilZero.string_of_uint (Nat.to_uint n).

Definition LF : string := String (ascii_of_nat 10) EmptyString.
Definition CTRL_D : string := String (ascii_of_nat 4) EmptyString.

(** [s.split('\n')] with an optional CR before each LF, as [/\r?\n/] splits. *)
Fixpoint splitLinesFrom (cur : string) (s : string) : list string :=
  match s with
  | EmptyString => [cur]
  | String c r =>
      if (nat_of_ascii c =? 10)%nat then cur :: splitLinesFrom EmptyString r
      else match r with
           | String d r' =>
               if ((nat_of_ascii c =? 13) && (nat_of_ascii d =? 10))%nat
               then cur :: splitLinesFrom EmptyString r'
               else splitLinesFrom (cur ++ String c EmptyString) r
           | EmptyString => splitLinesFrom (cur ++ String c EmptyString) r
           end
  end.

Definition splitLines (s : string) : list string := splitLinesFrom EmptyString s.

(** [Array.prototype.join]. *)
Fixpoint join (sep : string) (l : list string) : string :=
  match l with
  | [] => EmptyString
  | [x] => x
  | x :: r => x ++ sep ++ join sep r
  end.

End JsString.

(** ** JavaScript numbers *)

Module JsNumber.

(** A JavaScript number is an IEEE 754 binary64 value: 53 bits of
    precision, infinities at exponent 1024, signed zeros and one NaN.
    The operations are those of the standard, rounding to nearest with
    ties to even. *)
Definition number : Type := SpecFloat.spec_float.

Definition prec : Z := 53.
Definition emax : Z := 1024.

Definition NaN : number := SpecFloat.S754_nan.

(** The number an integer literal denotes. *)
Definition ofZ (z : Z) : number := SpecFloat.binary_normalize prec emax z 0 false.

(** [x * y], [x + y] and [x / y]. *)
Definition mul (x y : number) : number := SpecFloat.SFmul prec emax x y.
Definition add (x y : number) : number := SpecFloat.SFadd prec emax x y.
Definition div (x y : number) : number := SpecFloat.SFdiv prec emax x y.

(** [x === y], [x < y] and [x <= y] on numbers: every comparison with NaN
    is false and the two zeros are equal. *)
Definition eqb (x y : number) : bool := SpecFloat.SFeqb x y.
Definition ltb (x y : number) : bool := SpecFloat.SFltb x y.
Definition leb (x y : number) : bool := SpecFloat.SFleb x y.

(** [!x]: the zeros and NaN are falsy. *)
Definition isFalsy (x : number) : bool :=
  match x with
  | SpecFloat.S754_zero _ | SpecFloat.S754_nan => true
  | _ => false
  end.

(** [x || 0]. *)
Definition orZero (x : number) : number :=
  if isFalsy x then SpecFloat.S754_zero false else x.

(** The literals [0.05], [0.5] and [0.25] denote the doubles nearest to
    1/20, 1/2 and 1/4, which are the correctly rounded quotients below. *)
Definition ONE : number := ofZ 1.
Definition TWO : number := ofZ 2.
Definition ONE_TWENTIETH : number := div (ofZ 5) (ofZ 100).

(** The values a number can take: mantissa and exponent of a finite
    value are in canonical form. *)
Definition isNumber (x : number) : bool := SpecFloat.valid_binary prec emax x.

End JsNumber.

(** ** Data model *)

(** Decoded JSON values carried by firmware frames. *)
Inductive JValue : Type :=
| JNull
| JNum (n : Z)
| JStr (s : string)
| JObj (fields : list (string * JValue)).

(** [o[k]], [None] standing for [undefined]. *)
Definition jget (k : string) (v : JValue) : option JValue :=
  match v with
  | JObj fields =>
      option_map snd (find (fun kv => String.eqb (fst kv) k) fields)
  | _ => None
  end.

(** [r && r.k === null]: an [r] that is [null] is falsy. *)
Definition isNullField (k : string) (r : JValue) : bool :=
  match jget k r with
  | Some JNull => true
  | _ => false
  end.

Inductive WorkflowState := WORKFLOW_STATE_IDLE | WORKFLOW_STATE_RUNNING | WORKFLOW_STATE_PAUSED.
Inductive SenderStatus := SENDER_STATUS_NONE | SENDER_STATUS_NEXT | SENDER_STATUS_ACK.

(** Hold reasons: [{ data: d }] and [{ err: msg }]. *)
Inductive HoldReason :=
| ReasonData (d : string)
| ReasonErr (msg : option string).

Definition WAIT : string := "%wait".

Definition WorkflowState_eqb (a b : WorkflowState) : bool :=
  match a, b with
  | WORKFLOW_STATE_IDLE, WORKFLOW_STATE_IDLE
  | WORKFLOW_STATE_RUNNING, WORKFLOW_STATE_RUNNING
  | WORKFLOW_STATE_PAUSED, WORKFLOW_STATE_PAUSED => true
  | _, _ => false
  end.

(** Modelled from the spec: the state of [lib/Sender.js], which is not part
    of the sources at hand (section 3, SenderState): the program [lines],
    the counters [sent] and [received], the [hold] flag and its reason.
    [load] and [unload] are the only writers of [lines] and keep [total]
    equal to the number of lines, so [total] is read off [lines]. *)
Record SenderState := mkSender {
  lines : list string;
  sent : nat;
  received : nat;
  hold : bool;
  holdReason : option HoldReason
}.

Definition total (s : SenderState) : nat := List.length (lines s).

(** Modelled from the spec: the state of [lib/Feeder.js] (section 3,
    FeederState): the FIFO [queue], the hold flag with its reason and the
    [pending] flag. *)
Record FeederState := mkFeeder {
  queue : list string;
  fhold : bool;
  fholdReason : option HoldReason;
  pending : bool
}.

(** The settings the controller reads: the firmware build [fb], [None]
    when the firmware has not reported it, and the override fractions
    [mfo] and [sso]; a missing fraction is NaN to the arithmetic that
    reads it. *)
Record Settings := mkSettings {
  fb : option Q;
  mfo : JsNumber.number;
  sso : JsNumber.number
}.

(** [settings = {}]. *)
Definition noSettings : Settings := mkSettings None JsNumber.NaN JsNumber.NaN.

(** What the controller reads from the TinyGRunner: alarm state, the
    planner buffer pool size and [runner.settings]. *)
Record Runner := mkRunner {
  alarm : bool;
  plannerBufferPoolSize : Z;
  runnerSettings : Settings
}.

(** An entry of the [macros] of the configuration store. *)
Record Macro := mkMacro {
  macroId : string;
  macroName : string;
  macroContent : string
}.

Inductive Origin := FromFeeder | FromSender | FromClient.

Inductive Payload :=
| PWorkflow (w : WorkflowState)
| PText (s : string)
| PError (code : Z) (msg : option string) (line : option (nat * string)).

(** Observable effects, in the order the controller performs them:
    writes to the connection, broadcasts to the sockets, calls into the
    Sender and the Feeder, event triggers and shell tasks. *)
Inductive Action :=
| ConnWrite (o : Origin) (data : string)
| Emit (event : string) (p : Payload)
| SenderAck | SenderNext | SenderHold | SenderUnhold | SenderRewind
| SenderLoad | SenderUnload | SenderEnd
| FeederNext | FeederFeed (data : list string)
| FeederHold | FeederUnhold | FeederReset
| Trigger (event : string)
| TaskRun (commands : string)
| Writeln (data : string).

Module Sender.

(** Modelled from the spec: [hold(reason)] of [lib/Sender.js] is idempotent
    (section 4.6): a Sender already held keeps its reason. *)
Definition hold_ (reason : option HoldReason) (s : SenderState) : SenderState :=
  if hold s then s
  else mkSender (lines s) (sent s) (received s) true reason.

(** Modelled from the spec: [unhold()] of [lib/Sender.js], idempotent. *)
Definition unhold (s : SenderState) : SenderState :=
  if hold s
  then mkSender (lines s) (sent s) (received s) false None
  else s.

(** Modelled from the spec: [rewind()] of [lib/Sender.js] sets
    [sent = received = 0] and clears the hold. *)
Definition rewind (s : SenderState) : SenderState :=
  mkSender (lines s) 0 0 false None.

(** Modelled from the spec: [ack()] of [lib/Sender.js] is
    [received += 1] (section 4.6) within the invariant
    [received <= sent] of the SenderState (sections 3 and 5): [received]
    never overtakes [sent], so with no line in flight the call leaves the
    counters alone. *)
Definition ack (s : SenderState) : SenderState :=
  if (received s <? sent s)%nat
  then mkSender (lines s) (sent s) (S (received s)) (hold s) (holdReason s)
  else s.

(** Modelled from the spec: the [sent += 1] that ends [next()] of
    [lib/Sender.js]. *)
Definition advance (s : SenderState) : SenderState :=
  mkSender (lines s) (S (sent s)) (received s) (hold s) (holdReason s).

(** Modelled from the spec: [load(name, content, context)] of
    [lib/Sender.js] splits the content into lines (LF or CRLF) and resets
    the counters; empty content is rejected ([None]). *)
Definition load (content : string) (s : SenderState) : option SenderState :=
  match content with
  | EmptyString => None
  | _ => let ls := JsString.splitLines content in
         Some (mkSender ls 0 0 (hold s) (holdReason s))
  end.

(** Modelled from the spec: [unload()] of [lib/Sender.js] clears the
    program and the counters. *)
Definition unload (s : SenderState) : SenderState :=
  mkSender [] 0 0 (hold s) (holdReason s).

Definition initial : SenderState := mkSender [] 0 0 false None.

End Sender.

Module Feeder.

(** Modelled from the spec: [hold(reason)] of [lib/Feeder.js], idempotent
    (section 4.5). *)
Definition hold_ (reason : option HoldReason) (f : FeederState) : FeederState :=
  if fhold f then f else mkFeeder (queue f) true reason (pending f).

(** Modelled from the spec: [unhold()] of [lib/Feeder.js], idempotent. *)
Definition unhold (f : FeederState) : FeederState :=
  if fhold f then mkFeeder (queue f) false None (pending f) else f.

(** Modelled from the spec: [reset()] of [lib/Feeder.js] drains the queue
    and clears the hold. *)
Definition reset (f : FeederState) : FeederState := mkFeeder [] false None false.

(** Modelled from the spec: [feed(lines, context)] of [lib/Feeder.js]
    appends to the FIFO. *)
Definition feed (data : list string) (f : FeederState) : FeederState :=
  mkFeeder (queue f ++ data)%list (fhold f) (fholdReason f) (pending f).

Definition initial : FeederState := mkFeeder [] false None false.

End Feeder.

(** A configured event trigger of the EventTrigger: the event it answers
    to, whether it is a [system] trigger, and its commands. *)
Record EventRule := mkRule {
  ruleEvent : string;
  ruleSystem : bool;
  ruleCommands : string
}.

(** ** The controller *)

(** Collaborators outside the controller (the expression evaluator, the
    assignment evaluator, the G-code tokenizer, number formatting,
    [ensurePositiveNumber]) and the constants of [./constants], which is
    not part of the sources at hand. *)
Record Env := mkEnv {
  envContext : Type;
  envPopulateContext : Runner -> envContext -> envContext;
  envEvaluateAssignmentExpression : string -> envContext -> envContext;
  envTranslateExpression : string -> envContext -> string;
  envParseWords : string -> list string;
  envNumberToString : JsNumber.number -> string;
  envEnsurePositiveNumber : JsNumber.number -> JsNumber.number;
  LOW_WATER_MARK : Z;
  HIGH_WATER_MARK : Z;
  SERIAL_BUFFER_LIMIT : nat;
  STATUS_CODES : list (Z * string)
}.

Set Implicit Arguments.

Section TinyGController.

Variable E : Env.

Local Abbreviation Context := (envContext E).
Local Abbreviation populateContext := (envPopulateContext E).
Local Abbreviation evaluateAssignmentExpression := (envEvaluateAssignmentExpression E).
Local Abbreviation translateExpression := (envTranslateExpression E).
Local Abbreviation parseWords := (envParseWords E).
Local Abbreviation numberToString := (envNumberToString E).
Local Abbreviation ensurePositiveNumber := (envEnsurePositiveNumber E).
Local Abbreviation TINYG_PLANNER_BUFFER_LOW_WATER_MARK := (LOW_WATER_MARK E).
Local Abbreviation TINYG_PLANNER_BUFFER_HIGH_WATER_MARK := (HIGH_WATER_MARK E).
Local Abbreviation TINYG_SERIAL_BUFFER_LIMIT := (SERIAL_BUFFER_LIMIT E).
Local Abbreviation TINYG_STATUS_CODES := (STATUS_CODES E).

Record Controller := mkController {
  isOpen : bool;
  workflow : WorkflowState;
  blocked : bool;
  senderStatus : SenderStatus;
  sender : SenderState;
  feeder : FeederState;
  sr : list (string * bool);
  stateQr : option Z;
  settings : Settings;
  runner : Runner;
  sharedContext : Context;
  ignoreErrors : bool;
  eventRules : list EventRule;
  log : list Action
}.

Definition setWorkflow (w : WorkflowState) (c : Controller) : Controller :=
  mkController (isOpen c) w (blocked c) (senderStatus c) (sender c) (feeder c)
    (sr c) (stateQr c) (settings c) (runner c) (sharedContext c) (ignoreErrors c)
    (eventRules c) (log c).

Definition setBlocked (b : bool) (c : Controller) : Controller :=
  mkController (isOpen c) (workflow c) b (senderStatus c) (sender c) (feeder c)
    (sr c) (stateQr c) (settings c) (runner c) (sharedContext c) (ignoreErrors c)
    (eventRules c) (log c).

Definition setSenderStatus (st : SenderStatus) (c : Controller) : Controller :=
  mkController (isOpen c) (workflow c) (blocked c) st (sender c) (feeder c)
    (sr c) (stateQr c) (settings c) (runner c) (sharedContext c) (ignoreErrors c)
    (eventRules c) (log c).

Definition setSender (s : SenderState) (c : Controller) : Controller :=
  mkController (isOpen c) (workflow c) (blocked c) (senderStatus c) s (feeder c)
    (sr c) (stateQr c) (settings c) (runner c) (sharedContext c) (ignoreErrors c)
    (eventRules c) (log c).

Definition setFeeder (f : FeederState) (c : Controller) : Controller :=
  mkController (isOpen c) (workflow c) (blocked c) (senderStatus c) (sender c) f
    (sr c) (stateQr c) (settings c) (runner c) (sharedContext c) (ignoreErrors c)
    (eventRules c) (log c).

Definition setSr (m : list (string * bool)) (c : Controller) : Controller :=
  mkController (isOpen c) (workflow c) (blocked c) (senderStatus c) (sender c)
    (feeder c) m (stateQr c) (settings c) (runner c) (sharedContext c) (ignoreErrors c)
    (eventRules c) (log c).

Definition setStateQr (q : Z) (c : Controller) : Controller :=
  mkController (isOpen c) (workflow c) (blocked c) (senderStatus c) (sender c)
    (feeder c) (sr c) (Some q) (settings c) (runner c) (sharedContext c) (ignoreErrors c)
    (eventRules c) (log c).

Definition setRunner (r : Runner) (c : Controller) : Controller :=
  mkController (isOpen c) (workflow c) (blocked c) (senderStatus c) (sender c)
    (feeder c) (sr c) (stateQr c) (settings c) r (sharedContext c) (ignoreErrors c)
    (eventRules c) (log c).

(** [this.settings = s]. *)
Definition setSettings (s : Settings) (c : Controller) : Controller :=
  mkController (isOpen c) (workflow c) (blocked c) (senderStatus c) (sender c)
    (feeder c) (sr c) (stateQr c) s (runner c) (sharedContext c) (ignoreErrors c)
    (eventRules c) (log c).

Definition setSharedContext (x : Context) (c : Controller) : Controller :=
  mkController (isOpen c) (workflow c) (blocked c) (senderStatus c) (sender c)
    (feeder c) (sr c) (stateQr c) (settings c) (runner c) x (ignoreErrors c)
    (eventRules c) (log c).

Definition setIsOpen (b : bool) (c : Controller) : Controller :=
  mkController b (workflow c) (blocked c) (senderStatus c) (sender c)
    (feeder c) (sr c) (stateQr c) (settings c) (runner c) (sharedContext c) (ignoreErrors c)
    (eventRules c) (log c).

(** Appends an observable effect to the trace. *)
Definition record (a : Action) (c : Controller) : Controller :=
  mkController (isOpen c) (workflow c) (blocked c) (senderStatus c) (sender c)
    (feeder c) (sr c) (stateQr c) (settings c) (runner c) (sharedContext c) (ignoreErrors c)
    (eventRules c) (log c ++ [a])%list.

(** [emit(eventName, ...args)]: broadcast to every socket. *)
Definition emit (event : string) (p : Payload) (c : Controller) : Controller :=
  record (Emit event p) c.

(** [write(data, context)]. *)
Definition write (data : string) (c : Controller) : Controller :=
  if negb (isOpen c) then c
  else record (ConnWrite FromClient data)
         (emit "connection:write" (PText data) c).

(** [writeln(data, context)]. *)
Definition writeln (data : string) (c : Controller) : Controller :=
  write (data ++ JsString.LF) (record (Writeln data) c).

Definition sender_hold (reason : option HoldReason) (c : Controller) : Controller :=
  setSender (Sender.hold_ reason (sender c)) (record SenderHold c).

Definition sender_unhold (c : Controller) : Controller :=
  setSender (Sender.unhold (sender c)) (record SenderUnhold c).

Definition sender_rewind (c : Controller) : Controller :=
  setSender (Sender.rewind (sender c)) (record SenderRewind c).

(** [sender.ack()]; the Sender emits [end] when [received] reaches [total]. *)
Definition sender_ack (c : Controller) : Controller :=
  let c1 := setSender (Sender.ack (sender c)) (record SenderAck c) in
  if (received (sender c1) =? total (sender c1))%nat then record SenderEnd c1 else c1.

Definition feeder_hold (reason : option HoldReason) (c : Controller) : Controller :=
  setFeeder (Feeder.hold_ reason (feeder c)) (record FeederHold c).

Definition feeder_unhold (c : Controller) : Controller :=
  setFeeder (Feeder.unhold (feeder c)) (record FeederUnhold c).

Definition feeder_reset (c : Controller) : Controller :=
  setFeeder (Feeder.reset (feeder c)) (record FeederReset c).

(** *** Workflow *)

(** [workflow.on('pause', ...)]: broadcast the state and hold the Sender
    with the reason given, if any. *)
Definition on_workflow_pause (reason : option HoldReason) (c : Controller) : Controller :=
  sender_hold reason (emit "workflow:state" (PWorkflow (workflow c)) c).

(** Modelled from the spec: [pause] of [lib/Workflow.js], the transition
    running -> paused of the three-state machine (section 2); a transition
    that does not apply leaves the state alone and fires no handler. *)
Definition workflow_pause (reason : option HoldReason) (c : Controller) : Controller :=
  match workflow c with
  | WORKFLOW_STATE_RUNNING =>
      on_workflow_pause reason (setWorkflow WORKFLOW_STATE_PAUSED c)
  | _ => c
  end.

(** *** Expression stage *)

Definition startsWithPercent (line : string) : bool :=
  match line with
  | String c _ => Ascii.eqb c "%"
  | EmptyString => false
  end.

(** [line.slice(1)]. *)
Definition slice1 (line : string) : string :=
  match line with
  | String _ r => r
  | EmptyString => EmptyString
  end.

(** [_.intersection(words, ['M0', 'M1'])[0]]. *)
Definition programMode (words : list string) : option string :=
  find (fun w => String.eqb w "M0" || String.eqb w "M1") words.

(** [_.includes(words, w)]. *)
Definition includes (words : list string) (w : string) : bool :=
  existsb (String.eqb w) words.

(** The Sender's [dataFilter]; returns the line to transmit. *)
Definition senderDataFilter (line : string) (c : Controller) : string * Controller :=
  let line := JsString.trim (JsString.removeComments line) in
  let context := populateContext (runner c) (sharedContext c) in
  if startsWithPercent line then
    if String.eqb line WAIT
    then ("G4 P0.5", sender_hold (Some (ReasonData WAIT)) c)
    else (EmptyString,
          setSharedContext (evaluateAssignmentExpression (slice1 line) context) c)
  else
    let line := translateExpression line context in
    let words := parseWords line in
    let c1 :=
      match programMode words with
      | Some m =>
          if String.eqb m "M0" then workflow_pause (Some (ReasonData "M0")) c
          else if String.eqb m "M1" then workflow_pause (Some (ReasonData "M1")) c
          else c
      | None => c
      end in
    let c2 :=
      if includes words "M6" then workflow_pause (Some (ReasonData "M6")) c1 else c1 in
    (line, c2).

(** The Feeder's [dataFilter]. *)
Definition feederDataFilter (line : string) (c : Controller) : string * Controller :=
  let line := JsString.trim (JsString.removeComments line) in
  let context := populateContext (runner c) (sharedContext c) in
  if startsWithPercent line then
    if String.eqb line WAIT
    then ("G4 P0.5", feeder_hold (Some (ReasonData WAIT)) c)
    else (EmptyString,
          setSharedContext (evaluateAssignmentExpression (slice1 line) context) c)
  else
    let line := translateExpression line context in
    let words := parseWords line in
    let c1 :=
      match programMode words with
      | Some m =>
          if String.eqb m "M0" then feeder_hold (Some (ReasonData "M0")) c
          else if String.eqb m "M1" then feeder_hold (Some (ReasonData "M1")) c
          else c
      | None => c
      end in
    let c2 :=
      if includes words "M6" then feeder_hold (Some (ReasonData "M6")) c1 else c1 in
    (line, c2).

(** *** Data handlers *)

(** The line the Sender's [data] handler puts on the wire: blanks removed,
    line number replaced by the number of lines sent. *)
Definition senderWireLine (n : nat) (line : string) : string :=
  "N" ++ JsString.ofNat n ++ JsString.stripLineNumber (JsString.removeBlanks line).

(** [sender.on('data', ...)]. *)
Definition senderOnData (line : string) (c : Controller) : Controller :=
  if negb (isOpen c) then c
  else if WorkflowState_eqb (workflow c) WORKFLOW_STATE_IDLE then c
  else if (String.length (JsString.removeBlanks line) =? 0)%nat then c
  else record (ConnWrite FromSender (senderWireLine (sent (sender c)) line ++ JsString.LF)) c.

(** [feeder.on('data', ...)]. *)
Definition feederOnData (line : string) (c : Controller) : Controller :=
  if negb (isOpen c) then c
  else if alarm (runner c) then feeder_reset c
  else
    let line := JsString.trim line in
    if (String.length line =? 0)%nat then c
    else record (ConnWrite FromFeeder (line ++ JsString.LF))
           (emit "connection:write" (PText (line ++ JsString.LF)) c).

(** *** Sender and Feeder pulls *)

(** Modelled from the spec: [next()] of [lib/Sender.js] (section 4.6): a
    no-op when held or when [sent = total]; otherwise it takes
    [lines[sent]], passes it through the expression stage, emits [data]
    and then increments [sent]. *)
Definition sender_next (c : Controller) : Controller :=
  let c := record SenderNext c in
  if hold (sender c) || (sent (sender c) =? total (sender c))%nat then c
  else
    match nth_error (lines (sender c)) (sent (sender c)) with
    | None => c
    | Some line =>
        let (out, c1) := senderDataFilter line c in
        let c2 := senderOnData out c1 in
        setSender (Sender.advance (sender c2)) c2
    end.

(** Modelled from the spec: [next()] of [lib/Feeder.js] (section 4.5)
    pulls one line and emits [data] unless held.  The [pending] flag of
    section 3 tells whether work is pending, as [peek()] does in section
    4.5: it is set while lines are left in the queue and clear once the
    queue is empty, so that a line fed to an empty queue is written at
    once. *)
Definition feeder_next (c : Controller) : Controller :=
  let c := record FeederNext c in
  if fhold (feeder c) then c
  else
    match queue (feeder c) with
    | [] => setFeeder (mkFeeder [] (fhold (feeder c)) (fholdReason (feeder c)) false) c
    | line :: rest =>
        let more := match rest with [] => false | _ :: _ => true end in
        let c0 := setFeeder (mkFeeder rest (fhold (feeder c)) (fholdReason (feeder c)) more) c in
        let (out, c1) := feederDataFilter line c0 in
        feederOnData out c1
    end.

(** [command('gcode', commands, context)]. *)
Definition command_gcode (commands : list string) (c : Controller) : Controller :=
  let data :=
    filter (fun line => negb (String.length (JsString.trim line) =? 0)%nat)
      (JsString.splitLines (JsString.join JsString.LF commands)) in
  let c1 := setFeeder (Feeder.feed data (feeder c)) (record (FeederFeed data) c) in
  if negb (pending (feeder c1)) then feeder_next c1 else c1.

(** Modelled from the spec: [trigger(eventName)] of [lib/EventTrigger.js]
    (section 4.10) looks up the configured mapping; the callback given by
    the controller runs [system] entries through the task runner and
    injects the others as G-code. *)
Definition event_trigger (event : string) (c : Controller) : Controller :=
  fold_left
    (fun c rule =>
       if String.eqb (ruleEvent rule) event then
         if ruleSystem rule then record (TaskRun (ruleCommands rule)) c
         else command_gcode [ruleCommands rule] c
       else c)
    (eventRules c) (record (Trigger event) c).

(** [workflow.on('start', ...)] and [workflow.on('stop', ...)]. *)
Definition on_workflow_rewind (c : Controller) : Controller :=
  sender_rewind
    (setSenderStatus SENDER_STATUS_NONE
       (setBlocked false (emit "workflow:state" (PWorkflow (workflow c)) c))).

(** [workflow.on('resume', ...)]. *)
Definition on_workflow_resume (c : Controller) : Controller :=
  sender_next
    (sender_unhold
       (feeder_reset (emit "workflow:state" (PWorkflow (workflow c)) c))).

(** Modelled from the spec: [start], [stop] and [resume] of
    [lib/Workflow.js]: start enters running, stop enters idle, resume is
    the transition paused -> running; each fires its handler only when the
    state changes. *)
Definition workflow_start (c : Controller) : Controller :=
  match workflow c with
  | WORKFLOW_STATE_RUNNING => c
  | _ => on_workflow_rewind (setWorkflow WORKFLOW_STATE_RUNNING c)
  end.

Definition workflow_stop (c : Controller) : Controller :=
  match workflow c with
  | WORKFLOW_STATE_IDLE => c
  | _ => on_workflow_rewind (setWorkflow WORKFLOW_STATE_IDLE c)
  end.

Definition workflow_resume (c : Controller) : Controller :=
  match workflow c with
  | WORKFLOW_STATE_PAUSED => on_workflow_resume (setWorkflow WORKFLOW_STATE_RUNNING c)
  | _ => c
  end.

(** *** Frames from the firmware *)

(** [this.sr[k] = false]. *)
Fixpoint clearBit (k : string) (m : list (string * bool)) : list (string * bool) :=
  match m with
  | [] => [(k, false)]
  | (k', b) :: r => if String.eqb k' k then (k', false) :: r else (k', b) :: clearBit k r
  end.

(** The capability fields probed by [initController]. *)
Definition probedFields : list string := ["spe"; "spd"; "spc"; "sps"; "com"; "cof"].

(** The six tests that open [runner.on('r', ...)]. *)
Definition ignoreUnrecognized (r : JValue) (c : Controller) : Controller :=
  fold_left
    (fun c k => if isNullField k r then setSr (clearBit k (sr c)) c else c)
    probedFields c.

(** [sender.ack(); sender.next(); senderStatus = next]. *)
Definition ackNext (c : Controller) : Controller :=
  setSenderStatus SENDER_STATUS_NEXT (sender_next (sender_ack c)).

(** [runner.on('r', ...)]. *)
Definition on_r (r : JValue) (c : Controller) : Controller :=
  let c := ignoreUnrecognized r c in
  let sent0 := sent (sender c) in
  let received0 := received (sender c) in
  match workflow c with
  | WORKFLOW_STATE_RUNNING =>
      let c := setSenderStatus SENDER_STATUS_ACK c in
      if negb (blocked c) then ackNext c else c
  | WORKFLOW_STATE_PAUSED =>
      if (received0 <? sent0)%nat
      then ackNext (setSenderStatus SENDER_STATUS_ACK c)
      else feeder_next c
  | WORKFLOW_STATE_IDLE => feeder_next c
  end.

(** The [data] member of the Feeder's hold reason. *)
Definition reasonData (r : option HoldReason) : option string :=
  match r with
  | Some (ReasonData d) => Some d
  | _ => None
  end.

(** [runner.on('qr', ...)]. *)
Definition on_qr (qr : Z) (c : Controller) : Controller :=
  let c := setStateQr qr c in
  if (qr <=? TINYG_PLANNER_BUFFER_LOW_WATER_MARK)%Z then setBlocked true c
  else
    let c := if (qr >=? TINYG_PLANNER_BUFFER_HIGH_WATER_MARK)%Z
             then setBlocked false c else c in
    let feederPath (c : Controller) :=
      let c :=
        if fhold (feeder c) then
          match reasonData (fholdReason (feeder c)) with
          | Some d =>
              if String.eqb d WAIT && (qr >=? plannerBufferPoolSize (runner c))%Z
              then feeder_unhold c else c
          | None => c
          end
        else c in
      feeder_next c in
    match workflow c with
    | WORKFLOW_STATE_RUNNING =>
        match senderStatus c with
        | SENDER_STATUS_NEXT =>
            if hold (sender c)
               && (sent (sender c) <=? received (sender c))%nat
               && (qr >=? plannerBufferPoolSize (runner c))%Z
            then setSenderStatus SENDER_STATUS_NEXT (sender_next (sender_unhold c))
            else c
        | SENDER_STATUS_ACK => ackNext c
        | SENDER_STATUS_NONE => c
        end
    | WORKFLOW_STATE_PAUSED =>
        match senderStatus c with
        | SENDER_STATUS_ACK => ackNext c
        | _ => feederPath c
        end
    | WORKFLOW_STATE_IDLE => feederPath c
    end.

(** [_.find(TINYG_STATUS_CODES, { code: code }) || {}], then [err.msg]. *)
Definition statusMessage (code : Z) : option string :=
  option_map snd (find (fun e => (fst e =? code)%Z) TINYG_STATUS_CODES).

(** [lines[received - 1] || '']. *)
Definition receivedLine (s : SenderState) : string :=
  match received s with
  | O => EmptyString
  | S k => nth k (lines s) EmptyString
  end.

(** [runner.on('f', ...)]; [f[1] || 0] is the status code. *)
Definition on_f (f : list Z) (c : Controller) : Controller :=
  let statusCode := nth 1 f 0%Z in
  let idlePath (c : Controller) :=
    match workflow c with
    | WORKFLOW_STATE_IDLE => feeder_next c
    | _ => c
    end in
  if negb (statusCode =? 0)%Z then
    let msg := statusMessage statusCode in
    match workflow c with
    | WORKFLOW_STATE_RUNNING =>
        let pauseError := negb (ignoreErrors c) in
        let line := receivedLine (sender c) in
        let c := emit "connection:read" (PText ("> " ++ line)) c in
        let c := emit "connection:read"
                   (PError statusCode msg
                      (Some (received (sender c), JsString.trim line))) c in
        if pauseError then workflow_pause (Some (ReasonErr msg)) c else c
    | _ => idlePath (emit "connection:read" (PError statusCode msg None) c)
    end
  else idlePath c.

(** *** Commands *)

Definition DQ : string := String (ascii_of_nat 34) EmptyString.

(** The queue report request, an object with the key qr and an empty
    string as its value. *)
Definition QUEUE_REPORT : string := "{" ++ DQ ++ "qr" ++ DQ ++ ":" ++ DQ ++ DQ ++ "}".

Definition DWELL : string := "%wait ; Wait for the planner to empty".

(** [ensureNumber(_.get(this.settings, 'fb'))], read from the settings
    the controller mirrors, not from the Runner: a missing build counts
    as 0. *)
Definition firmwareBuild (c : Controller) : Q :=
  match fb (settings c) with
  | Some b => b
  | None => 0
  end.

(** What [sender:stop] hands to [writeln] when [force] is set. *)
Definition forceStopLines (build : Q) : list string :=
  if Qle_bool 101 build then [JsString.CTRL_D]
  else if Qle_bool 100 build then [JsString.CTRL_D; "M30"]
  else ["!"; "%"; "M30"].

Definition writelnAll (l : list string) (c : Controller) : Controller :=
  fold_left (fun c d => writeln d c) l c.

(** [command('sender:stop', options)]. *)
Definition sender_stop (force : bool) (c : Controller) : Controller :=
  let c := workflow_stop (event_trigger "sender:stop" c) in
  let c := if force then writelnAll (forceStopLines (firmwareBuild c)) c else c in
  writeln QUEUE_REPORT c.

(** [command('sender:load', name, content, context)]. *)
Definition sender_load (content : string) (c : Controller) : Controller :=
  match Sender.load (content ++ JsString.LF ++ DWELL) (sender c) with
  | None => c
  | Some s =>
      let c := setSender s (record SenderLoad c) in
      let c := emit "sender:load" (PText content) c in
      workflow_stop (event_trigger "sender:load" c)
  end.

(** [command('sender:unload')]. *)
Definition sender_unload (c : Controller) : Controller :=
  let c := workflow_stop c in
  let c := setSender (Sender.unload (sender c)) (record SenderUnload c) in
  event_trigger "sender:unload" (emit "sender:unload" (PText EmptyString) c).

(** [command('sender:start')]. *)
Definition sender_start (c : Controller) : Controller :=
  sender_next (feeder_reset (workflow_start (event_trigger "sender:start" c))).

(** [command('sender:pause')]. *)
Definition sender_pause (c : Controller) : Controller :=
  writeln QUEUE_REPORT
    (writeln "!" (workflow_pause None (event_trigger "sender:pause" c))).

(** [command('sender:resume')]. *)
Definition sender_resume (c : Controller) : Controller :=
  writeln QUEUE_REPORT
    (workflow_resume (writeln "~" (event_trigger "sender:resume" c))).

(** [command('feeder:start')]. *)
Definition feeder_start (c : Controller) : Controller :=
  match workflow c with
  | WORKFLOW_STATE_RUNNING => c
  | _ => feeder_next (feeder_unhold (writeln QUEUE_REPORT (writeln "~" c)))
  end.

(** [cur * 100 + value], in double arithmetic. *)
Definition overridePercent (cur value : JsNumber.number) : JsNumber.number :=
  JsNumber.add (JsNumber.mul cur (JsNumber.ofZ 100)) value.

(** The arithmetic shared by [override:feed] and [override:spindle]. *)
Definition overrideValue (cur value : JsNumber.number) : JsNumber.number :=
  if JsNumber.eqb value (JsNumber.ofZ 0) then JsNumber.ONE
  else if JsNumber.ltb (JsNumber.ofZ 200) (overridePercent cur value) then JsNumber.TWO
  else if JsNumber.ltb (overridePercent cur value) (JsNumber.ofZ 5)
       then JsNumber.ONE_TWENTIETH
  else JsNumber.div (overridePercent cur value) (JsNumber.ofZ 100).

(** [command('override:feed', value)]. *)
Definition override_feed (value : JsNumber.number) (c : Controller) : Controller :=
  command_gcode
    ["{mfo:" ++ numberToString (overrideValue (mfo (runnerSettings (runner c))) value)
     ++ "}"] c.

(** [command('override:spindle', value)]. *)
Definition override_spindle (value : JsNumber.number) (c : Controller) : Controller :=
  command_gcode
    ["{sso:" ++ numberToString (overrideValue (sso (runnerSettings (runner c))) value)
     ++ "}"] c.

(** [command('override:rapid', value)]. *)
Definition override_rapid (value : JsNumber.number) (c : Controller) : Controller :=
  if JsNumber.eqb value (JsNumber.ofZ 0) || JsNumber.eqb value (JsNumber.ofZ 100)
  then command_gcode ["{mto:1}"] c
  else if JsNumber.eqb value (JsNumber.ofZ 50) then command_gcode ["{mto:0.5}"] c
  else if JsNumber.eqb value (JsNumber.ofZ 25) then command_gcode ["{mto:0.25}"] c
  else c.

(** [command('motor:disable')]. *)
Definition motor_disable (c : Controller) : Controller :=
  command_gcode ["{pwr:n}"] (command_gcode ["{md:0}"] c).

(** [command('motor:enable', mt)]; [mt] is [Number(mt)] for the value the
    destructuring binds, the argument or [this.state.mt] when it is left
    out. *)
Definition motor_enable (mt : JsNumber.number) (c : Controller) : Controller :=
  let mt := JsNumber.orZero mt in
  if JsNumber.leb mt (JsNumber.ofZ 0) then motor_disable c
  else command_gcode ["{pwr:n}"]
         (command_gcode ["{me:" ++ numberToString mt ++ "}"] c).

(** [command('motor:timeout', mt)]; [mt] is [Number(mt)]. *)
Definition motor_timeout (mt : JsNumber.number) (c : Controller) : Controller :=
  let mt := JsNumber.orZero mt in
  if JsNumber.leb (JsNumber.ofZ 0) mt
  then command_gcode ["{mt:" ++ numberToString mt ++ "}"] c
  else c.

(** [command('lasertest', power, duration, maxS)], with the values the
    destructuring binds (0, 0 and 1000 for arguments left out). *)
Definition lasertest (power duration maxS : JsNumber.number) (c : Controller) : Controller :=
  if JsNumber.isFalsy power then command_gcode ["M5S0"] c
  else
    let c :=
      command_gcode
        ["M3S" ++ numberToString
                    (ensurePositiveNumber
                       (JsNumber.mul maxS (JsNumber.div power (JsNumber.ofZ 100))))] c in
    if JsNumber.ltb (JsNumber.ofZ 0) duration
    then command_gcode ["M5S0"]
           (command_gcode
              ["G4P" ++ numberToString
                          (ensurePositiveNumber
                             (JsNumber.div duration (JsNumber.ofZ 1000)))] c)
    else c.

(** [_.find(macros, { id: id })]. *)
Definition findMacro (id : string) (macros : list Macro) : option Macro :=
  find (fun m => String.eqb (macroId m) id) macros.

(** [command('macro:run', id)]; [macros] is what [config.get('macros')]
    returns at the call. *)
Definition macro_run (id : string) (macros : list Macro) (c : Controller) : Controller :=
  match findMacro id macros with
  | None => c
  | Some macro => command_gcode [macroContent macro] (event_trigger "macro:run" c)
  end.

(** [command('macro:load', id)]. *)
Definition macro_load (id : string) (macros : list Macro) (c : Controller) : Controller :=
  match findMacro id macros with
  | None => c
  | Some macro => sender_load (macroContent macro) (event_trigger "macro:load" c)
  end.

(** [command('watchdir:load', file)], at the callback of
    [monitor.readFile]. *)
Definition watchdir_load (data : option string) (c : Controller) : Controller :=
  match data with
  | None => c
  | Some content => sender_load content c
  end.

Inductive Command :=
| CmdSenderLoad (content : string)
| CmdSenderUnload
| CmdSenderStart
| CmdSenderStop (force : bool)
| CmdSenderPause
| CmdSenderResume
| CmdFeederStart
| CmdFeederStop
| CmdFeedhold
| CmdCyclestart
| CmdHoming
| CmdSleep
| CmdUnlock
| CmdReset
| CmdOverrideFeed (value : JsNumber.number)
| CmdOverrideSpindle (value : JsNumber.number)
| CmdOverrideRapid (value : JsNumber.number)
| CmdMotorEnable (mt : JsNumber.number)
| CmdMotorDisable
| CmdMotorTimeout (mt : JsNumber.number)
| CmdLasertest (power duration maxS : JsNumber.number)
| CmdGcode (commands : list string)
| CmdMacroRun (id : string) (macros : list Macro)
| CmdMacroLoad (id : string) (macros : list Macro)
| CmdWatchdirLoad (file : string) (data : option string).

(** [command(cmd, ...args)].  [macros] is what [config.get('macros')]
    returns at the call, and [data] what [monitor.readFile] hands to its
    callback, [None] standing for an error. *)
Definition command (cmd : Command) (c : Controller) : Controller :=
  match cmd with
  | CmdSenderLoad content => sender_load content c
  | CmdSenderUnload => sender_unload c
  | CmdSenderStart => sender_start c
  | CmdSenderStop force => sender_stop force c
  | CmdSenderPause => sender_pause c
  | CmdSenderResume => sender_resume c
  | CmdFeederStart => feeder_start c
  | CmdFeederStop => feeder_reset c
  | CmdFeedhold => writeln QUEUE_REPORT (writeln "!" (event_trigger "feedhold" c))
  | CmdCyclestart => writeln QUEUE_REPORT (writeln "~" (event_trigger "cyclestart" c))
  | CmdHoming => writeln "G28.2 X0 Y0 Z0" (event_trigger "homing" c)
  | CmdSleep => event_trigger "sleep" c
  | CmdUnlock => writeln "{clear:null}" c
  | CmdReset => write (String (ascii_of_nat 24) EmptyString) (feeder_reset (workflow_stop c))
  | CmdOverrideFeed value => override_feed value c
  | CmdOverrideSpindle value => override_spindle value c
  | CmdOverrideRapid value => override_rapid value c
  | CmdMotorEnable mt => motor_enable mt c
  | CmdMotorDisable => motor_disable c
  | CmdMotorTimeout mt => motor_timeout mt c
  | CmdLasertest power duration maxS => lasertest power duration maxS c
  | CmdGcode commands => command_gcode commands c
  | CmdMacroRun id macros => macro_run id macros c
  | CmdMacroLoad id macros => macro_load id macros c
  | CmdWatchdirLoad file data => watchdir_load data c
  end.

(** *** Bring-up *)

(** [_.pickBy(this.sr, (value, key) => !!value)]: the keys whose bit is
    set, in the order of the object. *)
Definition pickedKeys (m : list (string * bool)) : list string :=
  map fst (filter snd m).

(** [JSON.stringify({ sr: picked })] where every picked value is [true]. *)
Definition stringifySr (keys : list string) : string :=
  "{" ++ DQ ++ "sr" ++ DQ ++ ":{"
  ++ JsString.join "," (map (fun k => DQ ++ k ++ DQ ++ ":true") keys)
  ++ "}}".

(** The first [replace] of [relaxedJSON]: every double quote is removed. *)
Fixpoint removeQuotes (s : string) : string :=
  match s with
  | EmptyString => EmptyString
  | String c r =>
      if (nat_of_ascii c =? 34)%nat then removeQuotes r else String c (removeQuotes r)
  end.

(** [json.replace(/true/g, 't')]. *)
Fixpoint replaceTrue (s : string) : string :=
  match s with
  | EmptyString => EmptyString
  | String c r =>
      match s with
      | String "t" (String "r" (String "u" (String "e" rest))) =>
          String "t" (replaceTrue rest)
      | _ => String c (replaceTrue r)
      end
  end.

Definition relaxedJSON (json : string) : string := replaceTrue (removeQuotes json).

(** The status report field selection that [initController] sends. *)
Definition srFieldsCommand (c : Controller) : string :=
  relaxedJSON (stringifySr (pickedKeys (sr c))).

(** The [send] helper of [initController]. *)
Definition send (cmd : string) (c : Controller) : Controller :=
  if negb (isOpen c) then c
  else if (TINYG_SERIAL_BUFFER_LIMIT <=? String.length cmd)%nat then c
  else command_gcode [cmd] c.

Definition sendAll (l : list string) (c : Controller) : Controller :=
  fold_left (fun c cmd => send cmd c) l c.

(** [initController()], cut at its delays: phase 0 sets the modes, phases
    1 to 6 probe one capability each, phase 7 selects the status report
    fields and requests the settings, phase 8 fires [controller:ready]. *)
Definition initController (phase : nat) (c : Controller) : Controller :=
  match phase with
  | 0%nat => sendAll ["{ej:1}"; "{jv:4}"; "{qv:1}"; "{sv:1}"; "{si:100}"] c
  | 1%nat => send "{spe:n}" c
  | 2%nat => send "{spd:n}" c
  | 3%nat => send "{spc:n}" c
  | 4%nat => send "{sps:n}" c
  | 5%nat => send "{com:n}" c
  | 6%nat => send "{cof:n}" c
  | 7%nat => sendAll ["{sys:n}"; "{mt:n}"; "{pwr:n}"; "{qr:n}"; "{sr:n}"]
           (send (srFieldsCommand c) c)
  | 8%nat => event_trigger "controller:ready" c
  | _ => c
  end.

(** *** Events *)

Inductive WorkflowCall := WfStart | WfStop | WfPause (reason : option HoldReason) | WfResume.

Inductive Event :=
| FrameR (r : JValue)
| FrameQr (qr : Z)
| FrameF (f : list Z)
| RunnerUpdate (r : Runner)
| Cmd (cmd : Command)
| Workflow (w : WorkflowCall)
| InitPhase (phase : nat)
| ConnectionOpened
| ConnectionClosed.

Definition workflow_call (w : WorkflowCall) (c : Controller) : Controller :=
  match w with
  | WfStart => workflow_start c
  | WfStop => workflow_stop c
  | WfPause reason => workflow_pause reason c
  | WfResume => workflow_resume c
  end.

(** One turn of the event loop.  [ConnectionOpened] is the callback of
    [open]: the connection is open, the sockets are told and the workflow
    is stopped; [ConnectionClosed] is [close]. *)
Definition step (c : Controller) (e : Event) : Controller :=
  match e with
  | FrameR r => on_r r c
  | FrameQr qr => on_qr qr c
  | FrameF f => on_f f c
  | RunnerUpdate r => setRunner r c
  | Cmd cmd => command cmd c
  | Workflow w => workflow_call w c
  | InitPhase phase => initController phase c
  | ConnectionOpened =>
      workflow_stop (emit "connection:open" (PText EmptyString) (setIsOpen true c))
  | ConnectionClosed =>
      setIsOpen false (emit "connection:close" (PText EmptyString) c)
  end.

Definition run (c : Controller) (events : list Event) : Controller :=
  fold_left step events c.

(** The status report mask the controller starts with. *)
Definition defaultSr : list (string * bool) :=
  map (fun k => (k, true))
    ["stat"; "line"; "vel"; "feed"; "unit"; "coor"; "momo"; "plan"; "path";
     "dist"; "admo"; "frmo"; "tool"; "posx"; "posy"; "posz"; "posa"; "posb";
     "posc"; "mpox"; "mpoy"; "mpoz"; "mpoa"; "mpob"; "mpoc";
     "spe"; "spd"; "spc"; "sps"; "com"; "cof"].

(** A freshly constructed controller. *)
Definition initial (r : Runner) (x : Context) (ignore : bool) (rules : list EventRule) : Controller :=
  mkController false WORKFLOW_STATE_IDLE false SENDER_STATUS_NONE
    Sender.initial Feeder.initial defaultSr None noSettings r x ignore rules [].

Definition reachable (c : Controller) : Prop :=
  exists r x ignore rules events, c = run (initial r x ignore rules) events.

End TinyGController.

Unset Implicit Arguments.

(** ** A concrete environment

    The water marks are those of the scenarios of the specification
    (low 8, high 20); expressions are left as they are and a line is
    tokenized at its blanks. *)

Module Example.

Fixpoint wordsFrom (cur : string) (s : string) : list string :=
  match s with
  | EmptyString => match cur with EmptyString => [] | _ => [cur] end
  | String c r =>
      if JsString.isSpace c
      then match cur with
           | EmptyString => wordsFrom EmptyString r
           | _ => cur :: wordsFrom EmptyString r
           end
      else wordsFrom (cur ++ String c EmptyString) r
  end.

Definition showQ (q : Q) : string :=
  let r := Qred q in
  match Qden r with
  | xH => NilZero.string_of_int (Z.to_int (Qnum r))
  | d => NilZero.string_of_int (Z.to_int (Qnum r)) ++ "/"
         ++ NilZero.string_of_uint (Pos.to_uint d)
  end.

(** The rational a finite number denotes. *)
Definition toQ (s : bool) (m : positive) (e : Z) : Q :=
  let v := match e with
           | Zneg p => Zpos m # Pos.pow 2 p
           | _ => inject_Z (Zpos m * 2 ^ e)
           end in
  if s then Qopp v else v.

(** Integral values are printed in decimal, as JavaScript prints them;
    the examples format no other finite value, which is shown as a
    fraction. *)
Definition showNumber (x : JsNumber.number) : string :=
  match x with
  | SpecFloat.S754_zero _ => "0"
  | SpecFloat.S754_infinity s => if s then "-Infinity" else "Infinity"
  | SpecFloat.S754_nan => "NaN"
  | SpecFloat.S754_finite s m e => showQ (toQ s m e)
  end.

(** A stand-in for [ensurePositiveNumber]: positive numbers are kept,
    the others give 0. *)
Definition positiveOrZero (x : JsNumber.number) : JsNumber.number :=
  if JsNumber.ltb (JsNumber.ofZ 0) x then x else JsNumber.ofZ 0.

Definition env : Env :=
  mkEnv unit (fun _ x => x) (fun _ x => x) (fun line _ => line)
    (wordsFrom EmptyString) showNumber positiveOrZero 8 20 254 [(3, "Internal error")]%Z.

(** The firmware reports build 101.02 and both overrides at 100%. *)
Definition settings0 : Settings :=
  mkSettings (Some (10102 # 100)) JsNumber.ONE JsNumber.ONE.

Definition runner0 : Runner := mkRunner false 32 settings0.

Definition start : Controller env := initial env runner0 tt false [].

(** A six-line program is started and its first four lines are
    acknowledged: five lines sent, four received, the workflow running. *)
Definition program : string :=
  "G0 X0" ++ JsString.LF ++ "G1 X1" ++ JsString.LF ++ "G1 X2" ++ JsString.LF
  ++ "G1 X3" ++ JsString.LF ++ "G1 X4" ++ JsString.LF ++ "N7 G1 X5".

Definition midRun : list Event :=
  [ConnectionOpened;
   Cmd (CmdSenderLoad program);
   Cmd CmdSenderStart;
   FrameR (JObj [("n", JNum 1)]);
   FrameR (JObj [("n", JNum 2)]);
   FrameR (JObj [("n", JNum 3)]);
   FrameR (JObj [("n", JNum 4)])].

Definition midProgram : Controller env := run start midRun.

(** A three-line program is started; the planner queue falls to 4 free
    slots and the acknowledgement of the first line arrives. *)
Definition blockedRun : list Event :=
  [ConnectionOpened;
   Cmd (CmdSenderLoad ("G0 X1" ++ JsString.LF ++ "G1 X2" ++ JsString.LF ++ "G1 X3"));
   Cmd CmdSenderStart;
   FrameQr 4;
   FrameR (JObj [("n", JNum 1)])].

Definition blockedState : Controller env := run start blockedRun.

(** The same run before the acknowledgement arrives. *)
Definition blockedEarly : Controller env := run start (firstn 4 blockedRun).

(** A one-line program is run to its end: both the line and the closing
    [%wait] dwell are sent and acknowledged. *)
Definition drainedRun : list Event :=
  [ConnectionOpened;
   Cmd (CmdSenderLoad "G0 X1");
   Cmd CmdSenderStart;
   FrameR (JObj [("n", JNum 1)]);
   FrameR (JObj [("n", JNum 2)])].

Definition drainedState : Controller env := run start drainedRun.

(** The same run just after [sender:start]: the line is out, the closing
    [%wait] is next. *)
Definition startedState : Controller env := run start (firstn 3 drainedRun).

(** The same run on a Runner that reports a planner buffer pool of 4. *)
Definition smallPoolState : Controller env :=
  run start (ConnectionOpened :: RunnerUpdate (mkRunner false 4 (mkSettings (Some 100) JsNumber.ONE JsNumber.ONE))
             :: tl drainedRun).

(** A four-line program is started and its four lines are acknowledged:
    the closing [%wait] is out as the fifth line and holds the Sender. *)
Definition lastLineRun : list Event :=
  [ConnectionOpened;
   Cmd (CmdSenderLoad ("G0 X0" ++ JsString.LF ++ "G1 X1" ++ JsString.LF
                       ++ "G1 X2" ++ JsString.LF ++ "G1 X3"));
   Cmd CmdSenderStart;
   FrameR (JObj [("n", JNum 1)]);
   FrameR (JObj [("n", JNum 2)]);
   FrameR (JObj [("n", JNum 3)]);
   FrameR (JObj [("n", JNum 4)])].

Definition lastLineState : Controller env := run start lastLineRun.

(** The reply to the probe [{spe:n}] on a firmware without spindle enable. *)
Definition speNull : JValue := JObj [("spe", JNull)].

End Example.

(** ** Predicates and specification-side definitions *)

Set Implicit Arguments.

Section Predicates.

Variable E : Env.
Implicit Types c : Controller E.

(** What the flow-control invariants look at: the workflow state, the
    Sender, the hysteresis flag and the sender status. *)
Definition view c : WorkflowState * SenderState * bool * SenderStatus :=
  (workflow c, sender c, blocked c, senderStatus c).

(** The effect of a step that can at most hold the Sender: program and
    counters stay, a held Sender stays held, and the workflow either
    stays or goes from running to paused with the Sender held. *)
Definition holdsOnly c c1 : Prop :=
  lines (sender c1) = lines (sender c)
  /\ sent (sender c1) = sent (sender c)
  /\ received (sender c1) = received (sender c)
  /\ blocked c1 = blocked c
  /\ senderStatus c1 = senderStatus c
  /\ isOpen c1 = isOpen c
  /\ (hold (sender c) = true -> sender c1 = sender c)
  /\ (workflow c1 = workflow c
      \/ (workflow c = WORKFLOW_STATE_RUNNING
          /\ workflow c1 = WORKFLOW_STATE_PAUSED /\ hold (sender c1) = true)).

(** The calls to [sender.ack()] and [sender.next()] found in a trace. *)
Definition senderCalls (l : list Action) : list Action :=
  filter (fun a => match a with SenderAck | SenderNext => true | _ => false end) l.

(** [sent <= total]; with [strict], also [received <= sent]; and a paused
    workflow holds the Sender. *)
Definition Safe (strict : bool) c : Prop :=
  (sent (sender c) <= total (sender c))%nat
  /\ (strict = true -> (received (sender c) <= sent (sender c))%nat)
  /\ (workflow c = WORKFLOW_STATE_PAUSED -> hold (sender c) = true).

Definition isAckFrame (e : Event) : bool :=
  match e with
  | FrameR _ | FrameQr _ => true
  | _ => false
  end.

(** The lines the Sender's [data] handler wrote to the connection. *)
Definition senderWrites (l : list Action) : list Action :=
  filter (fun a => match a with ConnWrite FromSender _ => true | _ => false end) l.

(** The controller once [on_qr] has stored the report and applied the
    high-water test. *)
Definition afterHysteresis (q : Z) c : Controller E :=
  if (q >=? HIGH_WATER_MARK E)%Z
  then setBlocked false (setStateQr q c) else setStateQr q c.

(** The status report mask, the connection state, the Runner and the
    mirrored settings are untouched by everything except capability
    replies, [open]/[close], Runner updates and the query timer. *)
Definition stable c c' : Prop :=
  sr c' = sr c /\ isOpen c' = isOpen c /\ runner c' = runner c
  /\ settings c' = settings c.

(** The calls to [writeln] and the writes of [write] found in a trace. *)
Definition clientTrace (l : list Action) : list Action :=
  filter (fun a => match a with
                   | Writeln _ | ConnWrite FromClient _ => true
                   | _ => false
                   end) l.

(** The string made of the given code units. *)
Definition bytes (l : list nat) : string := string_of_list_ascii (map ascii_of_nat l).

(** The data [write] put on the connection, in the order of the trace. *)
Definition clientWrites (l : list Action) : list string :=
  flat_map (fun a => match a with ConnWrite FromClient d => [d] | _ => [] end) l.

(** What [writeln(d)] adds to the trace: the call, and the write of the
    line with its newline when the connection is open. *)
Definition wire (open : bool) (d : string) : list Action :=
  Writeln d :: (if open then [ConnWrite FromClient (d ++ JsString.LF)] else []).

(** The lines [command('gcode', commands)] hands to the Feeder. *)
Definition gcodeData (commands : list string) : list string :=
  filter (fun line => negb (String.length (JsString.trim line) =? 0)%nat)
    (JsString.splitLines (JsString.join JsString.LF commands)).

(** [this.sr[k]]. *)
Definition bit (k : string) (m : list (string * bool)) : option bool :=
  option_map snd (find (fun kv => String.eqb (fst kv) k) m).

(** The masks the controller can hold: the default one with any of the
    six probed bits cleared. *)
Definition probedMask (spe spd spc sps com cof : bool) : list (string * bool) :=
  (firstn 25 defaultSr
   ++ [("spe", spe); ("spd", spd); ("spc", spc); ("sps", sps); ("com", com); ("cof", cof)])%list.

Definition maskShape (m : list (string * bool)) : Prop :=
  exists b1 b2 b3 b4 b5 b6, m = probedMask b1 b2 b3 b4 b5 b6.

(** The field selection as the specification words it: an object [sr]
    listing, without quotes and with [t] for true, only the keys whose
    bit is set. *)
Definition specSrCommand (m : list (string * bool)) : string :=
  "{sr:{"
  ++ JsString.join "," (map (fun kv => fst kv ++ ":t") (filter snd m))
  ++ "}}".



(** The calls to [feeder.next()] and the structured error broadcasts
    found in a trace. *)
Definition footerTrace (l : list Action) : list Action :=
  filter (fun a => match a with
                   | FeederNext | Emit _ (PError _ _ _) => true
                   | _ => false
                   end) l.

(** The tests under which [runner.on('qr', ...)] goes on to
    [sender.next()]: past the low-water return, with the workflow running
    and either an acknowledgement pending or the [%wait] release due. *)
Definition qrCanRelease (q : Z) c : bool :=
  (LOW_WATER_MARK E <? q)%Z
  && WorkflowState_eqb (workflow c) WORKFLOW_STATE_RUNNING
  && match senderStatus c with
     | SENDER_STATUS_ACK => true
     | SENDER_STATUS_NEXT =>
         hold (sender c)
         && (sent (sender c) <=? received (sender c))%nat
         && (q >=? plannerBufferPoolSize (runner c))%Z
     | SENDER_STATUS_NONE => false
     end.

End Predicates.

Unset Implicit Arguments.

(** ** Further definitions: traces, pulls, commands by name and the query timer *)

Set Implicit Arguments.

Section MorePredicates.

Variable E : Env.
Implicit Types c : Controller E.

(** Everything written to the connection, whoever wrote it. *)
Definition connWrites (l : list Action) : list Action :=
  filter (fun a => match a with ConnWrite _ _ => true | _ => false end) l.

(** The connection is closed and the bytes written so far are [W]. *)
Definition Closed (W : list Action) c : Prop :=
  isOpen c = false /\ connWrites (log c) = W.

(** [s.includes(ch)] for one character. *)
Fixpoint occurs (ch : ascii) (s : string) : bool :=
  match s with
  | EmptyString => false
  | String x r => Ascii.eqb x ch || occurs ch r
  end.

Definition LFchar : ascii := ascii_of_nat 10.

(** [line.trim().length > 0]. *)
Definition notBlank (line : string) : bool :=
  negb (String.length (JsString.trim line) =? 0)%nat.

(** A trace entry that feeds the Feeder feeds only lines shorter than
    [limit]. *)
Definition feedsBelow (limit : nat) (a : Action) : Prop :=
  match a with
  | FeederFeed d => Forall (fun l => (String.length l < limit)%nat) d
  | _ => True
  end.

Definition notFeed (a : Action) : Prop :=
  match a with
  | FeederFeed _ => False
  | _ => True
  end.

(** The calls to [feeder.next()] found in a trace. *)
Definition feederPulls (l : list Action) : list Action :=
  filter (fun a => match a with FeederNext => true | _ => false end) l.

Definition isFrame (e : Event) : bool :=
  match e with
  | FrameR _ | FrameQr _ | FrameF _ => true
  | _ => false
  end.

(** Whether every write of the Feeder and of [write] found in a trace
    comes right after the [connection:write] broadcast of the same data,
    and no write of the Sender's data handler comes right after a
    [connection:write] broadcast; [prev] is the action before the
    trace. *)
Fixpoint announcedFrom (prev : option Action) (l : list Action) : bool :=
  match l with
  | [] => true
  | a :: r =>
      match a with
      | ConnWrite FromSender _ =>
          match prev with
          | Some (Emit ev _) => negb (String.eqb ev "connection:write")
          | _ => true
          end
      | ConnWrite _ d =>
          match prev with
          | Some (Emit ev (PText d')) =>
              String.eqb ev "connection:write" && String.eqb d' d
          | _ => false
          end
      | _ => true
      end && announcedFrom (Some a) r
  end.

Definition announced (l : list Action) : bool := announcedFrom None l.

(** The trace grew from [c0] to [c] by an announced part. *)
Definition announcedSince c0 c : Prop :=
  exists l, log c = (log c0 ++ l)%list /\ announced l = true.

(** An idle workflow has a rewound Sender: nothing sent, nothing
    acknowledged, no hold, no pending sender status. *)
Definition Rewound c : Prop :=
  workflow c = WORKFLOW_STATE_IDLE ->
  sent (sender c) = 0%nat /\ received (sender c) = 0%nat
  /\ hold (sender c) = false /\ senderStatus c = SENDER_STATUS_NONE.

(** The pause a line asks for: [M0] or [M1], whichever comes first among
    its words, otherwise [M6] when it is among them. *)
Definition pauseCode (words : list string) : option string :=
  match programMode words with
  | Some m => Some m
  | None => if includes words "M6" then Some "M6" else None
  end.

(** The line the filters go on with once comments and blanks are
    stripped and the expressions translated. *)
Definition translated (line : string) c : string :=
  envTranslateExpression E (JsString.trim (JsString.removeComments line))
    (envPopulateContext E (runner c) (sharedContext c)).

(** Modelled from the spec: what [lib/Sender.js] and [lib/Feeder.js] do
    with a line they pull (sections 4.5 and 4.6): the filter, then the
    [data] handler on what the filter returned. *)
Definition senderPull (line : string) c : Controller E :=
  let (out, c1) := senderDataFilter line c in senderOnData out c1.

Definition feederPull (line : string) c : Controller E :=
  let (out, c1) := feederDataFilter line c in feederOnData out c1.

(** The shared context after the assignment of an expression line. *)
Definition assigned (line : string) c : envContext E :=
  envEvaluateAssignmentExpression E
    (slice1 (JsString.trim (JsString.removeComments line)))
    (envPopulateContext E (runner c) (sharedContext c)).

(** The event triggers fired, by name, in the order of the trace. *)
Definition triggers (l : list Action) : list string :=
  flat_map (fun a => match a with Trigger ev => [ev] | _ => [] end) l.

(** The event trigger that goes with an event of the controller. *)
Definition triggerOf (e : Event) : list string :=
  match e with
  | Cmd (CmdSenderLoad _) => ["sender:load"]
  | Cmd CmdSenderUnload => ["sender:unload"]
  | Cmd CmdSenderStart => ["sender:start"]
  | Cmd (CmdSenderStop _) => ["sender:stop"]
  | Cmd CmdSenderPause => ["sender:pause"]
  | Cmd CmdSenderResume => ["sender:resume"]
  | Cmd CmdFeedhold => ["feedhold"]
  | Cmd CmdCyclestart => ["cyclestart"]
  | Cmd CmdHoming => ["homing"]
  | Cmd CmdSleep => ["sleep"]
  | Cmd (CmdMacroRun id macros) =>
      match findMacro id macros with Some _ => ["macro:run"] | None => [] end
  | Cmd (CmdMacroLoad id macros) =>
      match findMacro id macros with
      | Some _ => ["macro:load"; "sender:load"]
      | None => []
      end
  | Cmd (CmdWatchdirLoad _ (Some _)) => ["sender:load"]
  | InitPhase 8 => ["controller:ready"]
  | _ => []
  end.

(** The triggers fired so far are [W]. *)
Definition Fired (W : list string) c : Prop := triggers (log c) = W.

(** *** The query timer *)

(** The controller together with the two fields the query timer works
    on: the [ready] flag and [actionTime.senderFinishTime], a time in
    milliseconds, 0 when no program has just finished. *)
Record Timed := mkTimed {
  ctl : Controller E;
  ready : bool;
  senderFinishTime : Z
}.

(** What one firing of the timer reads outside the controller:
    [feeder.peek()], [sender.peek()], whether the Runner has new
    settings and a new state, whether the work position of the state
    reported last equals the Runner's, [runner.isIdle()], and the
    clock. *)
Record Tick := mkTick {
  feederPeek : bool;
  senderPeek : bool;
  newSettings : bool;
  newState : bool;
  zeroOffset : bool;
  runnerIdle : bool;
  now : Z
}.

(** The broadcasts of the timer; their payloads are left out. *)
Definition emitAll (events : list string) c : Controller E :=
  fold_left (fun c ev => emit ev (PText EmptyString) c) events c.

(** [machineIdle = zeroOffset && this.runner.isIdle()]. *)
Definition machineIdle (t : Tick) : bool := zeroOffset t && runnerIdle t.

(** The callback of [setInterval(..., 250)]. *)
Definition queryTimer (t : Tick) (s : Timed) : Timed :=
  if negb (isOpen (ctl s)) then s
  else
    let c := ctl s in
    let c := if feederPeek t then emitAll ["feeder:status"] c else c in
    let c := if senderPeek t then emitAll ["sender:status"] c else c in
    let c := if newSettings t
             then emitAll ["controller:settings"; "TinyG:settings"]
                    (setSettings (runnerSettings (runner c)) c)
             else c in
    let c := if newState t
             then emitAll ["controller:state"; "TinyG:state"] c else c in
    if negb (ready s) then mkTimed c (ready s) (senderFinishTime s)
    else if (senderFinishTime s >? 0)%Z then
      if negb (machineIdle t) then mkTimed c (ready s) (now t)
      else if (Z.abs (now t - senderFinishTime s) >? 500)%Z
      then mkTimed (sender_stop false c) (ready s) 0
      else mkTimed c (ready s) (senderFinishTime s)
    else mkTimed c (ready s) (senderFinishTime s).

(** What happens to a controller with its timer: the timer fires, the
    Sender reports the start or the end of the program
    ([sender.on('start')] and [sender.on('end')]), an event of the
    controller is processed, the wait for the bootloader that follows
    [open] is over, or the connection reports an error. *)
Inductive TimerEvent :=
| TimerFired (t : Tick)
| SenderStarted
| SenderFinished (finishTime : Z)
| Ctl (e : Event)
| BootDelayOver
| ConnectionError.

Definition timedStep (s : Timed) (ev : TimerEvent) : Timed :=
  match ev with
  | TimerFired t => queryTimer t s
  | SenderStarted => mkTimed (ctl s) (ready s) 0
  | SenderFinished finishTime => mkTimed (ctl s) (ready s) finishTime
  | Ctl ConnectionOpened => mkTimed (step (ctl s) ConnectionOpened) (ready s) 0
  | Ctl ConnectionClosed => mkTimed (step (ctl s) ConnectionClosed) false (senderFinishTime s)
  | Ctl e => mkTimed (step (ctl s) e) (ready s) (senderFinishTime s)
  | BootDelayOver => mkTimed (ctl s) true (senderFinishTime s)
  | ConnectionError => mkTimed (ctl s) false (senderFinishTime s)
  end.

Definition runTimed (s : Timed) (evs : list TimerEvent) : Timed :=
  fold_left timedStep evs s.

(** Events that leave the connection and the [ready] flag alone. *)
Definition steady (ev : TimerEvent) : bool :=
  match ev with
  | Ctl ConnectionOpened | Ctl ConnectionClosed | BootDelayOver | ConnectionError => false
  | _ => true
  end.

(** The clock readings of a history: the firings of the timer and the
    finish times of the Sender. *)
Definition timesOf (evs : list TimerEvent) : list Z :=
  flat_map (fun ev => match ev with
                      | TimerFired t => [now t]
                      | SenderFinished finishTime => [finishTime]
                      | _ => []
                      end) evs.

(** The times at which the machine was seen busy: the end of the
    program and the firings of the timer that did not find it idle. *)
Definition busyTimes (evs : list TimerEvent) : list Z :=
  flat_map (fun ev => match ev with
                      | TimerFired t => if machineIdle t then [] else [now t]
                      | SenderFinished finishTime => [finishTime]
                      | _ => []
                      end) evs.

Fixpoint nondecreasing (l : list Z) : bool :=
  match l with
  | a :: r => match r with
              | b :: _ => (a <=? b)%Z && nondecreasing r
              | [] => true
              end
  | [] => true
  end.

(** Once the timer is live, a positive finish time is the latest busy
    time seen. *)
Definition latestBusy (s : Timed) (seen : list TimerEvent) : Prop :=
  isOpen (ctl s) && ready s = true ->
  busyTimes seen <> [] ->
  (senderFinishTime s > 0)%Z ->
  In (senderFinishTime s) (busyTimes seen)
  /\ Forall (fun x => (x <= senderFinishTime s)%Z) (busyTimes seen).

(** The lines the Feeder's [data] handler wrote to the connection. *)
Definition feederWrites (l : list Action) : list Action :=
  filter (fun a => match a with ConnWrite FromFeeder _ => true | _ => false end) l.

(** Since the Feeder had written [W] and been pulled [P], it has written
    no more lines than it has been pulled. *)
Definition Pulled (W P : list Action) c : Prop :=
  exists w p, feederWrites (log c) = (W ++ w)%list
    /\ feederPulls (log c) = (P ++ p)%list
    /\ (List.length w <= List.length p)%nat.

(** How an event may move the workflow: [allowed e w w'] tells whether
    [e] may take it from [w] to [w'].  Stops and loads end idle, a load
    being that of [sender:load], of a macro that is found or of a watched
    file that could be read; a start ends running, or paused when the
    first line pauses; frames and pauses stay or go from running to
    paused; resumes stay or go from paused to running; nothing else
    moves it. *)
Definition allowed (e : Event) (w w' : WorkflowState) : bool :=
  let stay := WorkflowState_eqb w w' in
  let pauses :=
    stay || (WorkflowState_eqb w WORKFLOW_STATE_RUNNING
             && WorkflowState_eqb w' WORKFLOW_STATE_PAUSED) in
  match e with
  | Cmd (CmdSenderLoad _) | Cmd CmdSenderUnload | Cmd (CmdSenderStop _) | Cmd CmdReset
  | Cmd (CmdWatchdirLoad _ (Some _))
  | Workflow WfStop | ConnectionOpened =>
      WorkflowState_eqb w' WORKFLOW_STATE_IDLE
  | Cmd (CmdMacroLoad id macros) =>
      match findMacro id macros with
      | Some _ => WorkflowState_eqb w' WORKFLOW_STATE_IDLE
      | None => stay
      end
  | Cmd CmdSenderStart => negb (WorkflowState_eqb w' WORKFLOW_STATE_IDLE)
  | Workflow WfStart => WorkflowState_eqb w' WORKFLOW_STATE_RUNNING
  | FrameR _ | FrameQr _ | FrameF _ | Cmd CmdSenderPause | Workflow (WfPause _) => pauses
  | Cmd CmdSenderResume | Workflow WfResume =>
      stay || (WorkflowState_eqb w WORKFLOW_STATE_PAUSED
               && WorkflowState_eqb w' WORKFLOW_STATE_RUNNING)
  | _ => stay
  end.

(** The workflow stays where it is or goes from running to paused. *)
Definition pausesOnly (w w' : WorkflowState) : Prop :=
  w' = w \/ (w = WORKFLOW_STATE_RUNNING /\ w' = WORKFLOW_STATE_PAUSED).

(** The events that can call [sender.next()]: the acknowledging frames,
    [sender:start], [sender:resume] and the workflow's own resume. *)
Definition pullsSender (e : Event) : bool :=
  match e with
  | FrameR _ | FrameQr _ | Cmd CmdSenderStart | Cmd CmdSenderResume
  | Workflow WfResume => true
  | _ => false
  end.

(** *** Commands by name *)

(** The keys of the handler table of [command]. *)
Definition handlerKeys : list string :=
  ["sender:load"; "sender:unload"; "sender:start"; "sender:stop"; "sender:pause";
   "sender:resume"; "feeder:start"; "feeder:stop"; "feedhold"; "cyclestart";
   "homing"; "sleep"; "unlock"; "reset"; "override:feed"; "override:spindle";
   "override:rapid"; "motor:enable"; "motor:disable"; "motor:timeout"; "lasertest";
   "gcode"; "macro:run"; "macro:load"; "watchdir:load"].

(** The handlers that take no argument, or whose one argument is
    optional and left out ([sender:stop] without options does not
    force). *)
Definition handlerFor (cmd : string) : option Command :=
  option_map snd
    (find (fun kv => String.eqb (fst kv) cmd)
       [("sender:unload", CmdSenderUnload); ("sender:start", CmdSenderStart);
        ("sender:stop", CmdSenderStop false); ("sender:pause", CmdSenderPause);
        ("sender:resume", CmdSenderResume); ("feeder:start", CmdFeederStart);
        ("feeder:stop", CmdFeederStop); ("feedhold", CmdFeedhold);
        ("cyclestart", CmdCyclestart); ("homing", CmdHoming); ("sleep", CmdSleep);
        ("unlock", CmdUnlock); ("reset", CmdReset);
        ("motor:disable", CmdMotorDisable)]).

(** [command(cmd)] with a name and nothing else, as the controller calls
    it on itself: the handler runs when [cmd] is a key of the table, and
    nothing happens when it is not.  A key whose handler reads its
    arguments gives no result here. *)
Definition commandNamed (cmd : string) c : option (Controller E) :=
  match handlerFor cmd with
  | Some k => Some (command k c)
  | None => if existsb (String.eqb cmd) handlerKeys then None else Some c
  end.

(** The callback [open] gives to the connection, up to its wait for the
    bootloader: the sockets are told, the workflow is stopped and, when
    a program is loaded, [command('unload')] is called. *)
Definition onOpen c : option (Controller E) :=
  let c := workflow_stop (emit "connection:open" (PText EmptyString) (setIsOpen true c)) in
  match lines (sender c) with
  | [] => Some c
  | _ => commandNamed "unload" c
  end.

End MorePredicates.

(** [s] without the prefix [p], when it starts with it. *)
Fixpoint stripPrefix (p s : string) : option string :=
  match p with
  | EmptyString => Some s
  | String a p' =>
      match s with
      | String b s' => if Ascii.eqb a b then stripPrefix p' s' else None
      | EmptyString => None
      end
  end.

(** What follows a leading [true]. *)
Definition afterTrue (s : string) : option string := stripPrefix "true" s.

(** The double quote. *)
Definition DQchar : ascii := ascii_of_nat 34.


Unset Implicit Arguments.

(** ** Further example states *)

Module MoreExample.
Import Example.

(** The connection has just been opened. *)
Definition openState : Controller env := run start [ConnectionOpened].

(** The six-line program is loaded and nothing is started. *)
Definition loadedState : Controller env :=
  run start [ConnectionOpened; Cmd (CmdSenderLoad program)].

(** The run of [midProgram] is paused, and stopped, by the operator. *)
Definition pausedState : Controller env := run start (midRun ++ [Cmd CmdSenderPause]).

Definition stoppedState : Controller env :=
  run start (midRun ++ [Cmd (CmdSenderStop false)]).

(** The Runner reports an alarm on an open connection. *)
Definition alarmState : Controller env :=
  run start [ConnectionOpened; RunnerUpdate (mkRunner true 32 settings0)].

(** A program pause typed by hand: the Feeder sends [M0] and holds. *)
Definition heldFeederState : Controller env :=
  run start [ConnectionOpened; Cmd (CmdGcode ["M0"; "G0 X1"])].

(** A program whose second line is an assignment is started: its first
    line is out, the assignment is next. *)
Definition assignmentNext : Controller env :=
  run start
    [ConnectionOpened;
     Cmd (CmdSenderLoad
            ("G0 X1" ++ JsString.LF ++ "%zsafe=10" ++ JsString.LF ++ "G1 X2"));
     Cmd CmdSenderStart].

(** A footer that reports status code 3. *)
Definition errorFooter : list Z := [1; 3; 10]%Z.

(** A ready controller on an open connection, no program finished. *)
Definition readyTimer : Timed env := mkTimed openState true 0.

(** The timer finds new settings on the Runner. *)
Definition settingsTick (time : Z) : Tick := mkTick false false true false true true time.

(** The controller once the timer has mirrored the settings of
    [runner0], build 101.02; the same for a Runner that reports build
    100, and build 99. *)
Definition mirrored (r : Runner) : Controller env :=
  ctl (runTimed readyTimer [Ctl (RunnerUpdate r); TimerFired (settingsTick 250)]).

Definition build101 : Controller env := mirrored runner0.

Definition build100 : Controller env :=
  mirrored (mkRunner false 32 (mkSettings (Some 100) JsNumber.ONE JsNumber.ONE)).

Definition build99 : Controller env :=
  mirrored (mkRunner false 32 (mkSettings (Some 99) JsNumber.ONE JsNumber.ONE)).

Definition busyTick (time : Z) : Tick := mkTick false false false false true false time.
Definition idleTick (time : Z) : Tick := mkTick false false false false true true time.

(** The program ends at time 1000; the timer finds the machine busy at
    1100 and idle at 1350, with a queue report in between. *)
Definition finishHistory : list TimerEvent :=
  [SenderFinished 1000; TimerFired (busyTick 1100); Ctl (FrameQr 32);
   TimerFired (idleTick 1350)].

End MoreExample.

(** ** Properties *)

(** The handlers that only feed the Feeder, unfolded down to their calls
    of [command('gcode', ...)] and of the event trigger. *)
Ltac open_feeds :=
  unfold motor_enable, motor_timeout, lasertest, macro_run, motor_disable;
  repeat match goal with
         | |- context [match findMacro ?i ?m with _ => _ end] => destruct (findMacro i m)
         | |- context [if ?b then _ else _] => destruct b
         end.

Section Properties.

Variable E : Env.
Implicit Types c : Controller E.

Ltac crush_view :=
  repeat match goal with
         | |- context [if ?b then _ else _] => destruct b
         | |- context [match ?x with _ => _ end] => destruct x
         end; try reflexivity.

Lemma view_record : forall a c, view (record a c) = view c.
Proof. reflexivity. Qed.

Lemma view_write : forall d c, view (write d c) = view c.
Proof. intros; unfold write; crush_view. Qed.

Lemma view_writeln : forall d c, view (writeln d c) = view c.
Proof. intros; unfold writeln; rewrite view_write; reflexivity. Qed.

Lemma view_writelnAll : forall l c, view (writelnAll l c) = view c.
Proof.
  induction l as [|d l IH]; intros c; [reflexivity|].
  unfold writelnAll in *; simpl; rewrite IH; apply view_writeln.
Qed.

Lemma view_feederDataFilter : forall line c,
  view (snd (feederDataFilter line c)) = view c.
Proof. intros; unfold feederDataFilter; crush_view. Qed.

Lemma view_feederOnData : forall line c, view (feederOnData line c) = view c.
Proof. intros; unfold feederOnData; crush_view. Qed.

Lemma view_feeder_next : forall c, view (feeder_next c) = view c.
Proof.
  intros c; unfold feeder_next.
  destruct (fhold (feeder (record FeederNext c))); [reflexivity|].
  destruct (queue (feeder (record FeederNext c))) as [|line rest]; [reflexivity|].
  match goal with
  | |- context [feederDataFilter ?l ?x] =>
      pose proof (view_feederDataFilter l x) as H;
      destruct (feederDataFilter l x) as [out c1]
  end.
  simpl in H; rewrite view_feederOnData, H; reflexivity.
Qed.

Lemma view_command_gcode : forall l c, view (command_gcode l c) = view c.
Proof.
  intros; unfold command_gcode.
  match goal with |- context [if ?b then _ else _] => destruct b end;
    [rewrite view_feeder_next|]; reflexivity.
Qed.

Lemma view_event_trigger : forall ev c, view (event_trigger ev c) = view c.
Proof.
  intros ev c; unfold event_trigger.
  change (view c) with (view (record (Trigger ev) c)).
  assert (H : eventRules (record (Trigger ev) c) = eventRules c) by reflexivity.
  rewrite <- H; clear H.
  generalize (record (Trigger ev) c) at 2 3 as c0.
  generalize (eventRules (record (Trigger ev) c)) as rules.
  induction rules as [|rule rules IH]; intros c0; [reflexivity|].
  simpl; rewrite IH.
  destruct (String.eqb (ruleEvent rule) ev); [|reflexivity].
  destruct (ruleSystem rule); [reflexivity | apply view_command_gcode].
Qed.

Lemma view_send : forall cmd c, view (send cmd c) = view c.
Proof.
  intros; unfold send.
  repeat match goal with |- context [if ?b then _ else _] => destruct b end;
    try reflexivity; apply view_command_gcode.
Qed.

Lemma view_sendAll : forall l c, view (sendAll l c) = view c.
Proof.
  induction l as [|d l IH]; intros c; [reflexivity|].
  unfold sendAll in *; simpl; rewrite IH; apply view_send.
Qed.

Lemma view_feeds : forall cmd c,
  match cmd with
  | CmdMotorEnable _ | CmdMotorDisable | CmdMotorTimeout _ | CmdLasertest _ _ _
  | CmdMacroRun _ _ => view (command cmd c) = view c
  | _ => True
  end.
Proof.
  intros cmd c; destruct cmd; try exact I; simpl; open_feeds;
    rewrite ?view_command_gcode, ?view_event_trigger; reflexivity.
Qed.

Lemma view_parts : forall c c', view c' = view c ->
  workflow c' = workflow c /\ sender c' = sender c.
Proof. unfold view; intros c c' V; injection V; auto. Qed.

Lemma string_app_assoc : forall a b c : string, (a ++ b) ++ c = a ++ b ++ c.
Proof. induction a as [|ch a IH]; intros b c; simpl; [reflexivity | rewrite IH; reflexivity]. Qed.

(** *** The Sender side *)

Lemma holdsOnly_refl : forall c, holdsOnly c c.
Proof. intros c; unfold holdsOnly; intuition. Qed.

Lemma hold__held : forall reason s, hold (Sender.hold_ reason s) = true.
Proof. intros reason s; unfold Sender.hold_; destruct (hold s) eqn:H; auto. Qed.

Lemma sender_hold_holdsOnly : forall reason c, holdsOnly c (sender_hold reason c).
Proof.
  intros reason c; unfold holdsOnly, sender_hold, Sender.hold_; simpl.
  destruct (hold (sender c)) eqn:H; simpl; intuition congruence.
Qed.

Lemma workflow_pause_holdsOnly : forall reason c, holdsOnly c (workflow_pause reason c).
Proof.
  intros reason c; unfold workflow_pause.
  destruct (workflow c) eqn:W; try apply holdsOnly_refl.
  unfold holdsOnly, on_workflow_pause, sender_hold; simpl.
  rewrite hold__held; unfold Sender.hold_.
  destruct (hold (sender c)) eqn:H; simpl; intuition congruence.
Qed.

Lemma holdsOnly_trans : forall c c1 c2,
  holdsOnly c c1 -> holdsOnly c1 c2 -> holdsOnly c c2.
Proof.
  unfold holdsOnly; intros c c1 c2 H1 H2.
  destruct H1 as (L1 & S1 & R1 & B1 & T1 & O1 & K1 & W1).
  destruct H2 as (L2 & S2 & R2 & B2 & T2 & O2 & K2 & W2).
  repeat split; try congruence.
  - intros Hh. rewrite K2; [auto|]. rewrite K1; auto.
  - destruct W1 as [W1|(Wa & Wb & Wc)]; destruct W2 as [W2|(Wd & We & Wf)].
    + left; congruence.
    + right; repeat split; congruence.
    + right; repeat split; try congruence. rewrite K2; auto.
    + congruence.
Qed.

Lemma senderDataFilter_holdsOnly : forall line c,
  holdsOnly c (snd (senderDataFilter line c)).
Proof.
  intros line c; unfold senderDataFilter.
  destruct (startsWithPercent _).
  - destruct (String.eqb _ WAIT); simpl.
    + apply sender_hold_holdsOnly.
    + unfold holdsOnly; simpl; intuition.
  - simpl.
    match goal with
    | |- holdsOnly c (if _ then workflow_pause ?r ?c1 else ?c1) =>
        assert (H1 : holdsOnly c c1)
    end.
    { destruct (programMode _) as [m|]; [|apply holdsOnly_refl].
      destruct (String.eqb m "M0"); [apply workflow_pause_holdsOnly|].
      destruct (String.eqb m "M1"); [apply workflow_pause_holdsOnly|].
      apply holdsOnly_refl. }
    destruct (includes _ "M6"); [|exact H1].
    eapply holdsOnly_trans; [exact H1 | apply workflow_pause_holdsOnly].
Qed.

Lemma senderOnData_state : forall line c,
  sender (senderOnData line c) = sender c
  /\ workflow (senderOnData line c) = workflow c
  /\ blocked (senderOnData line c) = blocked c
  /\ senderStatus (senderOnData line c) = senderStatus c
  /\ isOpen (senderOnData line c) = isOpen c.
Proof.
  intros line c; unfold senderOnData.
  repeat match goal with |- context [if ?b then _ else _] => destruct b end;
    simpl; auto.
Qed.

(** [sender.next()] seen from the counters. *)
Lemma sender_next_effect : forall c,
  let c' := sender_next c in
  lines (sender c') = lines (sender c)
  /\ received (sender c') = received (sender c)
  /\ sent (sender c') =
       (if hold (sender c) || (total (sender c) <=? sent (sender c))%nat
        then sent (sender c) else S (sent (sender c)))
  /\ blocked c' = blocked c
  /\ senderStatus c' = senderStatus c
  /\ isOpen c' = isOpen c
  /\ (hold (sender c) = true -> sender c' = sender c)
  /\ (workflow c' = workflow c
      \/ (workflow c = WORKFLOW_STATE_RUNNING
          /\ workflow c' = WORKFLOW_STATE_PAUSED /\ hold (sender c') = true)).
Proof.
  intros c; unfold sender_next; simpl.
  destruct (hold (sender c)) eqn:Gh; simpl; [intuition|].
  destruct (sent (sender c) =? total (sender c))%nat eqn:Gs.
  { apply Nat.eqb_eq in Gs. rewrite Gs, Nat.leb_refl. simpl; intuition. }
  apply Nat.eqb_neq in Gs.
  destruct (nth_error (lines (sender c)) (sent (sender c))) as [line|] eqn:N.
  - assert (Hlt : (sent (sender c) < total (sender c))%nat)
      by (apply nth_error_Some; congruence).
    apply Nat.leb_gt in Hlt; rewrite Hlt.
    pose proof (senderDataFilter_holdsOnly line (record SenderNext c)) as H.
    destruct (senderDataFilter line (record SenderNext c)) as [out c1].
    simpl in H. unfold holdsOnly in H; simpl in H.
    destruct H as (L & S1 & R & B & T & O & K & W).
    destruct (senderOnData_state out c1) as (Ds & Dw & Db & Dt & Do).
    simpl; rewrite Ds, Dw, Db, Dt, Do.
    repeat split; try congruence.
  - apply nth_error_None in N.
    assert (Hge : (total (sender c) <=? sent (sender c))%nat = true)
      by (apply Nat.leb_le; exact N).
    rewrite Hge; simpl; intuition congruence.
Qed.

(** *** Acknowledgement gating *)

Lemma senderCalls_record : forall a c,
  senderCalls (log (record a c)) = (senderCalls (log c) ++ senderCalls [a])%list.
Proof. intros; unfold senderCalls; simpl; apply filter_app. Qed.

Lemma senderCalls_workflow_pause : forall reason c,
  senderCalls (log (workflow_pause reason c)) = senderCalls (log c).
Proof.
  intros reason c; unfold workflow_pause.
  destruct (workflow c); try reflexivity.
  unfold on_workflow_pause, sender_hold, emit; simpl.
  unfold senderCalls; rewrite !filter_app; simpl; rewrite !app_nil_r; reflexivity.
Qed.

Lemma senderCalls_senderDataFilter : forall line c,
  senderCalls (log (snd (senderDataFilter line c))) = senderCalls (log c).
Proof.
  intros line c; unfold senderDataFilter.
  destruct (startsWithPercent _).
  - destruct (String.eqb _ WAIT); simpl; [|reflexivity].
    unfold senderCalls; rewrite filter_app; simpl; apply app_nil_r.
  - simpl.
    match goal with
    | |- senderCalls (log (if _ then workflow_pause ?r ?c1 else ?c1)) = _ =>
        assert (H1 : senderCalls (log c1) = senderCalls (log c))
    end.
    { destruct (programMode _) as [m|]; [|reflexivity].
      destruct (String.eqb m "M0"); [apply senderCalls_workflow_pause|].
      destruct (String.eqb m "M1"); [apply senderCalls_workflow_pause|].
      reflexivity. }
    destruct (includes _ "M6"); [|exact H1].
    rewrite senderCalls_workflow_pause; exact H1.
Qed.

Lemma senderCalls_senderOnData : forall line c,
  senderCalls (log (senderOnData line c)) = senderCalls (log c).
Proof.
  intros line c; unfold senderOnData.
  repeat match goal with |- context [if ?b then _ else _] => destruct b end;
    try reflexivity.
  rewrite senderCalls_record; simpl; apply app_nil_r.
Qed.

Lemma senderCalls_sender_next : forall c,
  senderCalls (log (sender_next c)) = (senderCalls (log c) ++ [SenderNext])%list.
Proof.
  intros c; unfold sender_next.
  assert (H0 : senderCalls (log (record SenderNext c))
               = (senderCalls (log c) ++ [SenderNext])%list)
    by (rewrite senderCalls_record; reflexivity).
  destruct (hold _ || _); [exact H0|].
  destruct (nth_error _ _) as [line|]; [|exact H0].
  pose proof (senderCalls_senderDataFilter line (record SenderNext c)) as H.
  destruct (senderDataFilter line (record SenderNext c)) as [out c1].
  simpl snd in H. simpl. rewrite senderCalls_senderOnData, H. exact H0.
Qed.

Lemma senderCalls_sender_ack : forall c,
  senderCalls (log (sender_ack c)) = (senderCalls (log c) ++ [SenderAck])%list.
Proof.
  intros c; unfold sender_ack.
  assert (H0 : senderCalls (log (setSender (Sender.ack (sender c)) (record SenderAck c)))
               = (senderCalls (log c) ++ [SenderAck])%list)
    by (unfold senderCalls; simpl; rewrite filter_app; reflexivity).
  destruct (_ =? _)%nat; [|exact H0].
  rewrite senderCalls_record, H0; simpl; apply app_nil_r.
Qed.

Lemma ignoreUnrecognized_state : forall r c,
  view (ignoreUnrecognized r c) = view c
  /\ log (ignoreUnrecognized r c) = log c
  /\ isOpen (ignoreUnrecognized r c) = isOpen c
  /\ feeder (ignoreUnrecognized r c) = feeder c
  /\ runner (ignoreUnrecognized r c) = runner c.
Proof.
  intros r c; unfold ignoreUnrecognized, probedFields; simpl.
  repeat match goal with |- context [if ?b then _ else _] => destruct b end;
    simpl; auto.
Qed.

(** [sender.ack()] seen from the Sender: one more line is acknowledged
    when one is in flight, and nothing else moves. *)
Lemma ack_effect : forall s,
  lines (Sender.ack s) = lines s
  /\ sent (Sender.ack s) = sent s
  /\ received (Sender.ack s)
     = (if (received s <? sent s)%nat then S (received s) else received s)
  /\ hold (Sender.ack s) = hold s
  /\ holdReason (Sender.ack s) = holdReason s.
Proof.
  intros s; unfold Sender.ack.
  destruct (received s <? sent s)%nat; simpl; auto.
Qed.

Lemma sender_ack_sender : forall c, sender (sender_ack c) = Sender.ack (sender c).
Proof. intros c; unfold sender_ack. destruct (_ =? _)%nat; reflexivity. Qed.

Lemma sender_ack_state : forall c,
  workflow (sender_ack c) = workflow c
  /\ blocked (sender_ack c) = blocked c
  /\ senderStatus (sender_ack c) = senderStatus c
  /\ isOpen (sender_ack c) = isOpen c
  /\ feeder (sender_ack c) = feeder c
  /\ runner (sender_ack c) = runner c.
Proof. intros c; unfold sender_ack. destruct (_ =? _)%nat; simpl; auto 10. Qed.

(** C1 (amended). Every [r] frame processed while the workflow is running
    and the controller is not blocked sets [senderStatus] to ack, calls
    [sender.ack()] and then [sender.next()], and sets [senderStatus] to
    next; [received] grows by one when a line is in flight and [sent]
    grows by one unless the Sender is held or has no line left.  From
    [sent = 5], [received = 4] the frame gives [received = 5] and
    [senderStatus = next], with [sent = 6] when the Sender is not held
    and the program has a sixth line, and [sent = 5] otherwise. *)
Theorem on_r_running_acks_then_nexts : forall (r : JValue) c,
  workflow c = WORKFLOW_STATE_RUNNING ->
  blocked c = false ->
  let c' := on_r r c in
  c' = setSenderStatus SENDER_STATUS_NEXT
         (sender_next
            (sender_ack
               (setSenderStatus SENDER_STATUS_ACK (ignoreUnrecognized r c))))
  /\ senderStatus c' = SENDER_STATUS_NEXT
  /\ senderCalls (log c') = (senderCalls (log c) ++ [SenderAck; SenderNext])%list
  /\ received (sender c') =
       (if (received (sender c) <? sent (sender c))%nat
        then S (received (sender c)) else received (sender c))
  /\ sent (sender c') =
       (if hold (sender c) || (total (sender c) <=? sent (sender c))%nat
        then sent (sender c) else S (sent (sender c)))
  /\ (sent (sender c) = 5%nat -> received (sender c) = 4%nat ->
      received (sender c') = 5%nat
      /\ senderStatus c' = SENDER_STATUS_NEXT
      /\ sent (sender c') =
           (if hold (sender c) || (total (sender c) <=? 5)%nat then 5%nat else 6%nat)).
Proof.
  intros r c W B c'.
  destruct (ignoreUnrecognized_state r c) as (V & L & _).
  unfold view in V. injection V as Vw Vs Vb Vt.
  assert (Heq : c' = setSenderStatus SENDER_STATUS_NEXT
            (sender_next (sender_ack
               (setSenderStatus SENDER_STATUS_ACK (ignoreUnrecognized r c))))).
  { unfold c', on_r. rewrite Vw, W. simpl. rewrite Vb, B. reflexivity. }
  set (ca := setSenderStatus SENDER_STATUS_ACK (ignoreUnrecognized r c)) in *.
  assert (Hack : sender (sender_ack ca) = Sender.ack (sender c)).
  { rewrite sender_ack_sender. unfold ca; simpl; rewrite Vs; reflexivity. }
  destruct (sender_next_effect (sender_ack ca)) as (Nl & Nr & Ns & _).
  rewrite Hack in Nl, Nr, Ns.
  destruct (ack_effect (sender c)) as (Al & As & Ar & Ah & _).
  unfold total in Ns. rewrite Al, As, Ah in Ns. rewrite Ar in Nr.
  fold (total (sender c)) in Ns.
  assert (Hr : received (sender c') =
       (if (received (sender c) <? sent (sender c))%nat
        then S (received (sender c)) else received (sender c)))
    by (rewrite Heq; simpl; exact Nr).
  assert (Hs : sent (sender c') =
       (if hold (sender c) || (total (sender c) <=? sent (sender c))%nat
        then sent (sender c) else S (sent (sender c))))
    by (rewrite Heq; simpl; exact Ns).
  assert (Ht : senderStatus c' = SENDER_STATUS_NEXT) by (rewrite Heq; reflexivity).
  split; [exact Heq|]. split; [exact Ht|]. split.
  { rewrite Heq; simpl.
    rewrite senderCalls_sender_next, senderCalls_sender_ack.
    unfold ca; simpl; rewrite L, <- app_assoc; reflexivity. }
  split; [exact Hr|]. split; [exact Hs|].
  intros S5 R4. rewrite Hs, Hr, S5, R4. simpl.
  split; [reflexivity|]. split; [exact Ht|].
  destruct (hold (sender c) || _); reflexivity.
Qed.

(** *** Counter invariants *)

Lemma Safe_view : forall b c c', view c' = view c -> Safe b c -> Safe b c'.
Proof.
  unfold view, Safe; intros b c c' V H.
  injection V as Vw Vs Vb Vt. rewrite Vw, Vs. exact H.
Qed.

Lemma Safe_same : forall b c c',
  workflow c' = workflow c -> sender c' = sender c -> Safe b c -> Safe b c'.
Proof. unfold Safe; intros b c c' Vw Vs H. rewrite Vw, Vs. exact H. Qed.

Lemma Safe_weaken : forall c, Safe true c -> Safe false c.
Proof. unfold Safe; intuition congruence. Qed.

Lemma Safe_holdsOnly : forall b c c', holdsOnly c c' -> Safe b c -> Safe b c'.
Proof.
  unfold holdsOnly, Safe, total.
  intros b c c' (L & S1 & R & B & T & O & K & W) (H1 & H2 & H3).
  rewrite L, S1, R. repeat split; auto.
  intros P. destruct W as [W|(Wa & Wb & Wc)]; [|exact Wc].
  rewrite W in P. rewrite K; auto.
Qed.

Lemma Safe_sender_next : forall b c, Safe b c -> Safe b (sender_next c).
Proof.
  intros b c (H1 & H2 & H3).
  destruct (sender_next_effect c) as (L & R & S1 & B & T & O & K & W).
  unfold Safe, total in *. rewrite L, R, S1.
  repeat split.
  - destruct (hold (sender c)); simpl; [exact H1|].
    destruct (Nat.leb_spec (List.length (lines (sender c))) (sent (sender c))); lia.
  - intros Hb; specialize (H2 Hb).
    destruct (hold (sender c) || _); lia.
  - intros P. destruct W as [W|(Wa & Wb & Wc)]; [|exact Wc].
    rewrite W in P. rewrite K; auto.
Qed.

Lemma Safe_sender_ack : forall b c, Safe b c -> Safe b (sender_ack c).
Proof.
  intros b c (H1 & H2 & H3); unfold Safe.
  destruct (sender_ack_state c) as (W & _).
  destruct (ack_effect (sender c)) as (Al & As & Ar & Ah & _).
  rewrite sender_ack_sender, W. unfold total. rewrite Al, As, Ar, Ah.
  repeat split; auto.
  intros Hb; specialize (H2 Hb).
  destruct (Nat.ltb_spec (received (sender c)) (sent (sender c))); lia.
Qed.

Lemma Safe_setSenderStatus : forall b st c, Safe b c -> Safe b (setSenderStatus st c).
Proof. intros b st c H; exact H. Qed.

Lemma Safe_setBlocked : forall b x c, Safe b c -> Safe b (setBlocked x c).
Proof. intros b x c H; exact H. Qed.

Lemma Safe_ackNext : forall b c, Safe b c -> Safe b (ackNext c).
Proof.
  intros b c H; unfold ackNext.
  apply Safe_setSenderStatus, Safe_sender_next, Safe_sender_ack, H.
Qed.

Lemma Safe_unhold_next : forall b c,
  workflow c = WORKFLOW_STATE_RUNNING -> Safe b c ->
  Safe b (sender_next (sender_unhold c)).
Proof.
  intros b c W (H1 & H2 & H3). apply Safe_sender_next.
  unfold Safe, sender_unhold, Sender.unhold, total.
  destruct (hold (sender c)); simpl; rewrite W; repeat split; auto; discriminate.
Qed.

Lemma Safe_on_workflow_rewind : forall b c,
  workflow c <> WORKFLOW_STATE_PAUSED -> Safe b (on_workflow_rewind c).
Proof.
  intros b c W; unfold Safe, on_workflow_rewind, total; simpl.
  repeat split; [lia | intros; lia | intros P; contradiction].
Qed.

Lemma Safe_workflow_start : forall b c, Safe b c -> Safe b (workflow_start c).
Proof.
  intros b c H; unfold workflow_start.
  destruct (workflow c); try exact H;
    apply (Safe_on_workflow_rewind b); simpl; discriminate.
Qed.

Lemma Safe_workflow_stop : forall b c, Safe b c -> Safe b (workflow_stop c).
Proof.
  intros b c H; unfold workflow_stop.
  destruct (workflow c); try exact H;
    apply (Safe_on_workflow_rewind b); simpl; discriminate.
Qed.

Lemma Safe_workflow_pause : forall b reason c, Safe b c -> Safe b (workflow_pause reason c).
Proof. intros b reason c; apply Safe_holdsOnly, workflow_pause_holdsOnly. Qed.

Lemma Safe_workflow_resume : forall b c, Safe b c -> Safe b (workflow_resume c).
Proof.
  intros b c H; unfold workflow_resume.
  destruct (workflow c) eqn:W; try exact H.
  unfold on_workflow_resume. apply Safe_unhold_next; [reflexivity|].
  destruct H as (H1 & H2 & H3).
  unfold Safe; simpl; repeat split; auto; discriminate.
Qed.

Ltac safe_view1 :=
  lazymatch goal with
  | |- Safe _ (writeln _ _) => eapply Safe_view; [apply view_writeln|]
  | |- Safe _ (write _ _) => eapply Safe_view; [apply view_write|]
  | |- Safe _ (writelnAll _ _) => eapply Safe_view; [apply view_writelnAll|]
  | |- Safe _ (event_trigger _ _) => eapply Safe_view; [apply view_event_trigger|]
  | |- Safe _ (command_gcode _ _) => eapply Safe_view; [apply view_command_gcode|]
  | |- Safe _ (feeder_next _) => eapply Safe_view; [apply view_feeder_next|]
  | |- Safe _ (send _ _) => eapply Safe_view; [apply view_send|]
  | |- Safe _ (sendAll _ _) => eapply Safe_view; [apply view_sendAll|]
  | |- Safe _ (record _ _) => eapply Safe_view; [apply view_record|]
  | |- Safe _ (emit _ _ _) => eapply Safe_view; [apply view_record|]
  | |- Safe _ (feeder_reset _) => eapply Safe_view with (c := _); [reflexivity|]
  | |- Safe _ (feeder_unhold _) => eapply Safe_view with (c := _); [reflexivity|]
  end.

Ltac safe_view := repeat safe_view1.

Lemma Safe_sender_load : forall b content c, Safe b c -> Safe b (sender_load content c).
Proof.
  intros b content c H. unfold sender_load.
  destruct (Sender.load _ (sender c)) as [s|] eqn:Ld; [|exact H].
  apply Safe_workflow_stop. safe_view.
  unfold Sender.load in Ld.
  destruct (content ++ JsString.LF ++ DWELL); [discriminate|].
  injection Ld as <-. destruct H as (H1 & H2 & H3).
  unfold Safe, total; simpl; repeat split; auto; lia.
Qed.

Lemma Safe_command : forall b cmd c, Safe b c -> Safe b (command cmd c).
Proof.
  intros b cmd c H.
  pose proof (view_feeds cmd c) as F.
  destruct cmd; simpl; try (eapply Safe_view; [exact F | exact H]).
  - (* sender:load *)
    apply Safe_sender_load, H.
  - (* sender:unload *)
    unfold sender_unload. safe_view.
    pose proof (Safe_workflow_stop _ _ H) as (H1 & H2 & H3).
    unfold Safe, total; simpl; repeat split; auto.
  - unfold sender_start. apply Safe_sender_next.
    eapply Safe_view with (c := workflow_start (event_trigger "sender:start" c));
      [reflexivity|].
    apply Safe_workflow_start. safe_view. exact H.
  - unfold sender_stop.
    safe_view. destruct force.
    + safe_view. apply Safe_workflow_stop. safe_view. exact H.
    + apply Safe_workflow_stop. safe_view. exact H.
  - unfold sender_pause. safe_view. apply Safe_workflow_pause. safe_view. exact H.
  - unfold sender_resume. safe_view. apply Safe_workflow_resume. safe_view. exact H.
  - unfold feeder_start. destruct (workflow c); try exact H;
      (eapply Safe_view with (c := writeln QUEUE_REPORT (writeln "~" c));
       [rewrite view_feeder_next; reflexivity | safe_view; exact H]).
  - exact H.
  - safe_view. exact H.
  - safe_view. exact H.
  - safe_view. exact H.
  - safe_view. exact H.
  - safe_view. exact H.
  - safe_view. eapply Safe_view with (c := workflow_stop c); [reflexivity|].
    apply Safe_workflow_stop, H.
  - unfold override_feed. safe_view. exact H.
  - unfold override_spindle. safe_view. exact H.
  - unfold override_rapid.
    repeat match goal with |- context [if ?x then _ else _] => destruct x end;
      try exact H; safe_view; exact H.
  - safe_view. exact H.
  - unfold macro_load. destruct (findMacro id macros); [|exact H].
    apply Safe_sender_load. safe_view. exact H.
  - unfold watchdir_load. destruct data; [apply Safe_sender_load|]; exact H.
Qed.

Lemma Safe_on_f : forall b f c, Safe b c -> Safe b (on_f f c).
Proof.
  intros b f c H; unfold on_f.
  destruct (negb _).
  - destruct (workflow c) eqn:W.
    + simpl. rewrite W. safe_view. exact H.
    + destruct (negb (ignoreErrors c)); [apply Safe_workflow_pause|]; exact H.
    + simpl. rewrite W. exact H.
  - destruct (workflow c); try exact H. safe_view. exact H.
Qed.

Lemma Safe_initController : forall b phase c, Safe b c -> Safe b (initController phase c).
Proof.
  intros b phase c H; unfold initController.
  do 9 (destruct phase as [|phase]; [safe_view; exact H|]). exact H.
Qed.

Lemma Safe_workflow_call : forall b w c, Safe b c -> Safe b (workflow_call w c).
Proof.
  intros b w c H; destruct w; simpl;
    auto using Safe_workflow_start, Safe_workflow_stop, Safe_workflow_pause,
      Safe_workflow_resume.
Qed.

Lemma Safe_ignoreUnrecognized : forall b r c, Safe b c -> Safe b (ignoreUnrecognized r c).
Proof.
  intros b r c H. destruct (ignoreUnrecognized_state r c) as (V & _).
  exact (Safe_view _ _ _ V H).
Qed.

(** An [r] frame keeps the counters in order. *)
Lemma Safe_on_r : forall b r c, Safe b c -> Safe b (on_r r c).
Proof.
  intros b r c H; unfold on_r.
  destruct (ignoreUnrecognized_state r c) as (V & _).
  pose proof (Safe_ignoreUnrecognized _ r _ H) as H'.
  unfold view in V; injection V as Vw Vs Vb Vt. rewrite Vw, Vs.
  set (c1 := ignoreUnrecognized r c) in *.
  assert (Hack : forall c2, workflow c2 = workflow c1 -> sender c2 = sender c1 ->
                 Safe b (ackNext c2)).
  { intros c2 V2w V2s. apply Safe_ackNext. exact (Safe_same _ _ _ V2w V2s H'). }
  destruct (workflow c).
  - safe_view. exact H'.
  - simpl. destruct (negb (blocked c1)); [|exact H'].
    apply Hack; auto.
  - destruct (received (sender c) <? sent (sender c))%nat eqn:Lt.
    + apply Hack; auto.
    + safe_view. exact H'.
Qed.

(** A [qr] frame keeps the counters in order. *)
Lemma Safe_on_qr : forall b q c, Safe b c -> Safe b (on_qr q c).
Proof.
  intros b q c H; unfold on_qr.
  destruct (q <=? LOW_WATER_MARK E)%Z; [exact H|].
  set (c1 := if (q >=? HIGH_WATER_MARK E)%Z
             then setBlocked false (setStateQr q c) else setStateQr q c).
  assert (V1w : workflow c1 = workflow c) by (unfold c1; destruct (_ >=? _)%Z; reflexivity).
  assert (V1s : sender c1 = sender c) by (unfold c1; destruct (_ >=? _)%Z; reflexivity).
  pose proof (Safe_same _ _ _ V1w V1s H) as H1.
  assert (Hack : Safe b (ackNext c1)) by (apply Safe_ackNext, H1).
  assert (Hfeed : forall c2, Safe b c2 ->
     Safe b (feeder_next
       (if fhold (feeder c2)
        then match reasonData (fholdReason (feeder c2)) with
             | Some d =>
                 if String.eqb d WAIT && (q >=? plannerBufferPoolSize (runner c2))%Z
                 then feeder_unhold c2 else c2
             | None => c2
             end
        else c2))).
  { intros c2 H2. safe_view.
    destruct (fhold (feeder c2)); [|exact H2].
    destruct (reasonData _); [|exact H2].
    destruct (_ && _); [|exact H2]. safe_view. exact H2. }
  destruct (workflow c1) eqn:W1.
  - apply Hfeed, H1.
  - destruct (senderStatus c1); [exact H1 | | exact Hack].
    destruct (_ && _); [|exact H1].
    apply Safe_setSenderStatus, Safe_unhold_next; assumption.
  - destruct (senderStatus c1); [apply Hfeed, H1 | apply Hfeed, H1 | exact Hack].
Qed.

Lemma Safe_step : forall b c e, Safe b c -> Safe b (step c e).
Proof.
  intros b c e H; destruct e; simpl.
  - apply Safe_on_r; auto.
  - apply Safe_on_qr; auto.
  - apply Safe_on_f, H.
  - exact H.
  - apply Safe_command, H.
  - apply Safe_workflow_call, H.
  - apply Safe_initController, H.
  - apply Safe_workflow_stop. exact H.
  - exact H.
Qed.

Lemma Safe_initial : forall b r x ignore rules, Safe b (initial E r x ignore rules).
Proof. intros; unfold Safe; simpl; repeat split; auto; discriminate. Qed.

Lemma Safe_run : forall b events c, Safe b c -> Safe b (run c events).
Proof.
  intros b events; induction events as [|e events IH]; intros c H; [exact H|].
  simpl. apply IH, Safe_step, H.
Qed.

Lemma Safe_reachable : forall c, reachable c -> Safe true c.
Proof.
  intros c (r & x & ig & rules & events & ->). apply Safe_run, Safe_initial.
Qed.

Lemma reachable_run : forall c events, reachable c -> reachable (run c events).
Proof.
  intros c events (r & x & ig & rules & evs & ->).
  exists r, x, ig, rules, (evs ++ events)%list.
  unfold run; rewrite fold_left_app; reflexivity.
Qed.


(** C3. Whatever sequence of events (frames, commands, workflow
    transitions, bring-up steps, Runner updates, open and close) a fresh
    controller goes through, the counters of the Sender satisfy
    [0 <= received <= sent <= total] after each of them. *)
Theorem counters_after_each_event : forall r x ignore rules events n,
  let c := run (initial E r x ignore rules) (firstn n events) in
  (0 <= received (sender c))%nat
  /\ (received (sender c) <= sent (sender c))%nat
  /\ (sent (sender c) <= total (sender c))%nat.
Proof.
  intros r x ignore rules events n c.
  assert (H : Safe true c) by (apply Safe_run, Safe_initial).
  destruct H as (H1 & H2 & _).
  split; [lia|]. split; [apply H2; reflexivity | exact H1].
Qed.

(** *** The low-water block *)

Lemma senderWrites_record : forall a c,
  senderWrites (log (record a c)) = (senderWrites (log c) ++ senderWrites [a])%list.
Proof. intros; unfold senderWrites; simpl; apply filter_app. Qed.

Lemma senderWrites_feederDataFilter : forall line c,
  senderWrites (log (snd (feederDataFilter line c))) = senderWrites (log c).
Proof.
  intros line c; unfold feederDataFilter, feeder_hold.
  repeat match goal with
         | |- context [if ?b then _ else _] => destruct b
         | |- context [match ?x with _ => _ end] => destruct x
         end; simpl; try reflexivity;
    unfold senderWrites; rewrite ?filter_app; simpl; rewrite ?app_nil_r; reflexivity.
Qed.

Lemma senderWrites_feederOnData : forall line c,
  senderWrites (log (feederOnData line c)) = senderWrites (log c).
Proof.
  intros line c; unfold feederOnData, feeder_reset, emit.
  repeat match goal with |- context [if ?b then _ else _] => destruct b end;
    simpl; try reflexivity;
    unfold senderWrites; rewrite ?filter_app; simpl; rewrite ?app_nil_r; reflexivity.
Qed.

Lemma senderWrites_feeder_next : forall c,
  senderWrites (log (feeder_next c)) = senderWrites (log c).
Proof.
  intros c; unfold feeder_next.
  assert (H0 : senderWrites (log (record FeederNext c)) = senderWrites (log c))
    by (rewrite senderWrites_record; apply app_nil_r).
  destruct (fhold _); [exact H0|].
  destruct (queue _) as [|line rest]; [exact H0|].
  match goal with
  | |- context [feederDataFilter ?l ?x] =>
      pose proof (senderWrites_feederDataFilter l x) as H;
      destruct (feederDataFilter l x) as [out c1]
  end.
  simpl snd in H. rewrite senderWrites_feederOnData, H. exact H0.
Qed.

Lemma senderWrites_sender_ack : forall c,
  senderWrites (log (sender_ack c)) = senderWrites (log c).
Proof.
  intros c; unfold sender_ack.
  destruct (_ =? _)%nat; simpl;
    unfold senderWrites; rewrite ?filter_app; simpl; rewrite ?app_nil_r; reflexivity.
Qed.

(** A held Sender transmits nothing on [next()]. *)
Lemma sender_next_held : forall c,
  hold (sender c) = true ->
  sender_next c = record SenderNext c.
Proof. intros c Hh; unfold sender_next; simpl; rewrite Hh; reflexivity. Qed.

Lemma feeder_next_transmits_nothing : forall c,
  sent (sender (feeder_next c)) = sent (sender c)
  /\ senderWrites (log (feeder_next c)) = senderWrites (log c).
Proof.
  intros c. split; [|apply senderWrites_feeder_next].
  destruct (view_parts _ _ (view_feeder_next c)) as (_ & V). rewrite V. reflexivity.
Qed.

Lemma ackNext_held_transmits_nothing : forall c,
  hold (sender c) = true ->
  sent (sender (ackNext c)) = sent (sender c)
  /\ senderWrites (log (ackNext c)) = senderWrites (log c).
Proof.
  intros c Hh. unfold ackNext. simpl.
  destruct (ack_effect (sender c)) as (_ & As & _ & Ah & _).
  assert (Hh' : hold (sender (sender_ack c)) = true).
  { rewrite sender_ack_sender, Ah. exact Hh. }
  rewrite (sender_next_held _ Hh'). simpl. split.
  - rewrite sender_ack_sender. exact As.
  - unfold senderWrites at 1. rewrite filter_app. simpl. rewrite app_nil_r.
    apply senderWrites_sender_ack.
Qed.

(** C2 (amended). In every reachable state with [blocked = true], an [r]
    frame transmits no new Sender line; a [qr] frame at or below the
    low-water mark transmits none and leaves [blocked] set; and any other
    [qr] frame transmits none unless the workflow is running and an
    acknowledgement is pending or the [%wait] release is due. *)
Theorem blocked_gates_r_and_low_qr : forall c,
  reachable c -> blocked c = true ->
  (forall r,
      sent (sender (on_r r c)) = sent (sender c)
      /\ senderWrites (log (on_r r c)) = senderWrites (log c))
  /\ (forall q, (q <= LOW_WATER_MARK E)%Z ->
      sent (sender (on_qr q c)) = sent (sender c)
      /\ senderWrites (log (on_qr q c)) = senderWrites (log c)
      /\ blocked (on_qr q c) = true)
  /\ (forall q, qrCanRelease q c = false ->
      sent (sender (on_qr q c)) = sent (sender c)
      /\ senderWrites (log (on_qr q c)) = senderWrites (log c)).
Proof.
  intros c Hr B. pose proof (Safe_reachable _ Hr) as (H1 & _ & H3).
  split; [|split].
  - intros r. unfold on_r.
    destruct (ignoreUnrecognized_state r c) as (V & L & _).
    unfold view in V; injection V as Vw Vs Vb Vt. rewrite Vw, Vs.
    set (c1 := ignoreUnrecognized r c) in *.
    rewrite <- Vs, <- L.
    destruct (workflow c) eqn:W.
    + apply feeder_next_transmits_nothing.
    + simpl. rewrite Vb, B. simpl. auto.
    + destruct (_ <? _)%nat; [|apply feeder_next_transmits_nothing].
      apply (ackNext_held_transmits_nothing (setSenderStatus SENDER_STATUS_ACK c1)).
      simpl. rewrite Vs. auto.
  - intros q Hq. unfold on_qr.
    apply Z.leb_le in Hq. rewrite Hq. simpl. auto.
  - intros q Hq. unfold on_qr, qrCanRelease in *.
    destruct (q <=? LOW_WATER_MARK E)%Z eqn:Lo; [simpl; auto|].
    apply Z.leb_gt in Lo. apply Z.ltb_lt in Lo. rewrite Lo in Hq. simpl in Hq.
    fold (afterHysteresis q c).
    assert (A : workflow (afterHysteresis q c) = workflow c
                /\ senderStatus (afterHysteresis q c) = senderStatus c
                /\ sender (afterHysteresis q c) = sender c
                /\ runner (afterHysteresis q c) = runner c
                /\ log (afterHysteresis q c) = log c)
      by (unfold afterHysteresis; destruct (q >=? HIGH_WATER_MARK E)%Z;
          repeat split; reflexivity).
    destruct A as (Aw & At & As & Ar & Al).
    rewrite <- As, <- Al.
    revert Aw At As Ar Al. generalize (afterHysteresis q c) as c1.
    intros c1 Aw At As Ar Al. rewrite Aw, At.
    assert (Hfeed : forall c2,
       sender c2 = sender c1 -> log c2 = log c1 ->
       sent (sender (feeder_next c2)) = sent (sender c1)
       /\ senderWrites (log (feeder_next c2)) = senderWrites (log c1)).
    { intros c2 E1 E2. rewrite <- E1, <- E2. apply feeder_next_transmits_nothing. }
    assert (Hf : sent (sender (feeder_next
        (if fhold (feeder c1)
         then match reasonData (fholdReason (feeder c1)) with
              | Some d =>
                  if String.eqb d WAIT && (q >=? plannerBufferPoolSize (runner c1))%Z
                  then feeder_unhold c1 else c1
              | None => c1
              end
         else c1))) = sent (sender c1)
        /\ senderWrites (log (feeder_next
        (if fhold (feeder c1)
         then match reasonData (fholdReason (feeder c1)) with
              | Some d =>
                  if String.eqb d WAIT && (q >=? plannerBufferPoolSize (runner c1))%Z
                  then feeder_unhold c1 else c1
              | None => c1
              end
         else c1))) = senderWrites (log c1)).
    { destruct (fhold (feeder c1)); [|apply Hfeed; reflexivity].
      destruct (reasonData _); [|apply Hfeed; reflexivity].
      match goal with
      | |- context [if ?b then feeder_unhold _ else _] => destruct b
      end; [|apply Hfeed; reflexivity].
      destruct (feeder_next_transmits_nothing (feeder_unhold c1)) as (F1 & F2).
      rewrite F1, F2. split; [reflexivity|].
      unfold feeder_unhold, senderWrites; simpl. rewrite filter_app. simpl.
      apply app_nil_r. }
    destruct (workflow c) eqn:W.
    + exact Hf.
    + simpl in Hq. destruct (senderStatus c) eqn:T; simpl.
      * auto.
      * rewrite <- As, <- Ar in Hq. rewrite Hq. auto.
      * discriminate.
    + destruct (senderStatus c); [exact Hf | exact Hf |].
      apply ackNext_held_transmits_nothing. rewrite As. auto.
Qed.

(** *** The %wait dwell *)

Lemma log_workflow_pause : forall reason c,
  exists l, log (workflow_pause reason c) = (log c ++ l)%list.
Proof.
  intros reason c; unfold workflow_pause.
  destruct (workflow c); try (exists []; symmetry; apply app_nil_r).
  unfold on_workflow_pause, sender_hold, emit; simpl.
  eexists. rewrite <- app_assoc. reflexivity.
Qed.

Lemma log_senderDataFilter : forall line c,
  exists l, log (snd (senderDataFilter line c)) = (log c ++ l)%list.
Proof.
  intros line c; unfold senderDataFilter.
  destruct (startsWithPercent _).
  - destruct (String.eqb _ WAIT); simpl; eexists;
      [reflexivity | symmetry; apply app_nil_r].
  - simpl.
    match goal with
    | |- exists l, log (if _ then workflow_pause ?r ?c1 else ?c1) = _ =>
        assert (H1 : exists l, log c1 = (log c ++ l)%list)
    end.
    { destruct (programMode _) as [m|]; [|exists []; symmetry; apply app_nil_r].
      destruct (String.eqb m "M0"); [apply log_workflow_pause|].
      destruct (String.eqb m "M1"); [apply log_workflow_pause|].
      exists []; symmetry; apply app_nil_r. }
    destruct (includes _ "M6"); [|exact H1].
    destruct H1 as (l1 & H1).
    match goal with
    | |- exists l, log (workflow_pause ?r ?c1) = _ =>
        destruct (log_workflow_pause r c1) as (l2 & H2)
    end.
    exists (l1 ++ l2)%list. rewrite H2, H1, app_assoc. reflexivity.
Qed.

Lemma log_senderOnData : forall line c,
  exists l, log (senderOnData line c) = (log c ++ l)%list.
Proof.
  intros line c; unfold senderOnData.
  repeat match goal with |- context [if ?b then _ else _] => destruct b end;
    try (exists []; symmetry; apply app_nil_r).
  eexists; reflexivity.
Qed.

Lemma log_sender_next : forall c,
  exists rest, log (sender_next c) = (log c ++ SenderNext :: rest)%list.
Proof.
  intros c; unfold sender_next.
  destruct (hold _ || _); [exists []; reflexivity|].
  destruct (nth_error _ _) as [line|]; [|exists []; reflexivity].
  destruct (log_senderDataFilter line (record SenderNext c)) as (l1 & H1).
  destruct (senderDataFilter line (record SenderNext c)) as [out c1].
  simpl snd in H1. destruct (log_senderOnData out c1) as (l2 & H2).
  exists (l1 ++ l2)%list. simpl. rewrite H2, H1. simpl.
  rewrite <- !app_assoc. reflexivity.
Qed.

(** C4 (amended). A line that is [%wait] once comments are stripped and
    blanks trimmed makes the filter of the pulling pipeline return
    [G4 P0.5] and hold that pipeline, with reason [%wait] when it was not
    held.  Pulled by [sender.next()] it leaves the Sender held and goes
    out as [N<sent>G4P0.5]; pulled by [feeder.next()] it holds the Feeder
    and goes out as [G4 P0.5].  A [qr] frame above the low-water mark
    with [q >= plannerBufferPoolSize], processed while the workflow is
    running, [senderStatus] is next, the Sender is held and
    [received >= sent], releases the Sender: [unhold()], then [next()]. *)
Theorem wait_holds_and_qr_releases : forall (line : string) (rest : list string) (q : Z) c,
  JsString.trim (JsString.removeComments line) = WAIT ->
  (senderDataFilter line c = ("G4 P0.5", sender_hold (Some (ReasonData WAIT)) c)
   /\ hold (sender (snd (senderDataFilter line c))) = true
   /\ (hold (sender c) = false ->
       holdReason (sender (snd (senderDataFilter line c))) = Some (ReasonData WAIT)))
  /\ (feederDataFilter line c = ("G4 P0.5", feeder_hold (Some (ReasonData WAIT)) c)
      /\ fhold (feeder (snd (feederDataFilter line c))) = true
      /\ (fhold (feeder c) = false ->
          fholdReason (feeder (snd (feederDataFilter line c))) = Some (ReasonData WAIT)))
  /\ (hold (sender c) = false ->
      nth_error (lines (sender c)) (sent (sender c)) = Some line ->
      sender (sender_next c)
      = mkSender (lines (sender c)) (S (sent (sender c))) (received (sender c))
          true (Some (ReasonData WAIT))
      /\ log (sender_next c)
         = (log c ++ [SenderNext; SenderHold]
            ++ (if isOpen c && negb (WorkflowState_eqb (workflow c) WORKFLOW_STATE_IDLE)
                then [ConnWrite FromSender
                        ("N" ++ JsString.ofNat (sent (sender c)) ++ "G4P0.5"
                         ++ JsString.LF)]
                else []))%list)
  /\ (fhold (feeder c) = false ->
      queue (feeder c) = line :: rest ->
      log (feeder_next c)
      = (log c ++ [FeederNext; FeederHold]
         ++ (if isOpen c
             then if alarm (runner c) then [FeederReset]
                  else [Emit "connection:write" (PText ("G4 P0.5" ++ JsString.LF));
                        ConnWrite FromFeeder ("G4 P0.5" ++ JsString.LF)]
             else []))%list
      /\ (isOpen c && alarm (runner c) = false ->
          feeder (feeder_next c)
          = mkFeeder rest true (Some (ReasonData WAIT))
              (match rest with [] => false | _ :: _ => true end)))
  /\ ((LOW_WATER_MARK E < q)%Z ->
      workflow c = WORKFLOW_STATE_RUNNING ->
      senderStatus c = SENDER_STATUS_NEXT ->
      hold (sender c) = true ->
      (sent (sender c) <= received (sender c))%nat ->
      (plannerBufferPoolSize (runner c) <= q)%Z ->
      on_qr q c = setSenderStatus SENDER_STATUS_NEXT
                    (sender_next (sender_unhold (afterHysteresis q c)))
      /\ hold (sender (sender_unhold (afterHysteresis q c))) = false
      /\ exists rest',
           log (on_qr q c) = (log c ++ SenderUnhold :: SenderNext :: rest')%list).
Proof.
  intros line rest q c Hw. split; [|split; [|split; [|split]]].
  - unfold senderDataFilter. rewrite Hw. simpl.
    split; [reflexivity|]. unfold Sender.hold_.
    destruct (hold (sender c)) eqn:Hh; simpl; split; auto; discriminate.
  - unfold feederDataFilter. rewrite Hw. simpl.
    split; [reflexivity|]. unfold Feeder.hold_.
    destruct (fhold (feeder c)) eqn:Hh; simpl; split; auto; discriminate.
  - intros Hh N.
    assert (Hlt : (sent (sender c) < total (sender c))%nat)
      by (apply nth_error_Some; congruence).
    assert (Hne : (sent (sender c) =? total (sender c))%nat = false)
      by (apply Nat.eqb_neq; lia).
    unfold sender_next. cbn [sender record hold].
    rewrite Hh, Hne. cbn [orb]. cbn [lines sent sender record]. rewrite N.
    unfold senderDataFilter. rewrite Hw. cbn [startsWithPercent WAIT Ascii.eqb].
    change (String.eqb WAIT WAIT) with true. cbv iota beta.
    unfold senderOnData, sender_hold, Sender.hold_, senderWireLine.
    cbn [sender setSender record hold isOpen workflow log].
    rewrite Hh. simpl.
    destruct (isOpen c); destruct (workflow c); simpl;
      rewrite <- ?app_assoc, ?string_app_assoc; split; reflexivity.
  - intros Hh Qu.
    unfold feeder_next. cbn [feeder record fhold queue].
    rewrite Hh, Qu.
    unfold feederDataFilter. rewrite Hw. cbn [startsWithPercent WAIT Ascii.eqb].
    change (String.eqb WAIT WAIT) with true. cbv iota beta.
    unfold feederOnData, feeder_hold, Feeder.hold_, feeder_reset, emit.
    cbn [feeder setFeeder record fhold isOpen runner log queue fholdReason pending].
    simpl.
    destruct (isOpen c); destruct (alarm (runner c)); simpl;
      rewrite <- ?app_assoc; split; try reflexivity;
      intros; try discriminate; reflexivity.
  - intros Hq W T Hh Hle Hp.
    assert (Heq : on_qr q c = setSenderStatus SENDER_STATUS_NEXT
                    (sender_next (sender_unhold (afterHysteresis q c)))).
    { unfold on_qr.
      apply Z.leb_gt in Hq. rewrite Hq.
      fold (afterHysteresis q c).
      assert (A : workflow (afterHysteresis q c) = workflow c
                  /\ senderStatus (afterHysteresis q c) = senderStatus c
                  /\ sender (afterHysteresis q c) = sender c
                  /\ runner (afterHysteresis q c) = runner c)
        by (unfold afterHysteresis; destruct (q >=? HIGH_WATER_MARK E)%Z; auto).
      destruct A as (Aw & At & As & Ar).
      rewrite Aw, W, At, T, As, Ar, Hh.
      apply Nat.leb_le in Hle. rewrite Hle.
      apply Z.geb_le in Hp. rewrite Hp. reflexivity. }
    assert (As : sender (afterHysteresis q c) = sender c
                 /\ log (afterHysteresis q c) = log c)
      by (unfold afterHysteresis; destruct (q >=? HIGH_WATER_MARK E)%Z; auto).
    destruct As as (As & Al).
    split; [exact Heq|]. split.
    + unfold sender_unhold, Sender.unhold; simpl. rewrite As, Hh. reflexivity.
    + rewrite Heq. simpl.
      destruct (log_sender_next (sender_unhold (afterHysteresis q c))) as (rest' & Hn).
      exists rest'. rewrite Hn. unfold sender_unhold; simpl.
      rewrite Al, <- app_assoc. reflexivity.
Qed.

(** *** Pause then resume *)




(** *** What only frames and the connection change *)

Lemma stable_refl : forall c, stable c c.
Proof. unfold stable; auto. Qed.

Lemma stable_trans : forall c c1 c2, stable c c1 -> stable c1 c2 -> stable c c2.
Proof.
  unfold stable; intros c c1 c2 (A & B & C & D) (A' & B' & C' & D');
    repeat split; congruence.
Qed.

Ltac stable_triv := unfold stable; simpl; repeat split; reflexivity.

Ltac stable_cases :=
  repeat match goal with
         | |- context [if ?b then _ else _] => destruct b
         | |- context [match ?x with _ => _ end] => destruct x
         end; stable_triv.

Lemma stable_write : forall d c, stable c (write d c).
Proof. intros; unfold write; stable_cases. Qed.

Lemma stable_writeln : forall d c, stable c (writeln d c).
Proof. intros; unfold writeln, write; stable_cases. Qed.

Lemma stable_writelnAll : forall l c, stable c (writelnAll l c).
Proof.
  induction l as [|d l IH]; intros c; [apply stable_refl|].
  unfold writelnAll in *; simpl.
  eapply stable_trans; [apply stable_writeln | apply IH].
Qed.

Lemma stable_workflow_pause : forall reason c, stable c (workflow_pause reason c).
Proof. intros; unfold workflow_pause; stable_cases. Qed.

Lemma stable_senderDataFilter : forall line c, stable c (snd (senderDataFilter line c)).
Proof.
  intros line c; unfold senderDataFilter.
  destruct (startsWithPercent _).
  - destruct (String.eqb _ WAIT); unfold stable; simpl; auto.
  - simpl.
    match goal with
    | |- stable c (if _ then workflow_pause ?r ?c1 else ?c1) =>
        assert (H1 : stable c c1)
    end.
    { destruct (programMode _) as [m|]; [|apply stable_refl].
      destruct (String.eqb m "M0"); [apply stable_workflow_pause|].
      destruct (String.eqb m "M1"); [apply stable_workflow_pause|].
      apply stable_refl. }
    destruct (includes _ "M6"); [|exact H1].
    eapply stable_trans; [exact H1 | apply stable_workflow_pause].
Qed.

Lemma stable_senderOnData : forall line c, stable c (senderOnData line c).
Proof. intros; unfold senderOnData; stable_cases. Qed.

Lemma stable_sender_next : forall c, stable c (sender_next c).
Proof.
  intros c; unfold sender_next.
  destruct (hold _ || _); [stable_triv|].
  destruct (nth_error _ _) as [line|]; [|stable_triv].
  pose proof (stable_senderDataFilter line (record SenderNext c)) as H.
  destruct (senderDataFilter line (record SenderNext c)) as [out c1].
  simpl snd in H.
  eapply stable_trans; [exact H|].
  eapply stable_trans; [apply stable_senderOnData|]. stable_triv.
Qed.

Lemma stable_sender_ack : forall c, stable c (sender_ack c).
Proof. intros; unfold sender_ack; stable_cases. Qed.

Lemma stable_ackNext : forall c, stable c (ackNext c).
Proof.
  intros c; unfold ackNext.
  eapply stable_trans; [apply stable_sender_ack|].
  eapply stable_trans; [apply stable_sender_next|]. stable_triv.
Qed.

Lemma stable_feederDataFilter : forall line c, stable c (snd (feederDataFilter line c)).
Proof. intros; unfold feederDataFilter; stable_cases. Qed.

Lemma stable_feederOnData : forall line c, stable c (feederOnData line c).
Proof. intros; unfold feederOnData; stable_cases. Qed.

Lemma stable_feeder_next : forall c, stable c (feeder_next c).
Proof.
  intros c; unfold feeder_next.
  destruct (fhold _); [stable_triv|].
  destruct (queue _) as [|line rest]; [stable_triv|].
  match goal with
  | |- context [feederDataFilter ?l ?x] =>
      pose proof (stable_feederDataFilter l x) as H;
      destruct (feederDataFilter l x) as [out c1]
  end.
  simpl snd in H.
  eapply stable_trans; [|apply stable_feederOnData].
  destruct H as (A & B & C & D); unfold stable; simpl in *; repeat split; assumption.
Qed.

Lemma stable_command_gcode : forall l c, stable c (command_gcode l c).
Proof.
  intros; unfold command_gcode.
  match goal with |- context [if ?b then _ else _] => destruct b end;
    [|stable_triv].
  eapply stable_trans; [|apply stable_feeder_next]. stable_triv.
Qed.

Lemma stable_event_trigger : forall ev c, stable c (event_trigger ev c).
Proof.
  intros ev c; unfold event_trigger.
  assert (H0 : stable c (record (Trigger ev) c)) by (stable_triv).
  revert H0.
  assert (H : eventRules (record (Trigger ev) c) = eventRules c) by reflexivity.
  rewrite <- H; clear H.
  generalize (record (Trigger ev) c) at 1 3 as c0.
  generalize (eventRules (record (Trigger ev) c)) as rules.
  induction rules as [|rule rules IH]; intros c0 H0; [exact H0|].
  simpl; apply IH.
  destruct (String.eqb (ruleEvent rule) ev); [|exact H0].
  destruct (ruleSystem rule).
  - eapply stable_trans; [exact H0|]. stable_triv.
  - eapply stable_trans; [exact H0 | apply stable_command_gcode].
Qed.

Lemma stable_on_workflow_rewind : forall c, stable c (on_workflow_rewind c).
Proof. intros; stable_triv. Qed.

Lemma stable_workflow_start : forall c, stable c (workflow_start c).
Proof. intros; unfold workflow_start; stable_cases. Qed.

Lemma stable_workflow_stop : forall c, stable c (workflow_stop c).
Proof. intros; unfold workflow_stop; stable_cases. Qed.

Lemma stable_workflow_resume : forall c, stable c (workflow_resume c).
Proof.
  intros c; unfold workflow_resume.
  destruct (workflow c); try apply stable_refl.
  unfold on_workflow_resume.
  eapply stable_trans; [|apply stable_sender_next]. stable_triv.
Qed.

(** *** Stopping the Sender *)

Ltac client_cases :=
  repeat match goal with
         | |- context [if ?b then _ else _] => destruct b
         | |- context [match ?x with _ => _ end] => destruct x
         end; simpl; try reflexivity;
  unfold clientTrace; rewrite ?filter_app; simpl; rewrite ?app_nil_r; reflexivity.

Lemma clientTrace_feederDataFilter : forall line c,
  clientTrace (log (snd (feederDataFilter line c))) = clientTrace (log c).
Proof. intros line c; unfold feederDataFilter, feeder_hold; client_cases. Qed.

Lemma clientTrace_feederOnData : forall line c,
  clientTrace (log (feederOnData line c)) = clientTrace (log c).
Proof. intros line c; unfold feederOnData, feeder_reset, emit; client_cases. Qed.

Lemma clientTrace_feeder_next : forall c,
  clientTrace (log (feeder_next c)) = clientTrace (log c).
Proof.
  intros c; unfold feeder_next.
  assert (H0 : clientTrace (log (record FeederNext c)) = clientTrace (log c))
    by (unfold clientTrace; simpl; rewrite filter_app; apply app_nil_r).
  destruct (fhold _); [exact H0|].
  destruct (queue _) as [|line rest]; [exact H0|].
  match goal with
  | |- context [feederDataFilter ?l ?x] =>
      pose proof (clientTrace_feederDataFilter l x) as H;
      destruct (feederDataFilter l x) as [out c1]
  end.
  simpl snd in H. rewrite clientTrace_feederOnData, H. exact H0.
Qed.

Lemma clientTrace_command_gcode : forall l c,
  clientTrace (log (command_gcode l c)) = clientTrace (log c).
Proof.
  intros l c; unfold command_gcode.
  match goal with |- context [if ?b then _ else _] => destruct b end;
    [rewrite clientTrace_feeder_next|];
    unfold clientTrace; simpl; rewrite filter_app; apply app_nil_r.
Qed.

Lemma clientTrace_event_trigger : forall ev c,
  clientTrace (log (event_trigger ev c)) = clientTrace (log c).
Proof.
  intros ev c; unfold event_trigger.
  assert (H0 : clientTrace (log (record (Trigger ev) c)) = clientTrace (log c))
    by (unfold clientTrace; simpl; rewrite filter_app; apply app_nil_r).
  revert H0.
  assert (H : eventRules (record (Trigger ev) c) = eventRules c) by reflexivity.
  rewrite <- H; clear H.
  generalize (record (Trigger ev) c) at 1 3 as c0.
  generalize (eventRules (record (Trigger ev) c)) as rules.
  induction rules as [|rule rules IH]; intros c0 H0; [exact H0|].
  simpl; apply IH.
  destruct (String.eqb (ruleEvent rule) ev); [|exact H0].
  destruct (ruleSystem rule).
  - rewrite <- H0. unfold clientTrace; simpl; rewrite filter_app; apply app_nil_r.
  - rewrite clientTrace_command_gcode. exact H0.
Qed.

Lemma clientTrace_workflow_stop : forall c,
  clientTrace (log (workflow_stop c)) = clientTrace (log c).
Proof.
  intros c; unfold workflow_stop, on_workflow_rewind, sender_rewind, emit.
  client_cases.
Qed.

Lemma clientTrace_writeln : forall d c,
  clientTrace (log (writeln d c)) = (clientTrace (log c) ++ wire (isOpen c) d)%list.
Proof.
  intros d c; unfold writeln, write, wire; simpl.
  destruct (isOpen c); simpl;
    unfold clientTrace; rewrite ?filter_app; simpl;
    rewrite <- ?app_assoc; reflexivity.
Qed.

Lemma clientTrace_writelnAll : forall l c,
  clientTrace (log (writelnAll l c))
  = (clientTrace (log c) ++ flat_map (wire (isOpen c)) l)%list.
Proof.
  induction l as [|d l IH]; intros c; [symmetry; apply app_nil_r|].
  unfold writelnAll in *; simpl fold_left.
  rewrite IH, clientTrace_writeln.
  destruct (stable_writeln d c) as (_ & O & _). rewrite O.
  simpl flat_map. rewrite <- app_assoc. reflexivity.
Qed.

(** What [sender:stop] adds to the calls of [writeln] and the writes of
    [write]: the lines of the force variant, then the queue report
    request. *)
Lemma sender_stop_trace : forall (force : bool) c,
  clientTrace (log (sender_stop force c))
  = (clientTrace (log c)
     ++ flat_map (wire (isOpen c))
          ((if force then forceStopLines (firmwareBuild c) else []) ++ [QUEUE_REPORT]))%list.
Proof.
  intros force c. unfold sender_stop.
  set (c1 := workflow_stop (event_trigger "sender:stop" c)).
  assert (S1 : stable c c1).
  { eapply stable_trans; [apply stable_event_trigger | apply stable_workflow_stop]. }
  destruct S1 as (_ & O1 & _ & R1).
  assert (T1 : clientTrace (log c1) = clientTrace (log c)).
  { unfold c1. rewrite clientTrace_workflow_stop. apply clientTrace_event_trigger. }
  assert (B1 : firmwareBuild c1 = firmwareBuild c)
    by (unfold firmwareBuild; rewrite R1; reflexivity).
  set (kill := if force then forceStopLines (firmwareBuild c) else []).
  set (cx := if force then writelnAll (forceStopLines (firmwareBuild c1)) c1 else c1).
  assert (OX : isOpen cx = isOpen c).
  { unfold cx. destruct force; [|exact O1].
    destruct (stable_writelnAll (forceStopLines (firmwareBuild c1)) c1) as (_ & O2 & _).
    rewrite O2. exact O1. }
  assert (TX : clientTrace (log cx)
               = (clientTrace (log c) ++ flat_map (wire (isOpen c)) kill)%list).
  { unfold cx, kill. destruct force.
    - rewrite clientTrace_writelnAll, T1, O1, B1. reflexivity.
    - simpl. rewrite app_nil_r. exact T1. }
  rewrite clientTrace_writeln, flat_map_app, TX, OX.
  replace (flat_map (wire (isOpen c)) [QUEUE_REPORT])
    with (wire (isOpen c) QUEUE_REPORT) by (symmetry; apply app_nil_r).
  rewrite app_assoc. reflexivity.
Qed.

Lemma clientWrites_app : forall l l',
  clientWrites (l ++ l') = (clientWrites l ++ clientWrites l')%list.
Proof. intros; unfold clientWrites; apply flat_map_app. Qed.

Lemma clientWrites_clientTrace : forall l, clientWrites (clientTrace l) = clientWrites l.
Proof.
  induction l as [|a l IH]; [reflexivity|].
  destruct a as [[| |] d| | | | | | | | | | | | | | | | |]; simpl; rewrite ?IH; reflexivity.
Qed.

Lemma clientWrites_closed : forall l, clientWrites (flat_map (wire false) l) = [].
Proof. induction l as [|d l IH]; [reflexivity | exact IH]. Qed.

(** The three dialects of the force variant, by firmware build. *)
Lemma forceStopLines_cases : forall build,
  (101 <= build -> forceStopLines build = [JsString.CTRL_D])
  /\ (100 <= build -> build < 101 -> forceStopLines build = [JsString.CTRL_D; "M30"])
  /\ (build < 100 -> forceStopLines build = ["!"; "%"; "M30"]).
Proof.
  intros build; unfold forceStopLines. repeat split.
  - intros H. apply Qle_bool_iff in H. rewrite H. reflexivity.
  - intros H1 H2.
    destruct (Qle_bool 101 build) eqn:A.
    + apply Qle_bool_iff in A. exfalso. apply (Qlt_not_le _ _ H2 A).
    + apply Qle_bool_iff in H1. rewrite H1. reflexivity.
  - intros H.
    destruct (Qle_bool 101 build) eqn:A.
    + apply Qle_bool_iff in A. exfalso.
      apply (Qlt_not_le _ _ H). apply Qle_trans with (y := 101); [discriminate | exact A].
    + destruct (Qle_bool 100 build) eqn:B; [|reflexivity].
      apply Qle_bool_iff in B. exfalso. apply (Qlt_not_le _ _ H B).
Qed.

(** C6 (amended). On an open connection [sender:stop] with [force] set
    writes, by the firmware build found in the settings the controller
    mirrors (0 when there is none): the two bytes [^d] (0x04) and
    newline from build 101 on; [^d] and newline, then [M30] and newline,
    for builds from 100 up to 101; and [!], [%] and [M30], each followed
    by a newline, for older builds.  With or without [force] it then
    writes the queue report request, the nine bytes of the object with
    key qr and an empty string, followed by a newline.  On a closed
    connection it writes nothing. *)
Theorem sender_stop_writes : forall (force : bool) c,
  let build := match fb (settings c) with Some b => b | None => 0 end in
  let report := bytes [123; 34; 113; 114; 34; 58; 34; 34; 125; 10]%nat in
  let writes (l : list string) :=
    clientWrites (log (sender_stop force c)) = (clientWrites (log c) ++ l ++ [report])%list in
  (isOpen c = false ->
   clientWrites (log (sender_stop force c)) = clientWrites (log c))
  /\ (isOpen c = true -> force = false -> writes [])
  /\ (isOpen c = true -> force = true -> 101 <= build -> writes [bytes [4; 10]%nat])
  /\ (isOpen c = true -> force = true -> 100 <= build -> build < 101 ->
      writes [bytes [4; 10]%nat; bytes [77; 51; 48; 10]%nat])
  /\ (isOpen c = true -> force = true -> build < 100 ->
      writes [bytes [33; 10]%nat; bytes [37; 10]%nat; bytes [77; 51; 48; 10]%nat]).
Proof.
  intros force c build report writes.
  assert (T : clientWrites (log (sender_stop force c))
              = (clientWrites (log c)
                 ++ clientWrites
                      (flat_map (wire (isOpen c))
                         ((if force then forceStopLines (firmwareBuild c) else [])
                          ++ [QUEUE_REPORT])))%list).
  { rewrite <- (clientWrites_clientTrace (log (sender_stop force c))).
    rewrite sender_stop_trace, clientWrites_app, clientWrites_clientTrace. reflexivity. }
  destruct (forceStopLines_cases (firmwareBuild c)) as (K1 & K2 & K3).
  unfold firmwareBuild in T, K1, K2, K3. fold build in T, K1, K2, K3.
  unfold writes. split; [|split; [|split; [|split]]].
  - intros O. rewrite T, O, clientWrites_closed. apply app_nil_r.
  - intros O ->. rewrite T, O. reflexivity.
  - intros O -> H. rewrite T, O, (K1 H). reflexivity.
  - intros O -> H1 H2. rewrite T, O, (K2 H1 H2). reflexivity.
  - intros O -> H. rewrite T, O, (K3 H). reflexivity.
Qed.

(** *** Feed and spindle overrides *)

Lemma log_feederDataFilter : forall line c,
  exists l, log (snd (feederDataFilter line c)) = (log c ++ l)%list.
Proof.
  intros line c; unfold feederDataFilter, feeder_hold.
  repeat match goal with
         | |- context [if ?b then _ else _] => destruct b
         | |- context [match ?x with _ => _ end] => destruct x
         end; simpl;
    first [ exists []; symmetry; apply app_nil_r
          | eexists; rewrite <- ?app_assoc; reflexivity ].
Qed.

Lemma log_feederOnData : forall line c,
  exists l, log (feederOnData line c) = (log c ++ l)%list.
Proof.
  intros line c; unfold feederOnData, feeder_reset, emit.
  repeat match goal with |- context [if ?b then _ else _] => destruct b end; simpl;
    first [ exists []; symmetry; apply app_nil_r
          | eexists; rewrite <- ?app_assoc; reflexivity ].
Qed.

Lemma log_feeder_next : forall c,
  exists rest, log (feeder_next c) = (log c ++ FeederNext :: rest)%list.
Proof.
  intros c; unfold feeder_next.
  destruct (fhold _); [exists []; reflexivity|].
  destruct (queue _) as [|line rest]; [exists []; reflexivity|].
  match goal with
  | |- context [feederDataFilter ?l ?x] =>
      destruct (log_feederDataFilter l x) as (l1 & H1);
      destruct (feederDataFilter l x) as [out c1]
  end.
  simpl snd in H1. destruct (log_feederOnData out c1) as (l2 & H2).
  exists (l1 ++ l2)%list. rewrite H2, H1. simpl.
  rewrite <- !app_assoc. reflexivity.
Qed.

Lemma log_command_gcode : forall l c,
  exists rest, log (command_gcode l c) = (log c ++ FeederFeed (gcodeData l) :: rest)%list.
Proof.
  intros l c; unfold command_gcode. fold (gcodeData l).
  match goal with |- context [if ?b then _ else _] => destruct b end;
    [|exists []; reflexivity].
  match goal with |- context [feeder_next ?x] =>
    destruct (log_feeder_next x) as (rest & H) end.
  eexists. rewrite H. simpl. rewrite <- app_assoc. reflexivity.
Qed.

(** *** Capability probe and the status report mask *)

Ltac stable_step lem := eapply stable_trans; [|apply lem].
Ltac stable_set := eapply stable_trans; [|apply stable_refl]; try stable_triv.

Lemma stable_send : forall cmd c, stable c (send cmd c).
Proof.
  intros; unfold send.
  repeat match goal with |- context [if ?b then _ else _] => destruct b end;
    try apply stable_refl; apply stable_command_gcode.
Qed.

Lemma stable_sendAll : forall l c, stable c (sendAll l c).
Proof.
  induction l as [|d l IH]; intros c; [apply stable_refl|].
  unfold sendAll in *; simpl.
  eapply stable_trans; [apply stable_send | apply IH].
Qed.

Lemma stable_initController : forall phase c, stable c (initController phase c).
Proof.
  intros phase c; unfold initController.
  do 7 (destruct phase as [|phase];
        [first [apply stable_sendAll | apply stable_send]|]).
  destruct phase as [|phase].
  { eapply stable_trans; [apply stable_send | apply stable_sendAll]. }
  destruct phase as [|phase]; [apply stable_event_trigger | apply stable_refl].
Qed.

Lemma stable_workflow_call : forall w c, stable c (workflow_call w c).
Proof.
  intros w c; destruct w; simpl;
    auto using stable_workflow_start, stable_workflow_stop, stable_workflow_pause,
      stable_workflow_resume.
Qed.

Lemma stable_on_f : forall f c, stable c (on_f f c).
Proof.
  intros f c; unfold on_f.
  destruct (negb _).
  - destruct (workflow c) eqn:W.
    + simpl. rewrite W. stable_step stable_feeder_next. stable_triv.
    + destruct (negb (ignoreErrors c)).
      * stable_step stable_workflow_pause. stable_triv.
      * stable_triv.
    + simpl. rewrite W. stable_triv.
  - destruct (workflow c); try apply stable_refl. apply stable_feeder_next.
Qed.

Lemma stable_on_qr : forall q c, stable c (on_qr q c).
Proof.
  intros q c; unfold on_qr.
  destruct (q <=? LOW_WATER_MARK E)%Z; [stable_triv|].
  fold (afterHysteresis q c).
  assert (H1 : stable c (afterHysteresis q c))
    by (unfold afterHysteresis; destruct (_ >=? _)%Z; stable_triv).
  revert H1. generalize (afterHysteresis q c) as c1. intros c1 H1.
  assert (Hfeed : stable c
     (feeder_next
       (if fhold (feeder c1)
        then match reasonData (fholdReason (feeder c1)) with
             | Some d =>
                 if String.eqb d WAIT && (q >=? plannerBufferPoolSize (runner c1))%Z
                 then feeder_unhold c1 else c1
             | None => c1
             end
        else c1))).
  { stable_step stable_feeder_next.
    destruct (fhold (feeder c1)); [|exact H1].
    destruct (reasonData _); [|exact H1].
    destruct (_ && _); [|exact H1].
    eapply stable_trans; [exact H1|]. stable_triv. }
  assert (Hack : stable c (ackNext c1))
    by (eapply stable_trans; [exact H1 | apply stable_ackNext]).
  destruct (workflow c1).
  - exact Hfeed.
  - destruct (senderStatus c1); [exact H1 | | exact Hack].
    destruct (_ && _); [|exact H1].
    apply stable_trans with (c1 := c1); [exact H1|].
    apply stable_trans with (c1 := sender_unhold c1); [stable_triv|].
    apply stable_trans with (c1 := sender_next (sender_unhold c1));
      [apply stable_sender_next | stable_triv].
  - destruct (senderStatus c1); [exact Hfeed | exact Hfeed | exact Hack].
Qed.

Lemma stable_sender_load : forall content c, stable c (sender_load content c).
Proof.
  intros content c. unfold sender_load. destruct (Sender.load _ _); [|apply stable_refl].
  stable_step stable_workflow_stop. stable_step stable_event_trigger. stable_triv.
Qed.

Lemma stable_feeds : forall cmd c,
  match cmd with
  | CmdMotorEnable _ | CmdMotorDisable | CmdMotorTimeout _ | CmdLasertest _ _ _
  | CmdMacroRun _ _ => stable c (command cmd c)
  | _ => True
  end.
Proof.
  intros cmd c; destruct cmd; try exact I; simpl; open_feeds;
    repeat first [ apply stable_refl | apply stable_command_gcode
                 | apply stable_event_trigger
                 | stable_step stable_command_gcode | stable_step stable_event_trigger ].
Qed.

Lemma stable_command : forall cmd c, stable c (command cmd c).
Proof.
  intros cmd c. pose proof (stable_feeds cmd c) as F.
  destruct cmd; simpl; try exact F.
  - apply stable_sender_load.
  - unfold sender_unload. stable_step stable_event_trigger.
    eapply stable_trans; [apply stable_workflow_stop|]. stable_triv.
  - unfold sender_start. stable_step stable_sender_next.
    apply stable_trans with (c1 := event_trigger "sender:start" c);
      [apply stable_event_trigger|].
    apply stable_trans with (c1 := workflow_start (event_trigger "sender:start" c));
      [apply stable_workflow_start | stable_triv].
  - unfold sender_stop. stable_step stable_writeln.
    destruct force.
    + stable_step stable_writelnAll. stable_step stable_workflow_stop.
      apply stable_event_trigger.
    + stable_step stable_workflow_stop. apply stable_event_trigger.
  - unfold sender_pause. stable_step stable_writeln. stable_step stable_writeln.
    stable_step stable_workflow_pause. apply stable_event_trigger.
  - unfold sender_resume. stable_step stable_writeln. stable_step stable_workflow_resume.
    stable_step stable_writeln. apply stable_event_trigger.
  - unfold feeder_start. destruct (workflow c); try apply stable_refl;
      (stable_step stable_feeder_next;
       apply stable_trans with (c1 := writeln QUEUE_REPORT (writeln "~" c));
       [stable_step stable_writeln; apply stable_writeln | stable_triv]).
  - stable_triv.
  - stable_step stable_writeln. stable_step stable_writeln. apply stable_event_trigger.
  - stable_step stable_writeln. stable_step stable_writeln. apply stable_event_trigger.
  - stable_step stable_writeln. apply stable_event_trigger.
  - apply stable_event_trigger.
  - apply stable_writeln.
  - stable_step stable_write.
    eapply stable_trans; [apply stable_workflow_stop|]. stable_triv.
  - apply stable_command_gcode.
  - apply stable_command_gcode.
  - unfold override_rapid.
    repeat match goal with |- context [if ?x then _ else _] => destruct x end;
      try apply stable_refl; apply stable_command_gcode.
  - apply stable_command_gcode.
  - unfold macro_load. destruct (findMacro id macros); [|apply stable_refl].
    stable_step stable_sender_load. apply stable_event_trigger.
  - unfold watchdir_load. destruct data; [apply stable_sender_load | apply stable_refl].
Qed.

Lemma stable_on_r : forall r c, stable (ignoreUnrecognized r c) (on_r r c).
Proof.
  intros r c; unfold on_r.
  generalize (ignoreUnrecognized r c) as c1. intros c1.
  destruct (workflow c1).
  - apply stable_feeder_next.
  - simpl. destruct (negb (blocked c1)); [|stable_triv].
    eapply stable_trans; [|apply stable_ackNext]. stable_triv.
  - destruct (_ <? _)%nat; [|apply stable_feeder_next].
    eapply stable_trans; [|apply stable_ackNext]. stable_triv.
Qed.

(** Only an [r] frame changes the status report mask. *)
Lemma sr_step : forall c e,
  sr (step c e) = match e with
                  | FrameR r => sr (ignoreUnrecognized r c)
                  | _ => sr c
                  end.
Proof.
  intros c e; destruct e; simpl.
  - apply (stable_on_r r c).
  - apply (stable_on_qr qr c).
  - apply (stable_on_f f c).
  - reflexivity.
  - apply (stable_command cmd c).
  - apply (stable_workflow_call w c).
  - apply (stable_initController phase c).
  - apply (stable_workflow_stop (emit "connection:open" (PText EmptyString) (setIsOpen true c))).
  - reflexivity.
Qed.

Lemma bit_clearBit : forall k k' m,
  bit k (clearBit k' m) = if String.eqb k k' then Some false else bit k m.
Proof.
  intros k k' m; induction m as [|[k2 b] m IH]; unfold bit in *; simpl.
  - rewrite (String.eqb_sym k' k). destruct (String.eqb k k'); reflexivity.
  - destruct (String.eqb k2 k') eqn:A; simpl.
    + apply String.eqb_eq in A; subst k2.
      rewrite (String.eqb_sym k' k). destruct (String.eqb k k'); reflexivity.
    + destruct (String.eqb k2 k) eqn:B; simpl.
      * apply String.eqb_eq in B; subst k2.
        rewrite A. reflexivity.
      * exact IH.
Qed.

Lemma bit_fold_clear : forall (r : JValue) k ks c,
  bit k (sr (fold_left
               (fun c k' => if isNullField k' r then setSr (clearBit k' (sr c)) c else c)
               ks c))
  = if existsb (fun k' => String.eqb k k' && isNullField k' r) ks
    then Some false else bit k (sr c).
Proof.
  intros r k ks; induction ks as [|k' ks IH]; intros c; [reflexivity|].
  simpl. rewrite IH.
  destruct (isNullField k' r); simpl.
  - rewrite bit_clearBit, andb_true_r.
    destruct (String.eqb k k'); simpl; [|reflexivity].
    destruct (existsb _ ks); reflexivity.
  - rewrite andb_false_r. reflexivity.
Qed.

Lemma bit_ignoreUnrecognized : forall r k c,
  bit k (sr (ignoreUnrecognized r c))
  = if existsb (fun k' => String.eqb k k' && isNullField k' r) probedFields
    then Some false else bit k (sr c).
Proof. intros; apply bit_fold_clear. Qed.

Lemma bit_step_false : forall k c e,
  bit k (sr c) = Some false -> bit k (sr (step c e)) = Some false.
Proof.
  intros k c e H. rewrite sr_step. destruct e; try exact H.
  rewrite bit_ignoreUnrecognized. destruct (existsb _ _); auto.
Qed.

Lemma bit_run_false : forall k events c,
  bit k (sr c) = Some false -> bit k (sr (run c events)) = Some false.
Proof.
  intros k events; induction events as [|e events IH]; intros c H; [exact H|].
  simpl. apply IH, bit_step_false, H.
Qed.

Lemma clearBit_shape : forall k m,
  In k probedFields -> maskShape m -> maskShape (clearBit k m).
Proof.
  intros k m Hk (b1 & b2 & b3 & b4 & b5 & b6 & ->).
  unfold probedFields in Hk; simpl in Hk.
  unfold maskShape.
  repeat (destruct Hk as [<-|Hk]; [do 6 eexists; reflexivity|]).
  contradiction.
Qed.

Lemma fold_clear_shape : forall (r : JValue) ks c,
  (forall k, In k ks -> In k probedFields) ->
  maskShape (sr c) ->
  maskShape (sr (fold_left
                   (fun c k' => if isNullField k' r then setSr (clearBit k' (sr c)) c else c)
                   ks c)).
Proof.
  intros r ks; induction ks as [|k ks IH]; intros c Hin H; [exact H|].
  simpl. apply IH; [intros k' Hk'; apply Hin; right; exact Hk'|].
  destruct (isNullField k r); [|exact H].
  simpl. apply clearBit_shape; [apply Hin; left; reflexivity | exact H].
Qed.

Lemma maskShape_step : forall c e, maskShape (sr c) -> maskShape (sr (step c e)).
Proof.
  intros c e H. rewrite sr_step. destruct e; try exact H.
  apply fold_clear_shape; auto.
Qed.

Lemma maskShape_reachable : forall c, reachable c -> maskShape (sr c).
Proof.
  intros c (r & x & ig & rules & events & ->).
  assert (H0 : maskShape (sr (initial E r x ig rules)))
    by (exists true, true, true, true, true, true; reflexivity).
  revert H0. generalize (initial E r x ig rules) as c0.
  induction events as [|e events IH]; intros c0 H0; [exact H0|].
  simpl. apply IH, maskShape_step, H0.
Qed.

Lemma render_probedMask : forall b1 b2 b3 b4 b5 b6,
  let m := probedMask b1 b2 b3 b4 b5 b6 in
  relaxedJSON (stringifySr (pickedKeys m)) = specSrCommand m
  /\ gcodeData [specSrCommand m] = [specSrCommand m].
Proof.
  intros b1 b2 b3 b4 b5 b6;
    destruct b1, b2, b3, b4, b5, b6; split; vm_compute; reflexivity.
Qed.

Lemma unpicked_probedMask : forall k b1 b2 b3 b4 b5 b6,
  In k probedFields ->
  bit k (probedMask b1 b2 b3 b4 b5 b6) = Some false ->
  ~ In k (pickedKeys (probedMask b1 b2 b3 b4 b5 b6)).
Proof.
  intros k b1 b2 b3 b4 b5 b6 Hk.
  unfold probedFields in Hk; simpl in Hk.
  repeat (destruct Hk as [<-|Hk];
          [destruct b1, b2, b3, b4, b5, b6; vm_compute; intros Hb Hin;
           try discriminate Hb;
           repeat (destruct Hin as [Hin|Hin]; [discriminate Hin|]); exact Hin|]).
  contradiction.
Qed.

Lemma log_send : forall cmd c, exists l, log (send cmd c) = (log c ++ l)%list.
Proof.
  intros cmd c; unfold send.
  repeat match goal with |- context [if ?b then _ else _] => destruct b end;
    try (exists []; symmetry; apply app_nil_r).
  destruct (log_command_gcode [cmd] c) as (rest & H). eexists; exact H.
Qed.

Lemma log_sendAll : forall l c, exists l', log (sendAll l c) = (log c ++ l')%list.
Proof.
  induction l as [|d l IH]; intros c; [exists []; symmetry; apply app_nil_r|].
  unfold sendAll in *; simpl.
  destruct (IH (send d c)) as (l2 & H2). destruct (log_send d c) as (l1 & H1).
  exists (l1 ++ l2)%list. rewrite H2, H1, app_assoc. reflexivity.
Qed.

(** C8. An [r] frame carrying one of the probed fields with value [null]
    clears that bit of the status report mask, and the bit stays cleared.
    In every state reached afterwards the field selection command is the
    relaxed JSON object listing only the keys whose bit is set, so
    without that field, and that is what phase 7 of [initController]
    hands to the Feeder when the connection is open and the command fits
    the serial buffer. *)
Theorem null_probe_clears_bit : forall (r : JValue) (k : string) (events : list Event) c,
  reachable c ->
  In k probedFields ->
  isNullField k r = true ->
  let c' := run (on_r r c) events in
  bit k (sr (on_r r c)) = Some false
  /\ bit k (sr c') = Some false
  /\ ~ In k (pickedKeys (sr c'))
  /\ srFieldsCommand c' = specSrCommand (sr c')
  /\ (isOpen c' = true ->
      (String.length (srFieldsCommand c') < SERIAL_BUFFER_LIMIT E)%nat ->
      exists rest,
        log (initController 7 c')
        = (log c' ++ FeederFeed [specSrCommand (sr c')] :: rest)%list).
Proof.
  intros r k events c Hr Hk Hn c'.
  assert (B0 : bit k (sr (on_r r c)) = Some false).
  { change (on_r r c) with (step c (FrameR r)).
    rewrite sr_step, bit_ignoreUnrecognized.
    assert (X : existsb (fun k' => String.eqb k k' && isNullField k' r) probedFields = true).
    { apply existsb_exists. exists k. split; [exact Hk|].
      rewrite String.eqb_refl, Hn. reflexivity. }
    rewrite X. reflexivity. }
  assert (B1 : bit k (sr c') = Some false) by (apply bit_run_false, B0).
  assert (R' : reachable c').
  { destruct Hr as (r0 & x & ig & rules & ev0 & ->).
    exists r0, x, ig, rules, (ev0 ++ FrameR r :: events)%list.
    unfold c', run. rewrite fold_left_app. reflexivity. }
  destruct (maskShape_reachable _ R') as (b1 & b2 & b3 & b4 & b5 & b6 & M).
  destruct (render_probedMask b1 b2 b3 b4 b5 b6) as (Rd & Gd).
  assert (Cmd : srFieldsCommand c' = specSrCommand (sr c'))
    by (unfold srFieldsCommand; rewrite M; exact Rd).
  split; [exact B0|]. split; [exact B1|]. split.
  { rewrite M. apply unpicked_probedMask; [exact Hk|]. rewrite <- M. exact B1. }
  split; [exact Cmd|].
  intros Ho Hl. unfold initController.
  match goal with |- context [sendAll ?l ?x] =>
    destruct (log_sendAll l x) as (l2 & H2) end.
  assert (Hs : send (srFieldsCommand c') c' = command_gcode [srFieldsCommand c'] c').
  { unfold send. rewrite Ho. cbn [negb].
    apply Nat.leb_gt in Hl. rewrite Hl. reflexivity. }
  destruct (log_command_gcode [srFieldsCommand c'] c') as (l1 & H1).
  rewrite H2, Hs, H1, Cmd. rewrite M, Gd, <- M.
  exists (l1 ++ l2)%list. rewrite <- app_assoc. reflexivity.
Qed.

(** *** The Sender's data handler *)




(** *** Footers *)

Ltac footer_cases :=
  repeat match goal with
         | |- context [if ?b then _ else _] => destruct b
         | |- context [match ?x with _ => _ end] => destruct x
         end; simpl; try reflexivity;
  unfold footerTrace; rewrite ?filter_app; simpl; rewrite ?app_nil_r; reflexivity.

Lemma footerTrace_feederDataFilter : forall line c,
  footerTrace (log (snd (feederDataFilter line c))) = footerTrace (log c).
Proof. intros line c; unfold feederDataFilter, feeder_hold; footer_cases. Qed.

Lemma footerTrace_feederOnData : forall line c,
  footerTrace (log (feederOnData line c)) = footerTrace (log c).
Proof. intros line c; unfold feederOnData, feeder_reset, emit; footer_cases. Qed.

Lemma footerTrace_feeder_next : forall c,
  footerTrace (log (feeder_next c)) = (footerTrace (log c) ++ [FeederNext])%list.
Proof.
  intros c; unfold feeder_next.
  assert (H0 : footerTrace (log (record FeederNext c))
               = (footerTrace (log c) ++ [FeederNext])%list)
    by (unfold footerTrace; simpl; rewrite filter_app; reflexivity).
  destruct (fhold _); [exact H0|].
  destruct (queue _) as [|line rest]; [exact H0|].
  match goal with
  | |- context [feederDataFilter ?l ?x] =>
      pose proof (footerTrace_feederDataFilter l x) as H;
      destruct (feederDataFilter l x) as [out c1]
  end.
  simpl snd in H. rewrite footerTrace_feederOnData, H. exact H0.
Qed.

(** C10. Every footer processed while the workflow is idle calls
    [feeder.next()] once, whether its status code is non-zero, zero or
    absent; the structured error is broadcast before that call exactly
    when the status code is non-zero. *)
Theorem idle_footer_calls_feeder_next : forall (f : list Z) c,
  workflow c = WORKFLOW_STATE_IDLE ->
  let statusCode := nth 1 f 0%Z in
  let report :=
    if (statusCode =? 0)%Z then []
    else [Emit "connection:read" (PError statusCode (statusMessage E statusCode) None)] in
  footerTrace (log (on_f f c)) = (footerTrace (log c) ++ report ++ [FeederNext])%list
  /\ ((List.length f < 2)%nat -> report = []).
Proof.
  intros f c W statusCode report. split.
  - unfold on_f. fold statusCode. unfold report.
    destruct (statusCode =? 0)%Z; simpl.
    + rewrite W. apply footerTrace_feeder_next.
    + rewrite W. simpl. try rewrite W. rewrite footerTrace_feeder_next.
      unfold footerTrace; simpl. rewrite filter_app, <- app_assoc. reflexivity.
  - intros Hl. unfold report, statusCode.
    destruct f as [|a [|b f]]; simpl in *; try reflexivity. lia.
Qed.

End Properties.

(** ** The theorems at concrete inputs *)

Module Witness.
Import Example.

(** C1 at the scenario of the specification: five lines sent, four
    acknowledged, then the frame [{n: 5}]. *)
Lemma on_r_running_acks_then_nexts_witness :
  workflow midProgram = WORKFLOW_STATE_RUNNING
  /\ blocked midProgram = false
  /\ sent (sender (on_r (JObj [("n", JNum 5)]) midProgram)) = 6%nat
  /\ received (sender (on_r (JObj [("n", JNum 5)]) midProgram)) = 5%nat
  /\ senderStatus (on_r (JObj [("n", JNum 5)]) midProgram) = SENDER_STATUS_NEXT.
Proof.
  assert (W : workflow midProgram = WORKFLOW_STATE_RUNNING) by (vm_compute; reflexivity).
  assert (B : blocked midProgram = false) by (vm_compute; reflexivity).
  assert (S5 : sent (sender midProgram) = 5%nat) by (vm_compute; reflexivity).
  assert (R4 : received (sender midProgram) = 4%nat) by (vm_compute; reflexivity).
  split; [exact W|]. split; [exact B|].
  destruct (on_r_running_acks_then_nexts env (JObj [("n", JNum 5)]) midProgram W B)
    as (_ & _ & _ & _ & _ & H).
  destruct (H S5 R4) as (Hr & Ht & Hs).
  split; [rewrite Hs; vm_compute; reflexivity|]. split; [exact Hr | exact Ht].
Defined.

Lemma lastLineState_reachable : reachable lastLineState.
Proof. exists runner0, tt, false, [], lastLineRun. reflexivity. Defined.

(** C1: the scenario fails at the last line of a program.  In
    [lastLineState] the workflow is running, the controller is not
    blocked, five lines are sent and four acknowledged, but the fifth
    line is the closing [%wait], which holds the Sender and is the last:
    the frame acknowledges it and [sent] stays 5. *)
Lemma last_line_ack_sends_nothing :
  reachable lastLineState
  /\ workflow lastLineState = WORKFLOW_STATE_RUNNING
  /\ blocked lastLineState = false
  /\ sent (sender lastLineState) = 5%nat
  /\ received (sender lastLineState) = 4%nat
  /\ received (sender (on_r (JObj [("n", JNum 5)]) lastLineState)) = 5%nat
  /\ senderStatus (on_r (JObj [("n", JNum 5)]) lastLineState) = SENDER_STATUS_NEXT
  /\ sent (sender (on_r (JObj [("n", JNum 5)]) lastLineState)) = 5%nat
  /\ sent (sender (on_r (JObj [("n", JNum 5)]) lastLineState)) <> 6%nat.
Proof.
  split; [exact lastLineState_reachable|].
  repeat (split; [vm_compute; reflexivity|]).
  vm_compute. discriminate.
Qed.

Lemma midProgram_reachable : reachable midProgram.
Proof. exists runner0, tt, false, [], midRun. reflexivity. Defined.

Lemma blockedState_reachable : reachable blockedState.
Proof. exists runner0, tt, false, [], blockedRun. reflexivity. Defined.

Lemma drainedState_reachable : reachable drainedState.
Proof. exists runner0, tt, false, [], drainedRun. reflexivity. Defined.

Lemma smallPoolState_reachable : reachable smallPoolState.
Proof.
  exists runner0, tt, false, [],
    (ConnectionOpened
     :: RunnerUpdate (mkRunner false 4 (mkSettings (Some 100) JsNumber.ONE JsNumber.ONE))
     :: tl drainedRun).
  reflexivity.
Defined.

(** C2: the claim fails on a queue report between the water marks.  In
    [blockedState] the controller is blocked with an acknowledgement
    pending; the report [qr = 10] (low 8, high 20) leaves it blocked and
    yet line 1 goes out. *)
Lemma blocked_qr_between_marks_transmits :
  reachable blockedState
  /\ blocked blockedState = true
  /\ blocked (step blockedState (FrameQr 10)) = true
  /\ sent (sender blockedState) = 1%nat
  /\ sent (sender (step blockedState (FrameQr 10))) = 2%nat
  /\ senderWrites (log (step blockedState (FrameQr 10)))
     = (senderWrites (log blockedState)
        ++ [ConnWrite FromSender ("N1G1X2" ++ JsString.LF)])%list
  /\ senderWrites (log (step blockedState (FrameQr 10)))
     <> senderWrites (log blockedState).
Proof.
  split; [exact blockedState_reachable|].
  repeat (split; [vm_compute; reflexivity|]).
  vm_compute. discriminate.
Qed.

Lemma blockedEarly_reachable : reachable blockedEarly.
Proof. exists runner0, tt, false, [], (firstn 4 blockedRun). reflexivity. Defined.

(** C2 (amended) in the same blocked state, and for [qr = 10] in the
    state before the acknowledgement, where nothing is pending. *)
Lemma blocked_gates_r_and_low_qr_witness :
  reachable blockedState /\ blocked blockedState = true
  /\ sent (sender (on_r (JObj [("n", JNum 1)]) blockedState)) = sent (sender blockedState)
  /\ (4 <= LOW_WATER_MARK env)%Z
  /\ sent (sender (on_qr 4 blockedState)) = sent (sender blockedState)
  /\ reachable blockedEarly /\ blocked blockedEarly = true
  /\ qrCanRelease 10 blockedEarly = false
  /\ sent (sender (on_qr 10 blockedEarly)) = sent (sender blockedEarly).
Proof.
  assert (B : blocked blockedState = true) by (vm_compute; reflexivity).
  assert (B' : blocked blockedEarly = true) by (vm_compute; reflexivity).
  assert (Q : qrCanRelease 10 blockedEarly = false) by (vm_compute; reflexivity).
  destruct (blocked_gates_r_and_low_qr env blockedState blockedState_reachable B)
    as (Hr & Hq & _).
  destruct (blocked_gates_r_and_low_qr env blockedEarly blockedEarly_reachable B')
    as (_ & _ & Hn).
  split; [exact blockedState_reachable|]. split; [exact B|].
  split; [apply (Hr (JObj [("n", JNum 1)]))|]. split; [vm_compute; discriminate|].
  split; [apply Hq; vm_compute; discriminate|].
  split; [exact blockedEarly_reachable|]. split; [exact B'|]. split; [exact Q|].
  apply (Hn 10%Z Q).
Defined.

(** C4: the release fails at or below the low-water mark.  In
    [smallPoolState] the workflow is running, [senderStatus] is next, the
    Sender is held by [%wait], [received = sent = 2] and the planner
    buffer pool is 4; the report [qr = 4] meets [q >= 4] but not
    [q > 8]: the controller blocks and the Sender stays held. *)
Lemma low_qr_does_not_release :
  reachable smallPoolState
  /\ workflow smallPoolState = WORKFLOW_STATE_RUNNING
  /\ senderStatus smallPoolState = SENDER_STATUS_NEXT
  /\ hold (sender smallPoolState) = true
  /\ (sent (sender smallPoolState) <= received (sender smallPoolState))%nat
  /\ (plannerBufferPoolSize (runner smallPoolState) <= 4)%Z
  /\ hold (sender (on_qr 4 smallPoolState)) = true
  /\ log (on_qr 4 smallPoolState) = log smallPoolState
  /\ blocked (on_qr 4 smallPoolState) = true.
Proof.
  split; [exact smallPoolState_reachable|].
  do 7 (split; [vm_compute; first [reflexivity | discriminate | lia]|]).
  vm_compute; reflexivity.
Qed.

(** C4 (amended) at the closing line of a loaded program: through the
    filter of a Sender that is not held, pulled by [sender.next()] right
    after the start, and released by the report [qr = 32] for the drained
    Sender with a pool of 32. *)
Lemma wait_holds_and_qr_releases_witness :
  JsString.trim (JsString.removeComments DWELL) = WAIT
  /\ hold (sender midProgram) = false
  /\ fst (senderDataFilter DWELL midProgram) = "G4 P0.5"
  /\ holdReason (sender (snd (senderDataFilter DWELL midProgram))) = Some (ReasonData WAIT)
  /\ hold (sender startedState) = false
  /\ nth_error (lines (sender startedState)) (sent (sender startedState)) = Some DWELL
  /\ sender (sender_next startedState)
     = mkSender (lines (sender startedState)) (S (sent (sender startedState)))
         (received (sender startedState)) true (Some (ReasonData WAIT))
  /\ (LOW_WATER_MARK env < 32)%Z
  /\ workflow drainedState = WORKFLOW_STATE_RUNNING
  /\ senderStatus drainedState = SENDER_STATUS_NEXT
  /\ hold (sender drainedState) = true
  /\ (sent (sender drainedState) <= received (sender drainedState))%nat
  /\ (plannerBufferPoolSize (runner drainedState) <= 32)%Z
  /\ exists rest,
       log (on_qr 32 drainedState)
       = (log drainedState ++ SenderUnhold :: SenderNext :: rest)%list.
Proof.
  assert (H0 : JsString.trim (JsString.removeComments DWELL) = WAIT)
    by (vm_compute; reflexivity).
  assert (N : hold (sender midProgram) = false) by (vm_compute; reflexivity).
  assert (P1 : hold (sender startedState) = false) by (vm_compute; reflexivity).
  assert (P2 : nth_error (lines (sender startedState)) (sent (sender startedState))
               = Some DWELL) by (vm_compute; reflexivity).
  assert (Q1 : (LOW_WATER_MARK env < 32)%Z) by (vm_compute; reflexivity).
  assert (Q2 : workflow drainedState = WORKFLOW_STATE_RUNNING) by (vm_compute; reflexivity).
  assert (Q3 : senderStatus drainedState = SENDER_STATUS_NEXT) by (vm_compute; reflexivity).
  assert (Q4 : hold (sender drainedState) = true) by (vm_compute; reflexivity).
  assert (Q5 : (sent (sender drainedState) <= received (sender drainedState))%nat)
    by (vm_compute; lia).
  assert (Q6 : (plannerBufferPoolSize (runner drainedState) <= 32)%Z)
    by (vm_compute; discriminate).
  destruct (wait_holds_and_qr_releases env DWELL [] 32 midProgram H0)
    as ((Hf & Hh & Hr) & _).
  destruct (wait_holds_and_qr_releases env DWELL [] 32 startedState H0)
    as (_ & _ & Hp & _).
  destruct (wait_holds_and_qr_releases env DWELL [] 32 drainedState H0)
    as (_ & _ & _ & _ & Hq).
  destruct (Hp P1 P2) as (Hs & _).
  destruct (Hq Q1 Q2 Q3 Q4 Q5 Q6) as (_ & _ & Hlog).
  split; [exact H0|]. split; [exact N|]. split; [rewrite Hf; reflexivity|].
  split; [exact (Hr N)|]. split; [exact P1|]. split; [exact P2|]. split; [exact Hs|].
  repeat (split; [assumption|]). exact Hlog.
Defined.


(** C6: the kill is not the single byte [^d].  With build 101.02
    mirrored and the connection open, the forced stop writes [^d]
    followed by a newline, two bytes, and then the queue report
    request; the byte [^d] alone is never written. *)
Lemma kill_job_ends_with_newline :
  isOpen MoreExample.build101 = true
  /\ fb (settings MoreExample.build101) = Some (10102 # 100)
  /\ clientWrites (log (sender_stop true MoreExample.build101))
     = (clientWrites (log MoreExample.build101)
        ++ [bytes [4; 10]%nat; bytes [123; 34; 113; 114; 34; 58; 34; 34; 125; 10]%nat])%list
  /\ String.length (bytes [4; 10]%nat) = 2%nat
  /\ ~ In (bytes [4]%nat) (clientWrites (log (sender_stop true MoreExample.build101))).
Proof.
  split; [vm_compute; reflexivity|]. split; [vm_compute; reflexivity|].
  split; [vm_compute; reflexivity|]. split; [reflexivity|].
  vm_compute. intros [H|[H|H]]; try discriminate H; exact H.
Qed.

(** C6 (amended) at builds 101.02, 100 and 99, with and without [force],
    and on a controller whose settings were never mirrored: the Runner
    of [midProgram] reports build 101.02, the mirror is empty and the
    stop takes the dialect of the oldest builds. *)
Lemma sender_stop_writes_witness :
  clientWrites (log (sender_stop true MoreExample.build101))
  = (clientWrites (log MoreExample.build101)
     ++ [bytes [4; 10]%nat; bytes [123; 34; 113; 114; 34; 58; 34; 34; 125; 10]%nat])%list
  /\ clientWrites (log (sender_stop false MoreExample.build101))
     = (clientWrites (log MoreExample.build101)
        ++ [bytes [123; 34; 113; 114; 34; 58; 34; 34; 125; 10]%nat])%list
  /\ clientWrites (log (sender_stop true MoreExample.build100))
     = (clientWrites (log MoreExample.build100)
        ++ [bytes [4; 10]%nat; bytes [77; 51; 48; 10]%nat;
            bytes [123; 34; 113; 114; 34; 58; 34; 34; 125; 10]%nat])%list
  /\ clientWrites (log (sender_stop true MoreExample.build99))
     = (clientWrites (log MoreExample.build99)
        ++ [bytes [33; 10]%nat; bytes [37; 10]%nat; bytes [77; 51; 48; 10]%nat;
            bytes [123; 34; 113; 114; 34; 58; 34; 34; 125; 10]%nat])%list
  /\ fb (runnerSettings (runner midProgram)) = Some (10102 # 100)
  /\ fb (settings midProgram) = None
  /\ clientWrites (log (sender_stop true midProgram))
     = (clientWrites (log midProgram)
        ++ [bytes [33; 10]%nat; bytes [37; 10]%nat; bytes [77; 51; 48; 10]%nat;
            bytes [123; 34; 113; 114; 34; 58; 34; 34; 125; 10]%nat])%list
  /\ clientWrites (log (sender_stop true start)) = clientWrites (log start).
Proof.
  assert (O1 : isOpen MoreExample.build101 = true) by (vm_compute; reflexivity).
  assert (O2 : isOpen MoreExample.build100 = true) by (vm_compute; reflexivity).
  assert (O3 : isOpen MoreExample.build99 = true) by (vm_compute; reflexivity).
  assert (O4 : isOpen midProgram = true) by (vm_compute; reflexivity).
  assert (O5 : isOpen start = false) by (vm_compute; reflexivity).
  destruct (sender_stop_writes env true MoreExample.build101) as (_ & _ & A & _).
  destruct (sender_stop_writes env false MoreExample.build101) as (_ & B & _).
  destruct (sender_stop_writes env true MoreExample.build100) as (_ & _ & _ & C & _).
  destruct (sender_stop_writes env true MoreExample.build99) as (_ & _ & _ & _ & D).
  destruct (sender_stop_writes env true midProgram) as (_ & _ & _ & _ & F).
  destruct (sender_stop_writes env true start) as (G & _).
  split; [apply (A O1 eq_refl); vm_compute; discriminate|].
  split; [apply (B O1 eq_refl)|].
  split; [apply (C O2 eq_refl); vm_compute; [discriminate | reflexivity]|].
  split; [apply (D O3 eq_refl); vm_compute; reflexivity|].
  split; [vm_compute; reflexivity|]. split; [vm_compute; reflexivity|].
  split; [apply (F O4 eq_refl); vm_compute; reflexivity|].
  exact (G O5).
Defined.

(** C8 at the reply [{spe: null}] received by a fresh controller, whose
    connection is then opened. *)
Lemma null_probe_clears_bit_witness :
  reachable start
  /\ In "spe" probedFields
  /\ isNullField "spe" speNull = true
  /\ bit "spe" (sr (on_r speNull start)) = Some false
  /\ ~ In "spe" (pickedKeys (sr (run (on_r speNull start) [ConnectionOpened])))
  /\ isOpen (run (on_r speNull start) [ConnectionOpened]) = true
  /\ (String.length (srFieldsCommand (run (on_r speNull start) [ConnectionOpened]))
      < SERIAL_BUFFER_LIMIT env)%nat
  /\ exists rest,
       log (initController 7 (run (on_r speNull start) [ConnectionOpened]))
       = (log (run (on_r speNull start) [ConnectionOpened])
          ++ FeederFeed
               [specSrCommand (sr (run (on_r speNull start) [ConnectionOpened]))]
             :: rest)%list.
Proof.
  assert (R0 : reachable start) by (exists runner0, tt, false, [], []; reflexivity).
  assert (K0 : In "spe" probedFields) by (left; reflexivity).
  assert (O1 : isOpen (run (on_r speNull start) [ConnectionOpened]) = true)
    by (vm_compute; reflexivity).
  assert (L1 : (String.length (srFieldsCommand (run (on_r speNull start) [ConnectionOpened]))
                < SERIAL_BUFFER_LIMIT env)%nat)
    by (vm_compute; lia).
  destruct (null_probe_clears_bit env speNull "spe" [ConnectionOpened] start R0 K0 eq_refl)
    as (H1 & _ & H3 & _ & H5).
  split; [exact R0|]. split; [exact K0|]. split; [reflexivity|].
  split; [exact H1|]. split; [exact H3|]. split; [exact O1|]. split; [exact L1|].
  exact (H5 O1 L1).
Defined.


(** C10 at a footer with status code 3 and at a footer without one. *)
Lemma idle_footer_calls_feeder_next_witness :
  workflow start = WORKFLOW_STATE_IDLE
  /\ footerTrace (log (on_f [1; 3]%Z start))
     = [Emit "connection:read" (PError 3 (Some "Internal error") None); FeederNext]
  /\ footerTrace (log (on_f [1]%Z start)) = [FeederNext].
Proof.
  split; [reflexivity|]. split.
  - destruct (idle_footer_calls_feeder_next env [1; 3]%Z start eq_refl) as (H & _).
    rewrite H. reflexivity.
  - destruct (idle_footer_calls_feeder_next env [1]%Z start eq_refl) as (H & _).
    rewrite H. reflexivity.
Defined.

End Witness.

(** ** Further properties of the controller *)

Section MoreProperties.

Variable E : Env.
Implicit Types c : Controller E.

(** *** Properties of the trace kept by every handler *)

(** A property of the controller that looks only at the connection state
    and the trace, that survives every effect other than a write to the
    connection, and that survives the three places where the controller
    writes ([write] and the pulls of the Sender and of the Feeder, from
    the call of [next()] to the data handler), survives every frame,
    command, workflow transition and bring-up step. *)
Section TraceInvariant.

Variable Inv : Controller E -> Prop.

Hypothesis Inv_same : forall c c',
  isOpen c' = isOpen c -> log c' = log c -> Inv c -> Inv c'.
Hypothesis Inv_record : forall a c,
  match a with ConnWrite _ _ | Trigger _ => False | _ => True end ->
  Inv c -> Inv (record a c).
Hypothesis Inv_trigger : forall ev c, Inv c -> Inv (record (Trigger ev) c).
Hypothesis Inv_write : forall d c, Inv c -> Inv (write d c).
Hypothesis Inv_senderPull : forall line c,
  Inv c -> Inv (senderPull line (record SenderNext c)).
Hypothesis Inv_feederPull : forall line f c,
  Inv c -> Inv (feederPull line (setFeeder f (record FeederNext c))).

Ltac inv_set :=
  match goal with
  | |- Inv (setWorkflow _ ?x) => apply Inv_same with (c := x); [reflexivity | reflexivity |]
  | |- Inv (setBlocked _ ?x) => apply Inv_same with (c := x); [reflexivity | reflexivity |]
  | |- Inv (setSenderStatus _ ?x) => apply Inv_same with (c := x); [reflexivity | reflexivity |]
  | |- Inv (setSender _ ?x) => apply Inv_same with (c := x); [reflexivity | reflexivity |]
  | |- Inv (setFeeder _ ?x) => apply Inv_same with (c := x); [reflexivity | reflexivity |]
  | |- Inv (setSharedContext _ ?x) => apply Inv_same with (c := x); [reflexivity | reflexivity |]
  | |- Inv (setStateQr _ ?x) => apply Inv_same with (c := x); [reflexivity | reflexivity |]
  | |- Inv (setRunner _ ?x) => apply Inv_same with (c := x); [reflexivity | reflexivity |]
  | |- Inv (setSettings _ ?x) => apply Inv_same with (c := x); [reflexivity | reflexivity |]
  | |- Inv (record _ _) => apply Inv_record; [exact I|]
  | |- Inv (emit _ _ _) => unfold emit; apply Inv_record; [exact I|]
  | |- Inv (write _ _) => apply Inv_write
  | |- Inv (writeln _ _) => unfold writeln; apply Inv_write
  end.

Ltac inv_sets := repeat inv_set; try assumption.

Lemma inv_writelnAll : forall l c, Inv c -> Inv (writelnAll l c).
Proof.
  intros l; induction l as [|d l IH]; intros c H; [exact H|].
  unfold writelnAll in *; simpl. apply IH. inv_sets.
Qed.

Lemma inv_sender_hold : forall r c, Inv c -> Inv (sender_hold r c).
Proof. intros r c H; unfold sender_hold. inv_sets. Qed.

Lemma inv_workflow_pause : forall r c, Inv c -> Inv (workflow_pause r c).
Proof.
  intros r c H; unfold workflow_pause. destruct (workflow c); try exact H.
  unfold on_workflow_pause. apply inv_sender_hold. inv_sets.
Qed.

Lemma inv_senderDataFilter : forall line c,
  Inv c -> Inv (snd (senderDataFilter line c)).
Proof.
  intros line c H; unfold senderDataFilter.
  destruct (startsWithPercent _).
  - destruct (String.eqb _ WAIT); simpl; [apply inv_sender_hold, H | inv_sets].
  - simpl.
    match goal with
    | |- Inv (if _ then workflow_pause ?r ?c1 else ?c1) =>
        assert (H1 : Inv c1)
    end.
    { destruct (programMode _) as [m|]; [|exact H].
      destruct (String.eqb m "M0"); [apply inv_workflow_pause, H|].
      destruct (String.eqb m "M1"); [apply inv_workflow_pause, H | exact H]. }
    destruct (includes _ "M6"); [apply inv_workflow_pause, H1 | exact H1].
Qed.

(** A property that survives the Sender's data handler survives the
    Sender's pull. *)
Lemma inv_senderPull_onData :
  (forall line c, Inv c -> Inv (senderOnData line c)) ->
  forall line c, Inv c -> Inv (senderPull line (record SenderNext c)).
Proof.
  intros D line c H. unfold senderPull.
  assert (H0 : Inv (record SenderNext c)) by inv_sets.
  pose proof (inv_senderDataFilter line _ H0) as H1.
  destruct (senderDataFilter line (record SenderNext c)) as [out c1]. simpl snd in H1.
  apply D, H1.
Qed.

Lemma inv_sender_next : forall c, Inv c -> Inv (sender_next c).
Proof.
  intros c H; unfold sender_next.
  assert (H0 : Inv (record SenderNext c)) by inv_sets.
  destruct (hold _ || _); [exact H0|].
  destruct (nth_error _ _) as [line|]; [|exact H0].
  pose proof (Inv_senderPull line c H) as H1. unfold senderPull in H1.
  destruct (senderDataFilter line (record SenderNext c)) as [out c1].
  inv_set. exact H1.
Qed.

Lemma inv_sender_ack : forall c, Inv c -> Inv (sender_ack c).
Proof.
  intros c H; unfold sender_ack.
  destruct (_ =? _)%nat; inv_sets.
Qed.

Lemma inv_ackNext : forall c, Inv c -> Inv (ackNext c).
Proof.
  intros c H; unfold ackNext. inv_set. apply inv_sender_next, inv_sender_ack, H.
Qed.

Lemma inv_feeder_hold : forall r c, Inv c -> Inv (feeder_hold r c).
Proof. intros r c H; unfold feeder_hold. inv_sets. Qed.

Lemma inv_feederDataFilter : forall line c,
  Inv c -> Inv (snd (feederDataFilter line c)).
Proof.
  intros line c H; unfold feederDataFilter.
  destruct (startsWithPercent _).
  - destruct (String.eqb _ WAIT); simpl; [apply inv_feeder_hold, H | inv_sets].
  - simpl.
    match goal with
    | |- Inv (if _ then feeder_hold ?r ?c1 else ?c1) =>
        assert (H1 : Inv c1)
    end.
    { destruct (programMode _) as [m|]; [|exact H].
      destruct (String.eqb m "M0"); [apply inv_feeder_hold, H|].
      destruct (String.eqb m "M1"); [apply inv_feeder_hold, H | exact H]. }
    destruct (includes _ "M6"); [apply inv_feeder_hold, H1 | exact H1].
Qed.

(** A property that survives the Feeder's data handler survives the
    Feeder's pull. *)
Lemma inv_feederPull_onData :
  (forall line c, Inv c -> Inv (feederOnData line c)) ->
  forall line f c, Inv c -> Inv (feederPull line (setFeeder f (record FeederNext c))).
Proof.
  intros D line f c H. unfold feederPull.
  match goal with
  | |- context [feederDataFilter ?l ?x] =>
      assert (H1 : Inv (snd (feederDataFilter l x)))
        by (apply inv_feederDataFilter; inv_sets);
      destruct (feederDataFilter l x) as [out c1]
  end.
  simpl snd in H1. apply D, H1.
Qed.

Lemma inv_feeder_next : forall c, Inv c -> Inv (feeder_next c).
Proof.
  intros c H; unfold feeder_next.
  assert (H0 : Inv (record FeederNext c)) by inv_sets.
  destruct (fhold _); [exact H0|].
  destruct (queue _) as [|line rest]; [inv_sets|].
  cbv zeta.
  match goal with
  | |- context [feederDataFilter line (setFeeder ?f _)] =>
      pose proof (Inv_feederPull line f c H) as H1
  end.
  unfold feederPull in H1. exact H1.
Qed.

Lemma inv_command_gcode : forall l c, Inv c -> Inv (command_gcode l c).
Proof.
  intros l c H; unfold command_gcode.
  match goal with |- context [if ?b then _ else _] => destruct b end;
    [apply inv_feeder_next|]; inv_sets.
Qed.

Lemma inv_event_trigger : forall ev c, Inv c -> Inv (event_trigger ev c).
Proof.
  intros ev c H; unfold event_trigger.
  assert (H0 : Inv (record (Trigger ev) c)) by (apply Inv_trigger, H).
  revert H0.
  assert (R : eventRules (record (Trigger ev) c) = eventRules c) by reflexivity.
  rewrite <- R; clear R.
  generalize (record (Trigger ev) c) at 1 3 as c0.
  generalize (eventRules (record (Trigger ev) c)) as rules.
  induction rules as [|rule rules IH]; intros c0 H0; [exact H0|].
  simpl; apply IH.
  destruct (String.eqb (ruleEvent rule) ev); [|exact H0].
  destruct (ruleSystem rule); [inv_sets | apply inv_command_gcode, H0].
Qed.

Lemma inv_on_workflow_rewind : forall c, Inv c -> Inv (on_workflow_rewind c).
Proof. intros c H; unfold on_workflow_rewind, sender_rewind. inv_sets. Qed.

Lemma inv_workflow_start : forall c, Inv c -> Inv (workflow_start c).
Proof.
  intros c H; unfold workflow_start.
  destruct (workflow c); try exact H; apply inv_on_workflow_rewind; inv_sets.
Qed.

Lemma inv_workflow_stop : forall c, Inv c -> Inv (workflow_stop c).
Proof.
  intros c H; unfold workflow_stop.
  destruct (workflow c); try exact H; apply inv_on_workflow_rewind; inv_sets.
Qed.

Lemma inv_feeder_reset : forall c, Inv c -> Inv (feeder_reset c).
Proof. intros c H; unfold feeder_reset. inv_sets. Qed.

Lemma inv_feeder_unhold : forall c, Inv c -> Inv (feeder_unhold c).
Proof. intros c H; unfold feeder_unhold. inv_sets. Qed.

Lemma inv_sender_unhold : forall c, Inv c -> Inv (sender_unhold c).
Proof. intros c H; unfold sender_unhold. inv_sets. Qed.

Lemma inv_workflow_resume : forall c, Inv c -> Inv (workflow_resume c).
Proof.
  intros c H; unfold workflow_resume.
  destruct (workflow c); try exact H.
  unfold on_workflow_resume.
  apply inv_sender_next, inv_sender_unhold, inv_feeder_reset. inv_sets.
Qed.

Lemma inv_workflow_call : forall w c, Inv c -> Inv (workflow_call w c).
Proof.
  intros w c H; destruct w; simpl;
    auto using inv_workflow_start, inv_workflow_stop, inv_workflow_pause,
      inv_workflow_resume.
Qed.

Lemma inv_ignoreUnrecognized : forall r c, Inv c -> Inv (ignoreUnrecognized r c).
Proof.
  intros r c H. destruct (ignoreUnrecognized_state E r c) as (_ & L & O & _).
  exact (Inv_same _ _ O L H).
Qed.

Lemma inv_on_r : forall r c, Inv c -> Inv (on_r r c).
Proof.
  intros r c H; unfold on_r.
  pose proof (inv_ignoreUnrecognized r c H) as H1.
  revert H1. generalize (ignoreUnrecognized r c) as c1. intros c1 H1.
  destruct (workflow c1).
  - apply inv_feeder_next, H1.
  - destruct (negb _); [apply inv_ackNext|]; inv_sets.
  - destruct (_ <? _)%nat; [apply inv_ackNext; inv_sets | apply inv_feeder_next, H1].
Qed.

Lemma inv_on_qr : forall q c, Inv c -> Inv (on_qr q c).
Proof.
  intros q c H; unfold on_qr.
  destruct (q <=? LOW_WATER_MARK E)%Z; [inv_sets|].
  fold (afterHysteresis q c).
  assert (H1 : Inv (afterHysteresis q c))
    by (unfold afterHysteresis; destruct (q >=? HIGH_WATER_MARK E)%Z; inv_sets).
  revert H1. generalize (afterHysteresis q c) as c1. intros c1 H1.
  assert (Hfeed : Inv
     (feeder_next
       (if fhold (feeder c1)
        then match reasonData (fholdReason (feeder c1)) with
             | Some d =>
                 if String.eqb d WAIT && (q >=? plannerBufferPoolSize (runner c1))%Z
                 then feeder_unhold c1 else c1
             | None => c1
             end
        else c1))).
  { apply inv_feeder_next.
    destruct (fhold (feeder c1)); [|exact H1].
    destruct (reasonData _); [|exact H1].
    match goal with
    | |- context [if ?b then feeder_unhold _ else _] => destruct b
    end; [|exact H1].
    apply inv_feeder_unhold, H1. }
  destruct (workflow c1).
  - exact Hfeed.
  - destruct (senderStatus c1); [exact H1 | | apply inv_ackNext, H1].
    match goal with |- context [if ?b then _ else _] => destruct b end; [|exact H1].
    inv_set. apply inv_sender_next, inv_sender_unhold, H1.
  - destruct (senderStatus c1); [exact Hfeed | exact Hfeed | apply inv_ackNext, H1].
Qed.

Lemma inv_on_f : forall f c, Inv c -> Inv (on_f f c).
Proof.
  intros f c H; unfold on_f.
  destruct (negb _).
  - destruct (workflow c) eqn:Wf.
    + unfold emit; simpl. rewrite Wf. apply inv_feeder_next. inv_sets.
    + destruct (negb (ignoreErrors c)); [apply inv_workflow_pause|]; inv_sets.
    + unfold emit; simpl. rewrite Wf. inv_sets.
  - destruct (workflow c); try exact H. apply inv_feeder_next, H.
Qed.

Lemma inv_send : forall cmd c, Inv c -> Inv (send cmd c).
Proof.
  intros cmd c H; unfold send.
  repeat match goal with |- context [if ?b then _ else _] => destruct b end;
    try exact H; apply inv_command_gcode, H.
Qed.

Lemma inv_sendAll : forall l c, Inv c -> Inv (sendAll l c).
Proof.
  intros l; induction l as [|d l IH]; intros c H; [exact H|].
  unfold sendAll in *; simpl. apply IH, inv_send, H.
Qed.

Lemma inv_initController : forall phase c, Inv c -> Inv (initController phase c).
Proof.
  intros phase c H; unfold initController.
  do 7 (destruct phase as [|phase];
        [first [apply inv_sendAll | apply inv_send]; exact H|]).
  destruct phase as [|phase]; [apply inv_sendAll, inv_send, H|].
  destruct phase as [|phase]; [apply inv_event_trigger, H | exact H].
Qed.

Lemma inv_sender_stop : forall force c, Inv c -> Inv (sender_stop force c).
Proof.
  intros force c H; unfold sender_stop. inv_set. inv_set.
  destruct force; [apply inv_writelnAll|];
    apply inv_workflow_stop, inv_event_trigger, H.
Qed.

Lemma inv_sender_load : forall content c, Inv c -> Inv (sender_load content c).
Proof.
  intros content c H. unfold sender_load. destruct (Sender.load _ _) as [s|]; [|exact H].
  apply inv_workflow_stop, inv_event_trigger. inv_sets.
Qed.

Lemma inv_feeds : forall cmd c,
  Inv c ->
  match cmd with
  | CmdMotorEnable _ | CmdMotorDisable | CmdMotorTimeout _ | CmdLasertest _ _ _
  | CmdMacroRun _ _ => Inv (command cmd c)
  | _ => True
  end.
Proof.
  intros cmd c H; destruct cmd; try exact I; simpl; open_feeds;
    repeat first [ exact H | apply inv_command_gcode | apply inv_event_trigger ].
Qed.

Lemma inv_command : forall cmd c, Inv c -> Inv (command cmd c).
Proof.
  intros cmd c H. pose proof (inv_feeds cmd c H) as F.
  destruct cmd; simpl; try exact F.
  - apply inv_sender_load, H.
  - unfold sender_unload. apply inv_event_trigger. inv_sets.
    apply inv_workflow_stop, H.
  - unfold sender_start. apply inv_sender_next, inv_feeder_reset.
    apply inv_workflow_start, inv_event_trigger, H.
  - apply inv_sender_stop, H.
  - unfold sender_pause. do 4 inv_set.
    apply inv_workflow_pause, inv_event_trigger, H.
  - unfold sender_resume. do 2 inv_set. apply inv_workflow_resume. do 2 inv_set.
    apply inv_event_trigger, H.
  - unfold feeder_start. destruct (workflow c); try exact H;
      (apply inv_feeder_next, inv_feeder_unhold; inv_sets).
  - apply inv_feeder_reset, H.
  - do 4 inv_set. apply inv_event_trigger, H.
  - do 4 inv_set. apply inv_event_trigger, H.
  - do 2 inv_set. apply inv_event_trigger, H.
  - apply inv_event_trigger, H.
  - inv_sets.
  - inv_set. apply inv_feeder_reset, inv_workflow_stop, H.
  - apply inv_command_gcode, H.
  - apply inv_command_gcode, H.
  - unfold override_rapid.
    repeat match goal with |- context [if ?x then _ else _] => destruct x end;
      try exact H; apply inv_command_gcode, H.
  - apply inv_command_gcode, H.
  - unfold macro_load. destruct (findMacro id macros); [|exact H].
    apply inv_sender_load, inv_event_trigger, H.
  - unfold watchdir_load. destruct data; [apply inv_sender_load|]; exact H.
Qed.

Lemma inv_step : forall (e : Event) c,
  e <> ConnectionOpened -> e <> ConnectionClosed -> Inv c -> Inv (step c e).
Proof.
  intros e c H1 H2 H; destruct e; simpl.
  - apply inv_on_r, H.
  - apply inv_on_qr, H.
  - apply inv_on_f, H.
  - apply Inv_same with (c := c); auto.
  - apply inv_command, H.
  - apply inv_workflow_call, H.
  - apply inv_initController, H.
  - exfalso; apply H1; reflexivity.
  - exfalso; apply H2; reflexivity.
Qed.

End TraceInvariant.

(** *** A closed connection *)

Lemma Closed_same : forall W c c',
  isOpen c' = isOpen c -> log c' = log c -> Closed W c -> Closed W c'.
Proof. unfold Closed; intros W c c' O L H. rewrite O, L. exact H. Qed.

Lemma Closed_record : forall W a c,
  match a with ConnWrite _ _ | Trigger _ => False | _ => True end ->
  Closed W c -> Closed W (record a c).
Proof.
  unfold Closed, connWrites; intros W a c Ha (O & L). split; [exact O|].
  simpl. rewrite filter_app, L. destruct a; try contradiction; apply app_nil_r.
Qed.

Lemma Closed_step : forall W (e : Event) c,
  e <> ConnectionOpened -> e <> ConnectionClosed -> Closed W c -> Closed W (step c e).
Proof.
  intros W; apply inv_step.
  - exact (Closed_same W).
  - exact (Closed_record W).
  - unfold Closed, connWrites; intros ev c (O & L). split; [exact O|].
    simpl. rewrite filter_app, L. apply app_nil_r.
  - intros d c H; unfold write. destruct H as (O & L). rewrite O. split; assumption.
  - apply (inv_senderPull_onData (Closed W)); [exact (Closed_same W) | exact (Closed_record W)|].
    intros line c H; unfold senderOnData. destruct H as (O & L). rewrite O.
    split; assumption.
  - apply (inv_feederPull_onData (Closed W)); [exact (Closed_same W) | exact (Closed_record W)|].
    intros line c H; unfold feederOnData. destruct H as (O & L). rewrite O.
    split; assumption.
Qed.

Lemma connWrites_workflow_stop : forall c,
  connWrites (log (workflow_stop c)) = connWrites (log c).
Proof.
  intros c; unfold workflow_stop, on_workflow_rewind, sender_rewind, emit.
  destruct (workflow c); simpl; try reflexivity;
    unfold connWrites; rewrite !filter_app; simpl; rewrite !app_nil_r; reflexivity.
Qed.

Lemma closed_step_writes_nothing : forall c (e : Event),
  isOpen c = false ->
  connWrites (log (step c e)) = connWrites (log c)
  /\ (e <> ConnectionOpened -> isOpen (step c e) = false).
Proof.
  intros c e O.
  assert (H : Closed (connWrites (log c)) c) by (split; [exact O | reflexivity]).
  assert (G : e <> ConnectionOpened -> e <> ConnectionClosed ->
              connWrites (log (step c e)) = connWrites (log c)
              /\ (e <> ConnectionOpened -> isOpen (step c e) = false)).
  { intros H1 H2. destruct (Closed_step _ e c H1 H2 H) as (A & B). split; auto. }
  destruct e; try (apply G; discriminate); simpl.
  - split; [|intros X; exfalso; apply X; reflexivity].
    rewrite connWrites_workflow_stop. unfold connWrites; simpl.
    rewrite filter_app; simpl. apply app_nil_r.
  - split; [|auto]. unfold connWrites; simpl. rewrite filter_app; simpl. apply app_nil_r.
Qed.

(** X1. While the connection is closed nothing reaches the wire: the
    Feeder's and the Sender's data handlers and [write] all return before
    [connection.write], whatever frames, commands, workflow transitions
    and bring-up steps are processed, until the connection is opened. *)
Theorem closed_connection_writes_nothing : forall (events : list Event) c,
  isOpen c = false ->
  Forall (fun e => e <> ConnectionOpened) events ->
  connWrites (log (run c events)) = connWrites (log c)
  /\ isOpen (run c events) = false.
Proof.
  induction events as [|e events IH]; intros c O F; [auto|].
  inversion F as [|e' l He Hl]; subst.
  destruct (closed_step_writes_nothing c e O) as (A & B).
  simpl. destruct (IH (step c e) (B He) Hl) as (A' & B').
  split; [rewrite A'; exact A | exact B'].
Qed.

(** *** Comment stripping *)

Lemma string_app_nil_r : forall s : string, s ++ EmptyString = s.
Proof. induction s as [|x s IH]; simpl; congruence. Qed.

Lemma occurs_app : forall ch a b, occurs ch (a ++ b) = occurs ch a || occurs ch b.
Proof.
  induction a as [|x a IH]; intros b; simpl; [reflexivity|].
  rewrite IH, orb_assoc. reflexivity.
Qed.

Lemma lineTerminator_not_semicolon : forall x,
  JsString.isLineTerminator x = true -> Ascii.eqb x ";" = false.
Proof.
  intros x H. destruct (Ascii.eqb x ";") eqn:A; [|reflexivity].
  apply Ascii.eqb_eq in A. subst x. discriminate H.
Qed.

Lemma removeCommentsFrom_no_semicolon : forall s b ws,
  occurs ";" ws = false ->
  occurs ";" (JsString.removeCommentsFrom b ws s) = false.
Proof.
  induction s as [|x s IH]; intros b ws Hws; simpl; [exact Hws|].
  destruct b.
  - destruct (JsString.isLineTerminator x) eqn:T.
    + apply IH. simpl. rewrite (lineTerminator_not_semicolon _ T). reflexivity.
    + apply IH. reflexivity.
  - destruct (Ascii.eqb x ";") eqn:A; [apply IH; reflexivity|].
    destruct (JsString.isSpace x).
    + apply IH. rewrite occurs_app, Hws. simpl. rewrite A. reflexivity.
    + rewrite occurs_app, Hws. simpl. rewrite A. simpl. apply IH. reflexivity.
Qed.

Lemma removeCommentsFrom_plain : forall s ws,
  occurs ";" s = false ->
  JsString.removeCommentsFrom false ws s = ws ++ s.
Proof.
  induction s as [|x s IH]; intros ws H; simpl in *.
  - symmetry. apply string_app_nil_r.
  - apply orb_false_elim in H. destruct H as (A & H). rewrite A.
    destruct (JsString.isSpace x).
    + rewrite IH by exact H. rewrite string_app_assoc. reflexivity.
    + rewrite IH by exact H. reflexivity.
Qed.

Lemma occurs_trimStart : forall ch s,
  occurs ch s = false -> occurs ch (JsString.trimStart s) = false.
Proof.
  induction s as [|x s IH]; intros H; simpl in *; [reflexivity|].
  apply orb_false_elim in H. destruct H as (A & H).
  destruct (JsString.isSpace x); [apply IH, H|]. simpl. rewrite A, H. reflexivity.
Qed.

Lemma occurs_trimEnd : forall ch s,
  occurs ch s = false -> occurs ch (JsString.trimEnd s) = false.
Proof.
  induction s as [|x s IH]; intros H; simpl in *; [reflexivity|].
  apply orb_false_elim in H. destruct H as (A & H). specialize (IH H).
  destruct (JsString.trimEnd s) as [|y r].
  - destruct (JsString.isSpace x); simpl; [reflexivity | rewrite A; reflexivity].
  - simpl in *. rewrite A, IH. reflexivity.
Qed.

(** X2. The first step of both data filters,
    [line.replace(/\s*;.*/g, '').trim()], leaves no semicolon in the
    line; a line without a semicolon is only trimmed; and stripping
    twice is stripping once. *)
Theorem comment_stripping : forall line : string,
  occurs ";" (JsString.trim (JsString.removeComments line)) = false
  /\ (occurs ";" line = false -> JsString.removeComments line = line)
  /\ JsString.removeComments (JsString.removeComments line)
     = JsString.removeComments line.
Proof.
  intros line.
  assert (N : occurs ";" (JsString.removeComments line) = false)
    by (apply removeCommentsFrom_no_semicolon; reflexivity).
  assert (P : forall s, occurs ";" s = false -> JsString.removeComments s = s)
    by (intros s H; unfold JsString.removeComments;
        rewrite removeCommentsFrom_plain by exact H; reflexivity).
  split; [|split].
  - unfold JsString.trim. apply occurs_trimEnd, occurs_trimStart, N.
  - apply P.
  - apply P, N.
Qed.

(** *** The gcode command *)

Lemma splitLinesFrom_no_LF_bounded : forall n s cur,
  (String.length s <= n)%nat ->
  occurs LFchar cur = false ->
  Forall (fun l => occurs LFchar l = false) (JsString.splitLinesFrom cur s).
Proof.
  induction n as [|n IH]; intros s cur Hn Hc.
  - destruct s; [|simpl in Hn; lia]. simpl. constructor; [exact Hc | constructor].
  - destruct s as [|x s]; simpl; [constructor; [exact Hc | constructor]|].
    simpl in Hn.
    destruct (nat_of_ascii x =? 10)%nat eqn:A.
    + constructor; [exact Hc|]. apply IH; [lia | reflexivity].
    + assert (Hx : Ascii.eqb x LFchar = false).
      { destruct (Ascii.eqb x LFchar) eqn:B; [|reflexivity].
        apply Ascii.eqb_eq in B. subst x. discriminate A. }
      assert (Hc' : occurs LFchar (cur ++ String x EmptyString) = false)
        by (rewrite occurs_app, Hc; simpl; rewrite Hx; reflexivity).
      destruct s as [|d s'].
      * simpl. constructor; [exact Hc' | constructor].
      * destruct ((nat_of_ascii x =? 13)%nat && (nat_of_ascii d =? 10)%nat).
        -- constructor; [exact Hc|]. apply IH; [simpl in Hn; lia | reflexivity].
        -- apply IH; [lia | exact Hc'].
Qed.

Lemma splitLinesFrom_no_LF : forall s cur,
  occurs LFchar cur = false ->
  Forall (fun l => occurs LFchar l = false) (JsString.splitLinesFrom cur s).
Proof. intros s cur; apply (splitLinesFrom_no_LF_bounded (String.length s)); lia. Qed.

Lemma splitLinesFrom_single : forall s cur,
  occurs LFchar s = false ->
  JsString.splitLinesFrom cur s = [cur ++ s].
Proof.
  induction s as [|x s IH]; intros cur H; simpl in *.
  - rewrite string_app_nil_r. reflexivity.
  - apply orb_false_elim in H. destruct H as (A & H).
    assert (A' : (nat_of_ascii x =? 10)%nat = false).
    { destruct (nat_of_ascii x =? 10)%nat eqn:B; [|reflexivity].
      apply Nat.eqb_eq in B. apply (f_equal ascii_of_nat) in B.
      rewrite ascii_nat_embedding in B. subst x. discriminate A. }
    rewrite A'.
    destruct s as [|d s'].
    + rewrite IH by reflexivity. rewrite string_app_assoc. reflexivity.
    + assert (D : (nat_of_ascii d =? 10)%nat = false).
      { simpl in H. apply orb_false_elim in H. destruct H as (B & _).
        destruct (nat_of_ascii d =? 10)%nat eqn:C; [|reflexivity].
        apply Nat.eqb_eq in C. apply (f_equal ascii_of_nat) in C.
        rewrite ascii_nat_embedding in C. subst d. discriminate B. }
      rewrite D, andb_false_r. rewrite IH by exact H.
      rewrite string_app_assoc. reflexivity.
Qed.

(** X3. [command('gcode', commands)] hands the Feeder only lines that
    hold no line feed and are not blank; a single command that holds no
    line feed and is not blank is fed unchanged; and no command at all
    feeds nothing. *)
Theorem gcode_feeds_clean_lines : forall (commands : list string) (cmd : string),
  Forall (fun l => occurs LFchar l = false /\ notBlank l = true) (gcodeData commands)
  /\ (occurs LFchar cmd = false -> notBlank cmd = true -> gcodeData [cmd] = [cmd])
  /\ gcodeData [] = [].
Proof.
  intros commands cmd. split; [|split].
  - unfold gcodeData. apply Forall_forall. intros l Hl.
    apply filter_In in Hl. destruct Hl as (Hin & Hb). split; [|exact Hb].
    pose proof (splitLinesFrom_no_LF (JsString.join JsString.LF commands) EmptyString eq_refl) as F.
    rewrite Forall_forall in F. apply F. exact Hin.
  - intros H1 H2. unfold gcodeData, JsString.splitLines. simpl JsString.join.
    rewrite splitLinesFrom_single by exact H1. simpl. 
    unfold notBlank in H2. rewrite H2. reflexivity.
  - reflexivity.
Qed.

(** *** The serial buffer limit *)

Lemma string_length_app : forall a b : string,
  String.length (a ++ b) = (String.length a + String.length b)%nat.
Proof. induction a as [|x a IH]; intros b; simpl; [reflexivity | rewrite IH; reflexivity]. Qed.

Lemma splitLinesFrom_length_bounded : forall n s cur,
  (String.length s <= n)%nat ->
  Forall (fun l => (String.length l <= String.length cur + String.length s)%nat)
    (JsString.splitLinesFrom cur s).
Proof.
  induction n as [|n IH]; intros s cur Hn.
  - destruct s; [|simpl in Hn; lia]. simpl. constructor; [lia | constructor].
  - destruct s as [|x s]; simpl; [constructor; [lia | constructor]|].
    simpl in Hn.
    assert (W : forall r cur' k, (String.length r <= n)%nat ->
              (String.length cur' + String.length r <= k)%nat ->
              Forall (fun l => (String.length l <= k)%nat) (JsString.splitLinesFrom cur' r)).
    { intros r cur' k Hr Hk. eapply Forall_impl; [|apply IH; exact Hr].
      simpl. intros l Hl. lia. }
    destruct (nat_of_ascii x =? 10)%nat.
    + constructor; [lia|]. apply W; simpl; lia.
    + destruct s as [|d s'].
      * simpl. constructor; [rewrite string_length_app; simpl; lia | constructor].
      * destruct ((nat_of_ascii x =? 13)%nat && (nat_of_ascii d =? 10)%nat).
        -- constructor; [lia|]. apply W; simpl in *; lia.
        -- apply W; [lia|]. rewrite string_length_app. simpl. lia.
Qed.

Lemma gcodeData_single_length : forall cmd,
  Forall (fun l => (String.length l <= String.length cmd)%nat) (gcodeData [cmd]).
Proof.
  intros cmd. unfold gcodeData. simpl JsString.join.
  apply Forall_forall. intros l Hl. apply filter_In in Hl. destruct Hl as (Hin & _).
  pose proof (splitLinesFrom_length_bounded (String.length cmd) cmd EmptyString (le_n _)) as F.
  rewrite Forall_forall in F. apply (F l Hin).
Qed.

Lemma notFeed_feederDataFilter : forall line c,
  exists l, log (snd (feederDataFilter line c)) = (log c ++ l)%list /\ Forall notFeed l.
Proof.
  intros line c; unfold feederDataFilter, feeder_hold.
  repeat match goal with
         | |- context [if ?b then _ else _] => destruct b
         | |- context [match ?x with _ => _ end] => destruct x
         end; simpl;
    first [ exists []; split; [symmetry; apply app_nil_r | constructor]
          | eexists; split; [rewrite <- ?app_assoc; reflexivity
                            | repeat constructor ] ].
Qed.

Lemma notFeed_feederOnData : forall line c,
  exists l, log (feederOnData line c) = (log c ++ l)%list /\ Forall notFeed l.
Proof.
  intros line c; unfold feederOnData, feeder_reset, emit.
  repeat match goal with |- context [if ?b then _ else _] => destruct b end; simpl;
    first [ exists []; split; [symmetry; apply app_nil_r | constructor]
          | eexists; split; [rewrite <- ?app_assoc; reflexivity
                            | repeat constructor ] ].
Qed.

Lemma notFeed_feeder_next : forall c,
  exists l, log (feeder_next c) = (log c ++ l)%list /\ Forall notFeed l.
Proof.
  intros c; unfold feeder_next.
  destruct (fhold _); [exists [FeederNext]; split; [reflexivity | repeat constructor]|].
  destruct (queue _) as [|line rest];
    [exists [FeederNext]; split; [reflexivity | repeat constructor]|].
  match goal with
  | |- context [feederDataFilter ?l ?x] =>
      destruct (notFeed_feederDataFilter l x) as (l1 & H1 & F1);
      destruct (feederDataFilter l x) as [out c1]
  end.
  simpl snd in H1. destruct (notFeed_feederOnData out c1) as (l2 & H2 & F2).
  exists (FeederNext :: l1 ++ l2)%list. split.
  - rewrite H2, H1. simpl. rewrite <- !app_assoc. reflexivity.
  - constructor; [exact I|]. apply Forall_app. split; assumption.
Qed.

Lemma feedsBelow_of_notFeed : forall n l, Forall notFeed l -> Forall (feedsBelow n) l.
Proof.
  intros n l H. eapply Forall_impl; [|exact H].
  intros a Ha. destruct a; simpl in *; auto; contradiction.
Qed.

Lemma feedsBelow_send : forall cmd c,
  exists l, log (send cmd c) = (log c ++ l)%list
            /\ Forall (feedsBelow (SERIAL_BUFFER_LIMIT E)) l.
Proof.
  intros cmd c; unfold send.
  destruct (negb (isOpen c)); [exists []; split; [symmetry; apply app_nil_r | constructor]|].
  destruct (SERIAL_BUFFER_LIMIT E <=? String.length cmd)%nat eqn:L;
    [exists []; split; [symmetry; apply app_nil_r | constructor]|].
  apply Nat.leb_gt in L.
  assert (F0 : feedsBelow (SERIAL_BUFFER_LIMIT E) (FeederFeed (gcodeData [cmd]))).
  { simpl. eapply Forall_impl; [|apply gcodeData_single_length].
    simpl. intros l Hl. lia. }
  unfold command_gcode. fold (gcodeData [cmd]).
  match goal with |- context [if ?b then _ else _] => destruct b end.
  - match goal with |- context [feeder_next ?x] =>
      destruct (notFeed_feeder_next x) as (l & H & F) end.
    exists (FeederFeed (gcodeData [cmd]) :: l). split.
    + rewrite H. simpl. rewrite <- app_assoc. reflexivity.
    + constructor; [exact F0 | apply feedsBelow_of_notFeed, F].
  - exists [FeederFeed (gcodeData [cmd])]. split; [reflexivity|].
    constructor; [exact F0 | constructor].
Qed.

Lemma feedsBelow_sendAll : forall l c,
  exists l', log (sendAll l c) = (log c ++ l')%list
             /\ Forall (feedsBelow (SERIAL_BUFFER_LIMIT E)) l'.
Proof.
  induction l as [|d l IH]; intros c;
    [exists []; split; [symmetry; apply app_nil_r | constructor]|].
  unfold sendAll in *; simpl.
  destruct (IH (send d c)) as (l2 & H2 & F2). destruct (feedsBelow_send d c) as (l1 & H1 & F1).
  exists (l1 ++ l2)%list. split; [rewrite H2, H1, app_assoc; reflexivity|].
  apply Forall_app. split; assumption.
Qed.

Lemma send_closed : forall cmd c, isOpen c = false -> send cmd c = c.
Proof. intros cmd c O; unfold send. rewrite O. reflexivity. Qed.

Lemma sendAll_closed : forall l c, isOpen c = false -> sendAll l c = c.
Proof.
  induction l as [|d l IH]; intros c O; [reflexivity|].
  unfold sendAll in *; simpl. rewrite send_closed by exact O. apply IH, O.
Qed.

(** X4. Whatever [initController] hands to the Feeder through its
    [send] helper (every phase but the closing [controller:ready]
    trigger) is shorter than [TINYG_SERIAL_BUFFER_LIMIT]: longer commands
    are dropped.  On a closed connection these phases leave the
    controller untouched. *)
Theorem init_respects_serial_buffer : forall (phase : nat) c,
  phase <> 8%nat ->
  (exists l, log (initController phase c) = (log c ++ l)%list
             /\ Forall (feedsBelow (SERIAL_BUFFER_LIMIT E)) l)
  /\ (isOpen c = false -> initController phase c = c).
Proof.
  intros phase c P. unfold initController.
  do 7 (destruct phase as [|phase];
        [split; [first [apply feedsBelow_sendAll | apply feedsBelow_send]
                | intros O; first [apply sendAll_closed | apply send_closed]; exact O]|]).
  destruct phase as [|phase].
  { split.
    - destruct (feedsBelow_send (srFieldsCommand c) c) as (l1 & H1 & F1).
      match goal with |- context [sendAll ?l ?x] =>
        destruct (feedsBelow_sendAll l x) as (l2 & H2 & F2) end.
      exists (l1 ++ l2)%list. split; [rewrite H2, H1, app_assoc; reflexivity|].
      apply Forall_app. split; assumption.
    - intros O. rewrite (send_closed _ _ O). apply sendAll_closed, O. }
  destruct phase as [|phase]; [contradiction P; reflexivity|].
  split; [exists []; split; [symmetry; apply app_nil_r | constructor] | reflexivity].
Qed.

(** *** The hysteresis flag *)

Lemma blocked_sender_ack : forall c, blocked (sender_ack c) = blocked c.
Proof. intros c; unfold sender_ack. destruct (_ =? _)%nat; reflexivity. Qed.

Lemma blocked_ackNext : forall c, blocked (ackNext c) = blocked c.
Proof.
  intros c; unfold ackNext. simpl.
  destruct (sender_next_effect E (sender_ack c)) as (_ & _ & _ & B & _).
  rewrite B. apply blocked_sender_ack.
Qed.

Lemma blocked_feeder_next : forall c, blocked (feeder_next c) = blocked c.
Proof.
  intros c. pose proof (view_feeder_next E c) as V. unfold view in V.
  injection V as _ _ V _. exact V.
Qed.

(** X5. After a [qr] frame the [blocked] flag is set when [q] is at or
    below the low-water mark, cleared when [q] is at or above the
    high-water mark, and keeps its value in between, whatever else the
    handler does; [r] and [f] frames never change it. *)
Theorem blocked_follows_queue_reports : forall (q : Z) (r : JValue) (f : list Z) c,
  blocked (on_qr q c)
  = (if (q <=? LOW_WATER_MARK E)%Z then true
     else if (q >=? HIGH_WATER_MARK E)%Z then false else blocked c)
  /\ blocked (on_r r c) = blocked c
  /\ blocked (on_f f c) = blocked c.
Proof.
  intros q r f c. split; [|split].
  - unfold on_qr. destruct (q <=? LOW_WATER_MARK E)%Z; [reflexivity|].
    fold (afterHysteresis q c).
    assert (B : blocked (afterHysteresis q c)
                = if (q >=? HIGH_WATER_MARK E)%Z then false else blocked c)
      by (unfold afterHysteresis; destruct (q >=? HIGH_WATER_MARK E)%Z; reflexivity).
    rewrite <- B. generalize (afterHysteresis q c) as c1. intros c1.
    assert (Hf : forall c2, blocked c2 = blocked c1 -> blocked (feeder_next c2) = blocked c1)
      by (intros c2 H2; rewrite blocked_feeder_next; exact H2).
    assert (Hfeed : blocked (feeder_next
       (if fhold (feeder c1)
        then match reasonData (fholdReason (feeder c1)) with
             | Some d =>
                 if String.eqb d WAIT && (q >=? plannerBufferPoolSize (runner c1))%Z
                 then feeder_unhold c1 else c1
             | None => c1
             end
        else c1)) = blocked c1).
    { apply Hf. destruct (fhold (feeder c1)); [|reflexivity].
      destruct (reasonData _); [|reflexivity].
      match goal with |- context [if ?b then feeder_unhold _ else _] => destruct b end;
        reflexivity. }
    destruct (workflow c1).
    + exact Hfeed.
    + destruct (senderStatus c1); [reflexivity | | apply blocked_ackNext].
      match goal with |- context [if ?b then _ else _] => destruct b end; [|reflexivity].
      simpl.
      destruct (sender_next_effect E (sender_unhold c1)) as (_ & _ & _ & B1 & _).
      rewrite B1. reflexivity.
    + destruct (senderStatus c1); [exact Hfeed | exact Hfeed | apply blocked_ackNext].
  - unfold on_r.
    destruct (ignoreUnrecognized_state E r c) as (V & _).
    unfold view in V; injection V as _ _ Vb _. rewrite <- Vb.
    generalize (ignoreUnrecognized r c) as c1. intros c1.
    destruct (workflow c1).
    + apply blocked_feeder_next.
    + simpl. destruct (negb (blocked c1)); [|reflexivity].
      rewrite blocked_ackNext. reflexivity.
    + destruct (_ <? _)%nat; [rewrite blocked_ackNext; reflexivity
                             | apply blocked_feeder_next].
  - unfold on_f, emit.
    destruct (negb _).
    + destruct (workflow c) eqn:W.
      * simpl. rewrite W. rewrite blocked_feeder_next. reflexivity.
      * destruct (negb (ignoreErrors c)); [|reflexivity].
        match goal with |- blocked (workflow_pause ?r ?x) = _ =>
          destruct (workflow_pause_holdsOnly E r x) as (_ & _ & _ & B & _) end.
        rewrite B. reflexivity.
      * simpl. rewrite W. reflexivity.
    + destruct (workflow c); try reflexivity. apply blocked_feeder_next.
Qed.

(** *** Frames while paused or idle *)

Lemma feederPulls_feederDataFilter : forall line c,
  feederPulls (log (snd (feederDataFilter line c))) = feederPulls (log c).
Proof.
  intros line c; unfold feederDataFilter, feeder_hold.
  repeat match goal with
         | |- context [if ?b then _ else _] => destruct b
         | |- context [match ?x with _ => _ end] => destruct x
         end; simpl; try reflexivity;
    unfold feederPulls; rewrite ?filter_app; simpl; rewrite ?app_nil_r; reflexivity.
Qed.

Lemma feederPulls_feederOnData : forall line c,
  feederPulls (log (feederOnData line c)) = feederPulls (log c).
Proof.
  intros line c; unfold feederOnData, feeder_reset, emit.
  repeat match goal with |- context [if ?b then _ else _] => destruct b end;
    simpl; try reflexivity;
    unfold feederPulls; rewrite ?filter_app; simpl; rewrite ?app_nil_r; reflexivity.
Qed.

Lemma feederPulls_feeder_next : forall c,
  feederPulls (log (feeder_next c)) = (feederPulls (log c) ++ [FeederNext])%list.
Proof.
  intros c; unfold feeder_next.
  assert (H0 : feederPulls (log (record FeederNext c))
               = (feederPulls (log c) ++ [FeederNext])%list)
    by (unfold feederPulls; simpl; rewrite filter_app; reflexivity).
  destruct (fhold _); [exact H0|].
  destruct (queue _) as [|line rest]; [exact H0|].
  match goal with
  | |- context [feederDataFilter ?l ?x] =>
      pose proof (feederPulls_feederDataFilter l x) as H;
      destruct (feederDataFilter l x) as [out c1]
  end.
  simpl snd in H. rewrite feederPulls_feederOnData, H. exact H0.
Qed.

(** X6. While the workflow is paused an [r] frame never transmits a
    Sender line: it acknowledges the line in flight when there is one
    ([received < sent]) and otherwise goes to the Feeder; the workflow
    stays paused and the Sender stays held. *)
Theorem paused_r_drains_without_sending : forall (r : JValue) c,
  reachable c ->
  workflow c = WORKFLOW_STATE_PAUSED ->
  let c' := on_r r c in
  sent (sender c') = sent (sender c)
  /\ senderWrites (log c') = senderWrites (log c)
  /\ received (sender c')
     = (if (received (sender c) <? sent (sender c))%nat
        then S (received (sender c)) else received (sender c))
  /\ workflow c' = WORKFLOW_STATE_PAUSED
  /\ hold (sender c') = true
  /\ feederPulls (log c')
     = (feederPulls (log c)
        ++ (if (received (sender c) <? sent (sender c))%nat then [] else [FeederNext]))%list.
Proof.
  intros r c Hr W c'. unfold c', on_r.
  pose proof (Safe_reachable E _ Hr) as (_ & _ & H3). specialize (H3 W).
  destruct (ignoreUnrecognized_state E r c) as (V & L & _).
  unfold view in V; injection V as Vw Vs Vb Vt.
  rewrite Vw, Vs, W. rewrite <- Vs, <- L. rewrite <- Vs in H3. rewrite <- Vw in W.
  generalize dependent (ignoreUnrecognized r c). intros c1 W H3.
  destruct (received (sender c1) <? sent (sender c1))%nat eqn:Lt.
  - set (ca := setSenderStatus SENDER_STATUS_ACK c1).
    destruct (ackNext_held_transmits_nothing E ca H3) as (A1 & A2).
    destruct (ack_effect (sender c1)) as (_ & _ & Ar & Ah & _). rewrite Lt in Ar.
    assert (Hh : hold (sender (sender_ack ca)) = true)
      by (rewrite (sender_ack_sender E); simpl; rewrite Ah; exact H3).
    assert (Heq : ackNext ca = setSenderStatus SENDER_STATUS_NEXT
                                 (record SenderNext (sender_ack ca)))
      by (unfold ackNext; rewrite (sender_next_held E _ Hh); reflexivity).
    split; [exact A1|]. split; [exact A2|].
    rewrite Heq. simpl.
    assert (Sa : sender (sender_ack ca) = Sender.ack (sender c1)
                 /\ workflow (sender_ack ca) = workflow c1
                 /\ feederPulls (log (sender_ack ca)) = feederPulls (log c1)).
    { split; [apply (sender_ack_sender E ca)|]. split; [apply (sender_ack_state E ca)|].
      unfold sender_ack; destruct (_ =? _)%nat; simpl;
        unfold feederPulls; rewrite ?filter_app; simpl; rewrite ?app_nil_r; reflexivity. }
    destruct Sa as (S1 & S2 & S3).
    rewrite S1, S2, Ar, Ah. repeat split; auto.
    unfold feederPulls at 1. rewrite filter_app. simpl.
    fold (feederPulls (log (sender_ack ca))). rewrite S3. reflexivity.
  - destruct (view_parts E _ _ (view_feeder_next E c1)) as (Fw & Fs).
    rewrite Fs, Fw.
    destruct (feeder_next_transmits_nothing E c1) as (_ & F2).
    rewrite F2, feederPulls_feeder_next. repeat split; auto.
Qed.

Lemma idle_pull : forall c0 w c,
  sender c = sender c0 -> workflow c = w ->
  senderStatus c = senderStatus c0 ->
  senderWrites (log c) = senderWrites (log c0) ->
  feederPulls (log c) = feederPulls (log c0) ->
  sender (feeder_next c) = sender c0
  /\ workflow (feeder_next c) = w
  /\ senderStatus (feeder_next c) = senderStatus c0
  /\ senderWrites (log (feeder_next c)) = senderWrites (log c0)
  /\ feederPulls (log (feeder_next c)) = (feederPulls (log c0) ++ [FeederNext])%list.
Proof.
  intros c0 w c Hs Hw Ht Hl Hp.
  pose proof (view_feeder_next E c) as V. unfold view in V.
  injection V as V1 V2 _ V4.
  rewrite V1, V2, V4, senderWrites_feeder_next, feederPulls_feeder_next, Hp.
  auto.
Qed.

(** X7. While the workflow is idle no frame from the firmware touches
    the Sender: after an [r], [qr] or [f] frame the Sender's state, the
    workflow state and [senderStatus] are what they were and no Sender
    line was transmitted.  The frame goes to the Feeder instead:
    [feeder.next()] is called exactly once, except for a [qr] frame at or
    below the low-water mark, which only sets [blocked]. *)
Theorem idle_frames_go_to_the_feeder : forall (e : Event) c,
  workflow c = WORKFLOW_STATE_IDLE ->
  isFrame e = true ->
  let c' := step c e in
  sender c' = sender c
  /\ workflow c' = WORKFLOW_STATE_IDLE
  /\ senderStatus c' = senderStatus c
  /\ senderWrites (log c') = senderWrites (log c)
  /\ feederPulls (log c')
     = (feederPulls (log c)
        ++ match e with
           | FrameQr q => if (q <=? LOW_WATER_MARK E)%Z then [] else [FeederNext]
           | _ => [FeederNext]
           end)%list.
Proof.
  intros e c W Hf c'. unfold c'.
  destruct e as [r|q|f| | | | | |]; try discriminate Hf; simpl step.
  - unfold on_r.
    destruct (ignoreUnrecognized_state E r c) as (V & L & _).
    unfold view in V; injection V as Vw Vs _ Vt.
    rewrite Vw, W. apply idle_pull; try rewrite L; congruence.
  - unfold on_qr. destruct (q <=? LOW_WATER_MARK E)%Z.
    + simpl. rewrite app_nil_r. auto.
    + fold (afterHysteresis q c).
      assert (A : sender (afterHysteresis q c) = sender c
                  /\ workflow (afterHysteresis q c) = WORKFLOW_STATE_IDLE
                  /\ senderStatus (afterHysteresis q c) = senderStatus c
                  /\ log (afterHysteresis q c) = log c)
        by (unfold afterHysteresis; destruct (q >=? HIGH_WATER_MARK E)%Z; auto).
      destruct A as (A1 & A2 & A3 & A4).
      rewrite A2. generalize dependent (afterHysteresis q c). intros c1 A1 A2 A3 A4.
      apply idle_pull;
        (destruct (fhold (feeder c1)); [|try rewrite A4; auto]);
        (destruct (reasonData _); [|try rewrite A4; auto]);
        (match goal with |- context [if ?b then feeder_unhold _ else _] => destruct b end;
         [|try rewrite A4; auto]); simpl; auto;
        unfold senderWrites, feederPulls; rewrite filter_app, A4; simpl; apply app_nil_r.
  - unfold on_f, emit. rewrite W.
    destruct (negb _).
    + simpl workflow. rewrite W. apply idle_pull; simpl; auto;
        unfold senderWrites, feederPulls; rewrite filter_app; simpl; apply app_nil_r.
    + apply idle_pull; auto.
Qed.

(** *** A deferred acknowledgement *)

(** X8. The acknowledgement deferred by the low-water block is applied
    once, by the queue report that lifts the block.  From a running,
    unblocked state: a [qr] frame at or below the low-water mark, then an
    [r] frame, leave the Sender exactly as it was with [senderStatus] at
    ack; a following [qr] frame at or above the high-water mark clears
    [blocked] and performs the single [ack()] and [next()] that the [r]
    frame would have performed: [received] grows by one when a line is in
    flight, [received < sent], and stays as it is otherwise. *)
Theorem deferred_ack_is_applied_once : forall (q_low q_high : Z) (r : JValue) c,
  workflow c = WORKFLOW_STATE_RUNNING ->
  (q_low <= LOW_WATER_MARK E)%Z ->
  (LOW_WATER_MARK E < q_high)%Z ->
  (HIGH_WATER_MARK E <= q_high)%Z ->
  let c1 := run c [FrameQr q_low; FrameR r] in
  let c2 := step c1 (FrameQr q_high) in
  (sender c1 = sender c /\ blocked c1 = true
   /\ senderStatus c1 = SENDER_STATUS_ACK
   /\ senderCalls (log c1) = senderCalls (log c))
  /\ blocked c2 = false
  /\ senderStatus c2 = SENDER_STATUS_NEXT
  /\ received (sender c2)
     = (if (received (sender c) <? sent (sender c))%nat
        then S (received (sender c)) else received (sender c))
  /\ sent (sender c2)
     = (if hold (sender c) || (total (sender c) <=? sent (sender c))%nat
        then sent (sender c) else S (sent (sender c)))
  /\ senderCalls (log c2) = (senderCalls (log c) ++ [SenderAck; SenderNext])%list.
Proof.
  intros q_low q_high r c W Hlo Hmid Hhi c1 c2.
  assert (E1 : c1 = setSenderStatus SENDER_STATUS_ACK
                      (ignoreUnrecognized r (setBlocked true (setStateQr q_low c)))).
  { unfold c1, run. simpl fold_left. unfold step, on_qr.
    destruct (Z.leb_spec q_low (LOW_WATER_MARK E)) as [_|]; [|lia].
    unfold on_r.
    destruct (ignoreUnrecognized_state E r (setBlocked true (setStateQr q_low c)))
      as (V & _).
    unfold view in V; injection V as Vw _ Vb _. simpl in Vw, Vb.
    rewrite Vw, W. simpl. rewrite Vb. reflexivity. }
  destruct (ignoreUnrecognized_state E r (setBlocked true (setStateQr q_low c)))
    as (V & L & _).
  unfold view in V; injection V as Vw Vs Vb _. simpl in Vw, Vs, Vb, L.
  assert (P1 : sender c1 = sender c /\ blocked c1 = true
               /\ senderStatus c1 = SENDER_STATUS_ACK
               /\ senderCalls (log c1) = senderCalls (log c)).
  { rewrite E1. simpl. rewrite Vs, Vb, L. auto. }
  assert (W1 : workflow c1 = WORKFLOW_STATE_RUNNING) by (rewrite E1; simpl; congruence).
  destruct P1 as (S1 & B1 & T1 & C1).
  split; [auto|].
  assert (E2 : c2 = ackNext (setBlocked false (setStateQr q_high c1))).
  { unfold c2, step, on_qr.
    destruct (Z.leb_spec q_high (LOW_WATER_MARK E)) as [|_]; [lia|].
    destruct (Z.geb_spec q_high (HIGH_WATER_MARK E)) as [_|]; [|lia].
    simpl. rewrite W1, T1. reflexivity. }
  rewrite E2. unfold ackNext.
  set (c3 := setBlocked false (setStateQr q_high c1)).
  destruct (sender_next_effect E (sender_ack c3)) as (_ & R & Sn & B & _ & _).
  simpl. rewrite R, Sn, B.
  assert (Sa : sender (sender_ack c3) = Sender.ack (sender c)
               /\ blocked (sender_ack c3) = false).
  { split; [rewrite (sender_ack_sender E c3); simpl; rewrite S1; reflexivity|].
    apply (sender_ack_state E c3). }
  destruct Sa as (Sa1 & Sa2). rewrite Sa1, Sa2.
  destruct (ack_effect (sender c)) as (Al & As & Ar & Ah & _).
  unfold total. rewrite Al, As, Ar, Ah.
  cbn [blocked senderStatus sender log setSenderStatus].
  repeat split; auto.
  rewrite senderCalls_sender_next, senderCalls_sender_ack.
  simpl. rewrite C1, <- app_assoc. reflexivity.
Qed.

(** *** Broadcast before write *)

Lemma last_cons_default : forall (A : Type) (l : list A) (x d d' : A),
  last (x :: l) d = last (x :: l) d'.
Proof.
  intros A l; induction l as [|y l IH]; intros x d d'; [reflexivity|].
  change (last (y :: l) d = last (y :: l) d'). apply IH.
Qed.

Lemma last_some_cons : forall (a : Action) r p,
  last (map Some (a :: r)) p = last (map Some r) (Some a).
Proof.
  intros a [|b r] p; [reflexivity|].
  change (last (map Some (b :: r)) p = last (map Some (b :: r)) (Some a)).
  apply last_cons_default.
Qed.

Lemma announcedFrom_app : forall l1 l2 p,
  announcedFrom p (l1 ++ l2)
  = announcedFrom p l1 && announcedFrom (last (map Some l1) p) l2.
Proof.
  induction l1 as [|a r IH]; intros l2 p; [reflexivity|].
  rewrite last_some_cons. simpl app. simpl announcedFrom.
  rewrite IH, andb_assoc. reflexivity.
Qed.

(** A part of the trace that is announced whatever comes before it. *)
Lemma announcedSince_grow : forall c0 c c' l,
  log c' = (log c ++ l)%list -> (forall p, announcedFrom p l = true) ->
  announcedSince c0 c -> announcedSince c0 c'.
Proof.
  intros c0 c c' l L A (l0 & L0 & A0). exists (l0 ++ l)%list. split.
  - rewrite L, L0, app_assoc. reflexivity.
  - unfold announced in *. rewrite announcedFrom_app, A0, A. reflexivity.
Qed.

Lemma announcedSince_same : forall c0 c c',
  isOpen c' = isOpen c -> log c' = log c -> announcedSince c0 c -> announcedSince c0 c'.
Proof.
  intros c0 c c' _ L H. apply announcedSince_grow with (c := c) (l := []); auto.
  rewrite L. symmetry. apply app_nil_r.
Qed.

Lemma announcedSince_record : forall c0 a c,
  match a with ConnWrite _ _ => False | _ => True end ->
  announcedSince c0 c -> announcedSince c0 (record a c).
Proof.
  intros c0 a c Ha H. apply announcedSince_grow with (c := c) (l := [a]); auto.
  intros p. destruct a; try contradiction; reflexivity.
Qed.

Lemma announcedSince_write : forall c0 d c,
  announcedSince c0 c -> announcedSince c0 (write d c).
Proof.
  intros c0 d c H; unfold write, emit. destruct (negb (isOpen c)); [exact H|].
  apply announcedSince_grow
    with (c := c) (l := [Emit "connection:write" (PText d); ConnWrite FromClient d]); auto.
  - simpl. rewrite <- app_assoc. reflexivity.
  - intros p. simpl. rewrite String.eqb_refl. reflexivity.
Qed.

Lemma announcedSince_feederOnData : forall c0 line c,
  announcedSince c0 c -> announcedSince c0 (feederOnData line c).
Proof.
  intros c0 line c H; unfold feederOnData, feeder_reset, emit.
  repeat match goal with |- context [if ?b then _ else _] => destruct b end; try exact H.
  - eapply announcedSince_grow; [reflexivity | intros p; reflexivity | exact H].
  - match goal with |- context [ConnWrite FromFeeder ?d] =>
      apply announcedSince_grow
        with (c := c) (l := [Emit "connection:write" (PText d); ConnWrite FromFeeder d]);
        auto
    end.
    + simpl. rewrite <- app_assoc. reflexivity.
    + intros p. simpl. rewrite String.eqb_refl. reflexivity.
Qed.

(** What the Sender's filter adds to the trace after the call of
    [next()] is nothing, a hold, or the broadcast of the pause and a
    hold: a write that follows it does not follow a [connection:write]
    broadcast. *)
Lemma senderDataFilter_trace : forall line c,
  exists f, log (snd (senderDataFilter line c)) = (log c ++ f)%list
    /\ (forall p, announcedFrom p (SenderNext :: f) = true)
    /\ (forall p d, announcedFrom p (SenderNext :: f ++ [ConnWrite FromSender d]) = true).
Proof.
  intros line c.
  assert (N : exists f, log c = (log c ++ f)%list
    /\ (forall p, announcedFrom p (SenderNext :: f) = true)
    /\ (forall p d,
          announcedFrom p (SenderNext :: f ++ [ConnWrite FromSender d]) = true)).
  { exists []. split; [symmetry; apply app_nil_r|]. split; intros; reflexivity. }
  assert (P : forall r, exists f, log (workflow_pause r c) = (log c ++ f)%list
    /\ (forall p, announcedFrom p (SenderNext :: f) = true)
    /\ (forall p d,
          announcedFrom p (SenderNext :: f ++ [ConnWrite FromSender d]) = true)).
  { intros r. unfold workflow_pause. destruct (workflow c); try exact N.
    unfold on_workflow_pause, sender_hold, emit. simpl.
    eexists. split; [rewrite <- app_assoc; reflexivity|]. split; intros; reflexivity. }
  assert (P2 : forall r r', log (workflow_pause r' (workflow_pause r c))
                            = log (workflow_pause r c)).
  { intros r r'. unfold workflow_pause. destruct (workflow c) eqn:W; simpl;
      rewrite ?W; reflexivity. }
  unfold senderDataFilter.
  destruct (startsWithPercent _).
  - destruct (String.eqb _ WAIT); simpl; [|exact N].
    eexists. split; [reflexivity|]. split; intros; reflexivity.
  - simpl.
    destruct (programMode _) as [m|].
    + destruct (String.eqb m "M0").
      * destruct (includes _ "M6"); [rewrite P2|]; apply P.
      * destruct (String.eqb m "M1").
        -- destruct (includes _ "M6"); [rewrite P2|]; apply P.
        -- destruct (includes _ "M6"); [apply P | exact N].
    + destruct (includes _ "M6"); [apply P | exact N].
Qed.

Lemma announcedSince_senderPull : forall c0 line c,
  announcedSince c0 c -> announcedSince c0 (senderPull line (record SenderNext c)).
Proof.
  intros c0 line c H. unfold senderPull.
  destruct (senderDataFilter_trace line (record SenderNext c)) as (f & L & A & B).
  destruct (senderDataFilter line (record SenderNext c)) as [out c1]. simpl snd in L.
  simpl in L. rewrite <- app_assoc in L. simpl in L.
  unfold senderOnData.
  repeat match goal with |- context [if ?b then _ else _] => destruct b end;
    try solve [apply announcedSince_grow with (c := c) (l := SenderNext :: f); auto].
  match goal with |- context [ConnWrite FromSender ?d] =>
    apply announcedSince_grow
      with (c := c) (l := (SenderNext :: f ++ [ConnWrite FromSender d])%list); auto
  end.
  simpl. rewrite L, <- app_assoc. reflexivity.
Qed.

Lemma announcedSince_step : forall c0 (e : Event) c,
  announcedSince c0 c -> announcedSince c0 (step c e).
Proof.
  intros c0 e c H.
  assert (R : forall a x, match a with ConnWrite _ _ | Trigger _ => False | _ => True end ->
              announcedSince c0 x -> announcedSince c0 (record a x)).
  { intros a x Ha. apply announcedSince_record. destruct a; auto. }
  assert (G : e <> ConnectionOpened -> e <> ConnectionClosed ->
              announcedSince c0 (step c e)).
  { intros H1 H2. revert H. apply inv_step; auto.
    - apply announcedSince_same.
    - intros ev x. apply announcedSince_record. exact I.
    - apply announcedSince_write.
    - apply announcedSince_senderPull.
    - apply (inv_feederPull_onData (announcedSince c0));
        [apply announcedSince_same | exact R | apply announcedSince_feederOnData]. }
  destruct e; try (apply G; discriminate); simpl.
  - apply inv_workflow_stop.
    + apply announcedSince_same.
    + exact R.
    + unfold emit. apply announcedSince_record; [exact I | exact H].
  - apply announcedSince_grow
      with (c := record (Emit "connection:close" (PText EmptyString)) c) (l := []).
    + symmetry; apply app_nil_r.
    + reflexivity.
    + apply announcedSince_record; [exact I | exact H].
Qed.

(** X9. Every write of the Feeder's data handler and of [write] is told
    to the sockets first, and no write of the Sender's data handler is:
    in the trace of any run, a write to the connection that does not
    come from the Sender is immediately preceded by the
    [connection:write] broadcast of the same data, and a write that
    comes from the Sender is not immediately preceded by a
    [connection:write] broadcast. *)
Theorem writes_are_announced : forall (events : list Event) c,
  exists l, log (run c events) = (log c ++ l)%list /\ announced l = true.
Proof.
  intros events c.
  change (announcedSince c (run c events)).
  assert (H : announcedSince c c) by (exists []; split; [symmetry; apply app_nil_r | reflexivity]).
  revert H. generalize c at 1 3 as c0. revert c.
  induction events as [|e events IH]; intros c c0 H; [exact H|].
  simpl. apply IH, announcedSince_step, H.
Qed.

(** *** The footer handler *)

Lemma senderWrites_workflow_pause : forall reason c,
  senderWrites (log (workflow_pause reason c)) = senderWrites (log c).
Proof.
  intros reason c; unfold workflow_pause.
  destruct (workflow c); try reflexivity.
  unfold on_workflow_pause, sender_hold, emit; simpl.
  unfold senderWrites; rewrite !filter_app; simpl; rewrite !app_nil_r; reflexivity.
Qed.

(** X10. A footer never moves the Sender's counters: after an [f] frame
    the program, [sent] and [received] are what they were, no [ack()] or
    [next()] was called and no Sender line was transmitted.  The one
    thing a footer does to a run is to pause it: the workflow goes from
    running to paused, with the Sender held, exactly when the status
    code is not zero and errors are not ignored. *)
Theorem footer_keeps_counters : forall (f : list Z) c,
  let c' := on_f f c in
  lines (sender c') = lines (sender c)
  /\ sent (sender c') = sent (sender c)
  /\ received (sender c') = received (sender c)
  /\ senderCalls (log c') = senderCalls (log c)
  /\ senderWrites (log c') = senderWrites (log c)
  /\ workflow c'
     = (if WorkflowState_eqb (workflow c) WORKFLOW_STATE_RUNNING
           && negb (nth 1 f 0 =? 0)%Z && negb (ignoreErrors c)
        then WORKFLOW_STATE_PAUSED else workflow c)
  /\ (workflow c' <> workflow c -> hold (sender c') = true).
Proof.
  intros f c c'. unfold c', on_f, emit.
  assert (Hn : forall x : Controller E,
             lines (sender (feeder_next x)) = lines (sender x)
             /\ sent (sender (feeder_next x)) = sent (sender x)
             /\ received (sender (feeder_next x)) = received (sender x)
             /\ senderCalls (log (feeder_next x)) = senderCalls (log x)
             /\ senderWrites (log (feeder_next x)) = senderWrites (log x)
             /\ workflow (feeder_next x) = workflow x).
  { intros x. destruct (view_parts E _ _ (view_feeder_next E x)) as (Fw & Fs).
    rewrite Fs, Fw, senderWrites_feeder_next.
    repeat split; auto.
    unfold feeder_next.
    assert (H0 : senderCalls (log (record FeederNext x)) = senderCalls (log x))
      by (rewrite senderCalls_record; apply app_nil_r).
    destruct (fhold _); [exact H0|].
    destruct (queue _) as [|line rest]; [exact H0|].
    match goal with
    | |- context [feederDataFilter ?l ?y] =>
        assert (H1 : senderCalls (log (snd (feederDataFilter l y))) = senderCalls (log y));
        [|destruct (feederDataFilter l y) as [out c1]]
    end.
    { unfold feederDataFilter, feeder_hold.
      repeat match goal with
             | |- context [if ?b then _ else _] => destruct b
             | |- context [match ?z with _ => _ end] => destruct z
             end; simpl; try reflexivity;
        unfold senderCalls; rewrite ?filter_app; simpl; rewrite ?app_nil_r; reflexivity. }
    simpl snd in H1.
    assert (H2 : senderCalls (log (feederOnData out c1)) = senderCalls (log c1)).
    { unfold feederOnData, feeder_reset, emit.
      repeat match goal with |- context [if ?b then _ else _] => destruct b end;
        simpl; try reflexivity;
        unfold senderCalls; rewrite ?filter_app; simpl; rewrite ?app_nil_r; reflexivity. }
    rewrite H2, H1. exact H0. }
  assert (Hrec : forall a (x : Controller E),
             match a with Emit _ _ => True | _ => False end ->
             senderCalls (log (record a x)) = senderCalls (log x)
             /\ senderWrites (log (record a x)) = senderWrites (log x)).
  { intros a x Ha. rewrite senderCalls_record, senderWrites_record.
    destruct a; try contradiction. simpl. rewrite !app_nil_r. auto. }
  destruct (nth 1 f 0%Z =? 0)%Z; cbn [negb]; rewrite ?andb_false_r; cbn [andb].
  - destruct (workflow c) eqn:W; cbn [WorkflowState_eqb andb];
      try solve [repeat split; auto; try (intros X; exfalso; apply X; reflexivity)].
    destruct (Hn c) as (A1 & A2 & A3 & A4 & A5 & A6).
    rewrite A1, A2, A3, A4, A5, A6, W.
    repeat split; auto; try (intros X; exfalso; apply X; reflexivity).
  - destruct (workflow c) eqn:W; cbn [WorkflowState_eqb andb].
    + match goal with |- context [feeder_next ?x] =>
        destruct (Hn x) as (A1 & A2 & A3 & A4 & A5 & A6);
        change (workflow x) with (workflow c) in *;
        change (sender x) with (sender c) in *
      end.
      cbn [workflow record]. rewrite W.
      rewrite A1, A2, A3, A4, A5, A6.
      match goal with |- context [record ?a c] =>
        destruct (Hrec a c I) as (R1 & R2) end.
      rewrite R1, R2.
      repeat split; auto; try (intros X; exfalso; apply X; reflexivity).
    + match goal with |- context [record ?a (record ?b c)] =>
        destruct (Hrec a (record b c) I) as (R1 & R2);
        destruct (Hrec b c I) as (R3 & R4);
        set (x := record a (record b c)) in *
      end.
      assert (Xs : sender x = sender c /\ workflow x = WORKFLOW_STATE_RUNNING)
        by (split; [reflexivity | exact W]).
      destruct Xs as (Xs & Xw).
      destruct (ignoreErrors c); cbn [negb].
      * rewrite R1, R2, R3, R4, Xs. change (workflow x) with (workflow c).
        repeat split; auto; try (intros X; exfalso; apply X; reflexivity).
      * match goal with |- context [workflow_pause ?r x] =>
          destruct (workflow_pause_holdsOnly E r x) as (B1 & B2 & B3 & _ & _ & _ & _ & B8);
          pose proof (senderCalls_workflow_pause E r x) as B9;
          pose proof (senderWrites_workflow_pause r x) as B10;
          assert (B11 : workflow (workflow_pause r x) = WORKFLOW_STATE_PAUSED
                        /\ hold (sender (workflow_pause r x)) = true)
        end.
        { destruct B8 as [B8 | (_ & B8 & B8')]; [|auto].
          exfalso. revert B8. unfold workflow_pause. rewrite Xw. simpl. discriminate. }
        rewrite Xs in B1, B2, B3.
        rewrite B1, B2, B3, B9, B10, R1, R2, R3, R4.
        destruct B11 as (B11 & B12). rewrite B11, B12.
        repeat split; auto.
    + cbn [workflow record]. rewrite W.
      match goal with |- context [record ?a c] =>
        destruct (Hrec a c I) as (R1 & R2) end.
      rewrite R1, R2.
      repeat split; auto; try (intros X; exfalso; apply X; reflexivity).
Qed.

(** *** Idle means rewound *)

Lemma Rewound_view : forall c c', view c' = view c -> Rewound c -> Rewound c'.
Proof.
  unfold Rewound, view; intros c c' V H W.
  injection V as V1 V2 V3 V4. rewrite V2, V4. apply H. congruence.
Qed.

Lemma Rewound_busy : forall c, workflow c <> WORKFLOW_STATE_IDLE -> Rewound c.
Proof. intros c H W; contradiction. Qed.

Lemma busy_sender_next : forall c,
  workflow c <> WORKFLOW_STATE_IDLE -> workflow (sender_next c) <> WORKFLOW_STATE_IDLE.
Proof.
  intros c H.
  destruct (sender_next_effect E c) as (_ & _ & _ & _ & _ & _ & _ & [W | (_ & W & _)]);
    rewrite W; [exact H | discriminate].
Qed.

Lemma busy_ackNext : forall c,
  workflow c <> WORKFLOW_STATE_IDLE -> workflow (ackNext c) <> WORKFLOW_STATE_IDLE.
Proof.
  intros c H; unfold ackNext. simpl. apply busy_sender_next.
  unfold sender_ack. destruct (_ =? _)%nat; exact H.
Qed.

Lemma busy_workflow_pause : forall r c,
  workflow c <> WORKFLOW_STATE_IDLE -> workflow (workflow_pause r c) <> WORKFLOW_STATE_IDLE.
Proof.
  intros r c H; unfold workflow_pause.
  destruct (workflow c) eqn:W; try (rewrite W; exact H). simpl. discriminate.
Qed.

Lemma Rewound_workflow_pause : forall r c, Rewound c -> Rewound (workflow_pause r c).
Proof.
  intros r c H; unfold workflow_pause.
  destruct (workflow c) eqn:W; try exact H. apply Rewound_busy. simpl. discriminate.
Qed.

Lemma Rewound_on_workflow_rewind : forall c, Rewound (on_workflow_rewind c).
Proof. intros c W. simpl. auto. Qed.

Lemma Rewound_workflow_stop : forall c, Rewound c -> Rewound (workflow_stop c).
Proof.
  intros c H; unfold workflow_stop.
  destruct (workflow c); [exact H | |]; apply Rewound_on_workflow_rewind.
Qed.

Lemma idle_workflow_stop : forall c, workflow (workflow_stop c) = WORKFLOW_STATE_IDLE.
Proof. intros c; unfold workflow_stop. destruct (workflow c) eqn:W; [exact W | |]; reflexivity. Qed.

Lemma Rewound_workflow_start : forall c, Rewound c -> Rewound (workflow_start c).
Proof.
  intros c H; unfold workflow_start.
  destruct (workflow c) eqn:W; try (apply Rewound_busy; simpl; discriminate).
  apply Rewound_busy. rewrite W. discriminate.
Qed.

Lemma busy_workflow_start : forall c, workflow (workflow_start c) = WORKFLOW_STATE_RUNNING.
Proof. intros c; unfold workflow_start. destruct (workflow c) eqn:W; [| exact W |]; reflexivity. Qed.

Lemma Rewound_workflow_resume : forall c, Rewound c -> Rewound (workflow_resume c).
Proof.
  intros c H; unfold workflow_resume.
  destruct (workflow c) eqn:W; try exact H.
  apply Rewound_busy. unfold on_workflow_resume. apply busy_sender_next. simpl. discriminate.
Qed.

Lemma Rewound_on_r : forall r c, Rewound c -> Rewound (on_r r c).
Proof.
  intros r c H; unfold on_r.
  destruct (ignoreUnrecognized_state E r c) as (V & _).
  pose proof (Rewound_view _ _ V H) as H1.
  generalize dependent (ignoreUnrecognized r c). intros c1 _ H1.
  destruct (workflow c1) eqn:W.
  - apply Rewound_view with (c := c1); [apply view_feeder_next | exact H1].
  - apply Rewound_busy. simpl. destruct (negb (blocked c1)).
    + apply busy_ackNext. simpl. rewrite W. discriminate.
    + simpl. rewrite W. discriminate.
  - destruct (_ <? _)%nat.
    + apply Rewound_busy, busy_ackNext. simpl. rewrite W. discriminate.
    + apply Rewound_view with (c := c1); [apply view_feeder_next | exact H1].
Qed.

Lemma Rewound_on_qr : forall q c, Rewound c -> Rewound (on_qr q c).
Proof.
  intros q c H; unfold on_qr.
  destruct (q <=? LOW_WATER_MARK E)%Z; [exact H|].
  fold (afterHysteresis q c).
  assert (H1 : Rewound (afterHysteresis q c))
    by (unfold afterHysteresis; destruct (q >=? HIGH_WATER_MARK E)%Z; exact H).
  revert H1. generalize (afterHysteresis q c) as c1. intros c1 H1.
  assert (Hfeed : Rewound
     (feeder_next
       (if fhold (feeder c1)
        then match reasonData (fholdReason (feeder c1)) with
             | Some d =>
                 if String.eqb d WAIT && (q >=? plannerBufferPoolSize (runner c1))%Z
                 then feeder_unhold c1 else c1
             | None => c1
             end
        else c1))).
  { match goal with |- Rewound (feeder_next ?x) =>
      apply Rewound_view with (c := x); [apply view_feeder_next|] end.
    destruct (fhold (feeder c1)); [|exact H1].
    destruct (reasonData _); [|exact H1].
    match goal with
    | |- context [if ?b then feeder_unhold _ else _] => destruct b
    end; exact H1. }
  destruct (workflow c1) eqn:W.
  - exact Hfeed.
  - destruct (senderStatus c1); [exact H1 | |].
    + match goal with |- context [if ?b then _ else _] => destruct b end; [|exact H1].
      apply Rewound_busy. simpl. apply busy_sender_next. simpl. rewrite W. discriminate.
    + apply Rewound_busy, busy_ackNext. rewrite W. discriminate.
  - destruct (senderStatus c1); [exact Hfeed | exact Hfeed |].
    apply Rewound_busy, busy_ackNext. rewrite W. discriminate.
Qed.

Lemma Rewound_on_f : forall f c, Rewound c -> Rewound (on_f f c).
Proof.
  intros f c H; unfold on_f, emit.
  destruct (negb _).
  - destruct (workflow c) eqn:W.
    + simpl. rewrite W.
      match goal with |- Rewound (feeder_next ?x) =>
        apply Rewound_view with (c := c); [rewrite view_feeder_next; reflexivity | exact H] end.
    + apply Rewound_busy. destruct (negb (ignoreErrors c)).
      * apply busy_workflow_pause. simpl. rewrite W. discriminate.
      * simpl. rewrite W. discriminate.
    + simpl. rewrite W. exact H.
  - destruct (workflow c); try exact H.
    apply Rewound_view with (c := c); [apply view_feeder_next | exact H].
Qed.

Lemma view_initController : forall phase c, view (initController phase c) = view c.
Proof.
  intros phase c; unfold initController.
  do 7 (destruct phase as [|phase];
        [first [apply view_sendAll | apply view_send]|]).
  destruct phase as [|phase]; [rewrite view_sendAll; apply view_send|].
  destruct phase as [|phase]; [apply view_event_trigger | reflexivity].
Qed.

Lemma Rewound_sender_load : forall content c, Rewound c -> Rewound (sender_load content c).
Proof.
  intros content c H. unfold sender_load, Sender.load.
  destruct (content ++ JsString.LF ++ DWELL)%string eqn:Ec; [exact H|]. rewrite <- Ec.
  match goal with |- Rewound (workflow_stop ?x) =>
    assert (V : view x = (workflow c,
                          mkSender (JsString.splitLines (content ++ JsString.LF ++ DWELL))
                            0 0 (hold (sender c)) (holdReason (sender c)),
                          blocked c, senderStatus c)) by (rewrite view_event_trigger; reflexivity);
    generalize dependent x
  end.
  intros x V. unfold view in V. injection V as V1 V2 V3 V4.
  unfold workflow_stop. rewrite V1.
  destruct (workflow c) eqn:W; try apply Rewound_on_workflow_rewind.
  intros _. rewrite V2, V4. simpl. destruct (H W) as (_ & _ & Hh & Hs). auto.
Qed.

Lemma Rewound_command : forall cmd c, Rewound c -> Rewound (command cmd c).
Proof.
  intros cmd c H. pose proof (view_feeds E cmd c) as F.
  destruct cmd; simpl; try (apply Rewound_view with (c := c); [exact F | exact H]).
  - apply Rewound_sender_load, H.
  - unfold sender_unload.
    match goal with |- Rewound (event_trigger ?ev ?x) =>
      apply Rewound_view with (c := x); [apply view_event_trigger|] end.
    pose proof (Rewound_workflow_stop c H) as H1.
    pose proof (idle_workflow_stop c) as W1.
    generalize dependent (workflow_stop c). intros c1 H1 W1 _.
    simpl. destruct (H1 W1) as (_ & _ & Hh & Hs). auto.
  - unfold sender_start. apply Rewound_busy, busy_sender_next. simpl.
    rewrite busy_workflow_start. discriminate.
  - unfold sender_stop.
    match goal with |- Rewound (writeln _ ?x) =>
      apply Rewound_view with (c := x); [apply view_writeln|] end.
    destruct force.
    + match goal with |- Rewound (writelnAll _ ?x) =>
        apply Rewound_view with (c := x); [apply view_writelnAll|] end.
      apply Rewound_workflow_stop.
      apply Rewound_view with (c := c); [apply view_event_trigger | exact H].
    + apply Rewound_workflow_stop.
      apply Rewound_view with (c := c); [apply view_event_trigger | exact H].
  - unfold sender_pause.
    match goal with |- Rewound (writeln _ (writeln _ ?x)) =>
      apply Rewound_view with (c := x); [rewrite !view_writeln; reflexivity|] end.
    apply Rewound_workflow_pause.
    apply Rewound_view with (c := c); [apply view_event_trigger | exact H].
  - unfold sender_resume.
    match goal with |- Rewound (writeln _ ?x) =>
      apply Rewound_view with (c := x); [apply view_writeln|] end.
    apply Rewound_workflow_resume.
    apply Rewound_view with (c := c);
      [rewrite view_writeln; apply view_event_trigger | exact H].
  - unfold feeder_start. destruct (workflow c); try exact H;
      (apply Rewound_view with (c := c); [|exact H];
       rewrite view_feeder_next; unfold feeder_unhold;
       match goal with |- view (setFeeder _ (record _ ?x)) = _ =>
         change (view x = view c) end;
       rewrite !view_writeln; reflexivity).
  - exact H.
  - apply Rewound_view with (c := c); [|exact H].
    rewrite !view_writeln. apply view_event_trigger.
  - apply Rewound_view with (c := c); [|exact H].
    rewrite !view_writeln. apply view_event_trigger.
  - apply Rewound_view with (c := c); [|exact H].
    rewrite !view_writeln. apply view_event_trigger.
  - apply Rewound_view with (c := c); [apply view_event_trigger | exact H].
  - apply Rewound_view with (c := c); [apply view_writeln | exact H].
  - match goal with |- Rewound (write _ ?x) =>
      apply Rewound_view with (c := x); [apply view_write|] end.
    unfold feeder_reset.
    apply Rewound_view with (c := workflow_stop c); [reflexivity|].
    apply Rewound_workflow_stop, H.
  - apply Rewound_view with (c := c); [apply view_command_gcode | exact H].
  - apply Rewound_view with (c := c); [apply view_command_gcode | exact H].
  - apply Rewound_view with (c := c); [|exact H]. unfold override_rapid.
    repeat match goal with |- context [if ?x then _ else _] => destruct x end;
      try reflexivity; apply view_command_gcode.
  - apply Rewound_view with (c := c); [apply view_command_gcode | exact H].
  - unfold macro_load. destruct (findMacro id macros); [|exact H].
    apply Rewound_sender_load.
    apply Rewound_view with (c := c); [apply view_event_trigger | exact H].
  - unfold watchdir_load. destruct data; [apply Rewound_sender_load|]; exact H.
Qed.

Lemma Rewound_step : forall (e : Event) c, Rewound c -> Rewound (step c e).
Proof.
  intros e c H; destruct e; simpl.
  - apply Rewound_on_r, H.
  - apply Rewound_on_qr, H.
  - apply Rewound_on_f, H.
  - exact H.
  - apply Rewound_command, H.
  - destruct w; simpl;
      auto using Rewound_workflow_start, Rewound_workflow_stop, Rewound_workflow_pause,
        Rewound_workflow_resume.
  - apply Rewound_view with (c := c); [apply view_initController | exact H].
  - apply Rewound_workflow_stop. exact H.
  - exact H.
Qed.

(** X11. Idle means rewound.  In every state the controller can reach,
    an idle workflow comes with a Sender that has sent nothing and got
    nothing acknowledged, is not held, and has no sender status pending:
    every way into the idle state rewinds the Sender, and while idle the
    frames go to the Feeder. *)
Theorem idle_means_rewound : forall c,
  reachable c ->
  workflow c = WORKFLOW_STATE_IDLE ->
  sent (sender c) = 0%nat /\ received (sender c) = 0%nat
  /\ hold (sender c) = false /\ senderStatus c = SENDER_STATUS_NONE.
Proof.
  intros c (r & x & ig & rules & events & ->).
  change (Rewound (run (initial E r x ig rules) events)).
  assert (H : Rewound (initial E r x ig rules)) by (intros _; simpl; auto).
  revert H. generalize (initial E r x ig rules) as c0.
  induction events as [|e events IH]; intros c0 H; [exact H|].
  simpl. apply IH, Rewound_step, H.
Qed.

(** *** Starting a program *)

Lemma feeder_workflow_pause : forall r c, feeder (workflow_pause r c) = feeder c.
Proof. intros r c; unfold workflow_pause. destruct (workflow c); reflexivity. Qed.

Lemma feeder_senderDataFilter : forall line c,
  feeder (snd (senderDataFilter line c)) = feeder c.
Proof.
  intros line c; unfold senderDataFilter.
  repeat match goal with
         | |- context [if ?b then _ else _] => destruct b
         | |- context [match ?x with _ => _ end] => destruct x
         end; simpl; rewrite ?feeder_workflow_pause; reflexivity.
Qed.

Lemma feeder_sender_next : forall c, feeder (sender_next c) = feeder c.
Proof.
  intros c; unfold sender_next.
  destruct (hold _ || _); [reflexivity|].
  destruct (nth_error _ _) as [line|]; [|reflexivity].
  pose proof (feeder_senderDataFilter line (record SenderNext c)) as H.
  destruct (senderDataFilter line (record SenderNext c)) as [out c1].
  simpl snd in H. simpl. unfold senderOnData.
  repeat match goal with |- context [if ?b then _ else _] => destruct b end; exact H.
Qed.

(** X12. [sender:start] leaves the Feeder empty and released, whatever
    a trigger configured for it fed in, and leaves the workflow running
    or paused.  Issued while the workflow is not running it rewinds and
    pulls exactly the first line: [received] is 0, [sent] is 1 (0 for an
    empty program), [blocked] is clear and no sender status is pending. *)
Theorem sender_start_pulls_first_line : forall c,
  let c' := command CmdSenderStart c in
  feeder c' = Feeder.initial
  /\ workflow c' <> WORKFLOW_STATE_IDLE
  /\ lines (sender c') = lines (sender c)
  /\ (workflow c <> WORKFLOW_STATE_RUNNING ->
      received (sender c') = 0%nat
      /\ sent (sender c') = Nat.min 1 (total (sender c))
      /\ blocked c' = false
      /\ senderStatus c' = SENDER_STATUS_NONE).
Proof.
  intros c c'. unfold c'. simpl command. unfold sender_start.
  pose proof (view_event_trigger E "sender:start" c) as V.
  unfold view in V. injection V as V1 V2 V3 V4.
  generalize dependent (event_trigger "sender:start" c). intros c1 V1 V2 V3 V4.
  rewrite <- V1, <- V2.
  destruct (sender_next_effect E (feeder_reset (workflow_start c1)))
    as (L & R & S & B & T & _).
  split; [rewrite feeder_sender_next; reflexivity|].
  split; [apply busy_sender_next; simpl; rewrite busy_workflow_start; discriminate|].
  split.
  { rewrite L. simpl. unfold workflow_start. destruct (workflow c1); reflexivity. }
  intros W. rewrite R, S, B, T. simpl.
  unfold workflow_start. destruct (workflow c1) eqn:W1; try (exfalso; apply W; reflexivity);
    simpl; unfold total; simpl; destruct (lines (sender c1)); simpl; auto.
Qed.

(** *** Alarm *)

Lemma connWrites_feederDataFilter : forall line c,
  connWrites (log (snd (feederDataFilter line c))) = connWrites (log c).
Proof.
  intros line c; unfold feederDataFilter, feeder_hold.
  repeat match goal with
         | |- context [if ?b then _ else _] => destruct b
         | |- context [match ?x with _ => _ end] => destruct x
         end; simpl; try reflexivity;
    unfold connWrites; rewrite ?filter_app; simpl; rewrite ?app_nil_r; reflexivity.
Qed.

Lemma alarm_feeder_next : forall c,
  alarm (runner c) = true ->
  isOpen c = true ->
  fhold (feeder c) = false ->
  queue (feeder (feeder_next c)) = []
  /\ fhold (feeder (feeder_next c)) = false
  /\ pending (feeder (feeder_next c)) = false
  /\ connWrites (log (feeder_next c)) = connWrites (log c).
Proof.
  intros c A O Hh. unfold feeder_next.
  assert (X : feeder (record FeederNext c) = feeder c
              /\ isOpen (record FeederNext c) = true
              /\ alarm (runner (record FeederNext c)) = true
              /\ connWrites (log (record FeederNext c)) = connWrites (log c)).
  { repeat split; auto. unfold connWrites; simpl. rewrite filter_app. apply app_nil_r. }
  destruct X as (X1 & X2 & X3 & X4).
  generalize dependent (record FeederNext c). intros x X1 X2 X3 X4.
  rewrite X1, Hh.
  destruct (queue (feeder c)) as [|line rest]; [simpl; auto|].
  match goal with
  | |- context [feederDataFilter ?l ?y] =>
      pose proof (stable_feederDataFilter E l y) as (_ & S2 & S3 & _);
      pose proof (connWrites_feederDataFilter l y) as S4;
      destruct (feederDataFilter l y) as [out c1]
  end.
  simpl in S2, S3, S4.
  unfold feederOnData. rewrite S2, X2, S3, X3. simpl.
  repeat split; auto.
  unfold connWrites at 1. rewrite filter_app. fold (connWrites (log c1)).
  rewrite S4, X4. simpl. apply app_nil_r.
Qed.

(** X13. While the Runner reports an alarm no manual G-code gets
    through: a [gcode] command given to an open controller whose Feeder
    is neither held nor waiting for a reply writes nothing to the
    connection and leaves the Feeder's queue empty, whatever was queued
    and whatever is fed. *)
Theorem alarm_drops_manual_gcode : forall (commands : list string) c,
  alarm (runner c) = true ->
  isOpen c = true ->
  fhold (feeder c) = false ->
  pending (feeder c) = false ->
  let c' := command (CmdGcode commands) c in
  queue (feeder c') = []
  /\ fhold (feeder c') = false
  /\ pending (feeder c') = false
  /\ connWrites (log c') = connWrites (log c).
Proof.
  intros commands c A O Hh Hp c'. unfold c'. simpl command.
  unfold command_gcode. fold (gcodeData commands).
  match goal with |- context [feeder_next ?x] =>
    assert (X : pending (feeder x) = false /\ alarm (runner x) = true /\ isOpen x = true
                /\ fhold (feeder x) = false /\ connWrites (log x) = connWrites (log c));
    [|generalize dependent x]
  end.
  { repeat split; auto. unfold connWrites; simpl. rewrite filter_app. apply app_nil_r. }
  intros x (X0 & X1 & X2 & X3 & X4). rewrite X0. simpl negb. cbv iota.
  rewrite <- X4. apply alarm_feeder_next; assumption.
Qed.

(** *** Program pauses *)

Lemma programMode_cases : forall words m,
  programMode words = Some m -> m = "M0" \/ m = "M1".
Proof.
  intros words m H. unfold programMode in H. apply find_some in H.
  destruct H as (_ & H). apply orb_true_iff in H.
  destruct H as [H | H]; apply String.eqb_eq in H; auto.
Qed.

Lemma workflow_pause_running : forall r c,
  workflow c = WORKFLOW_STATE_RUNNING ->
  workflow (workflow_pause r c) = WORKFLOW_STATE_PAUSED
  /\ sender (workflow_pause r c) = Sender.hold_ r (sender c).
Proof. intros r c W; unfold workflow_pause; rewrite W; split; reflexivity. Qed.

Lemma workflow_pause_paused : forall r c,
  workflow c = WORKFLOW_STATE_PAUSED -> workflow_pause r c = c.
Proof. intros r c W; unfold workflow_pause; rewrite W; reflexivity. Qed.

(** X14. A program line with [M0], [M1] or [M6] among its words pauses
    the pipeline that pulls it and is still handed on for transmission.
    Pulled by the Sender while the workflow is running, the workflow
    ends paused with the Sender held; pulled by the Feeder, the Feeder
    ends held.  The reason recorded by a pipeline that was not held is
    the first pause the line asks for: [M0] or [M1] before [M6]. *)
Theorem pause_codes_hold_the_pipeline : forall (line m : string) c,
  startsWithPercent (JsString.trim (JsString.removeComments line)) = false ->
  pauseCode (envParseWords E (translated line c)) = Some m ->
  (fst (senderDataFilter line c) = translated line c
   /\ (workflow c = WORKFLOW_STATE_RUNNING ->
       let c1 := snd (senderDataFilter line c) in
       workflow c1 = WORKFLOW_STATE_PAUSED
       /\ hold (sender c1) = true
       /\ (hold (sender c) = false -> holdReason (sender c1) = Some (ReasonData m))
       /\ sent (sender c1) = sent (sender c)
       /\ received (sender c1) = received (sender c)))
  /\ (fst (feederDataFilter line c) = translated line c
      /\ let c2 := snd (feederDataFilter line c) in
         fhold (feeder c2) = true
         /\ (fhold (feeder c) = false -> fholdReason (feeder c2) = Some (ReasonData m))
         /\ queue (feeder c2) = queue (feeder c)
         /\ workflow c2 = workflow c).
Proof.
  intros line m c P Hm.
  unfold senderDataFilter, feederDataFilter. rewrite P.
  fold (translated line c). cbv zeta. unfold pauseCode in Hm.
  set (words := envParseWords E (translated line c)) in *.
  assert (Hs : forall r (x : Controller E),
             sent (Sender.hold_ r (sender x)) = sent (sender x)
             /\ received (Sender.hold_ r (sender x)) = received (sender x)
             /\ hold (Sender.hold_ r (sender x)) = true
             /\ (hold (sender x) = false ->
                 holdReason (Sender.hold_ r (sender x)) = r)).
  { intros r x. unfold Sender.hold_.
    destruct (hold (sender x)) eqn:Hx; simpl; rewrite ?Hx; repeat split; auto;
      intros X; discriminate X. }
  assert (Hf : forall r (x : Controller E),
             fhold (feeder (feeder_hold r x)) = true
             /\ (fhold (feeder x) = false -> fholdReason (feeder (feeder_hold r x)) = r)
             /\ queue (feeder (feeder_hold r x)) = queue (feeder x)
             /\ workflow (feeder_hold r x) = workflow x
             /\ (fhold (feeder x) = true -> feeder (feeder_hold r x) = feeder x)).
  { intros r x. unfold feeder_hold, Feeder.hold_. simpl.
    destruct (fhold (feeder x)) eqn:Fh; simpl; rewrite ?Fh; repeat split; auto;
      intros X; discriminate X. }
  destruct (programMode words) as [m'|] eqn:Pm.
  - injection Hm as ->. destruct (programMode_cases _ _ Pm) as [-> | ->]; simpl String.eqb.
    + split; split; [reflexivity | | reflexivity |].
      * intros W.
        match goal with |- workflow ?x = _ /\ _ => set (c1 := x) end.
        destruct (workflow_pause_running (Some (ReasonData "M0")) c W) as (W1 & S1).
        assert (Ec : c1 = workflow_pause (Some (ReasonData "M0")) c).
        { unfold c1. simpl snd. destruct (includes words "M6"); [|reflexivity].
          apply workflow_pause_paused, W1. }
        rewrite Ec, W1, S1. destruct (Hs (Some (ReasonData "M0")) c) as (A & B & C & D).
        auto.
      * simpl snd.
        destruct (Hf (Some (ReasonData "M0")) c) as (A & B & C & D & _).
        destruct (includes words "M6"); [|auto].
        destruct (Hf (Some (ReasonData "M6")) (feeder_hold (Some (ReasonData "M0")) c))
          as (A' & _ & C' & D' & F').
        rewrite (F' A). auto.
    + split; split; [reflexivity | | reflexivity |].
      * intros W.
        match goal with |- workflow ?x = _ /\ _ => set (c1 := x) end.
        destruct (workflow_pause_running (Some (ReasonData "M1")) c W) as (W1 & S1).
        assert (Ec : c1 = workflow_pause (Some (ReasonData "M1")) c).
        { unfold c1. simpl snd. destruct (includes words "M6"); [|reflexivity].
          apply workflow_pause_paused, W1. }
        rewrite Ec, W1, S1. destruct (Hs (Some (ReasonData "M1")) c) as (A & B & C & D).
        auto.
      * simpl snd.
        destruct (Hf (Some (ReasonData "M1")) c) as (A & B & C & D & _).
        destruct (includes words "M6"); [|auto].
        destruct (Hf (Some (ReasonData "M6")) (feeder_hold (Some (ReasonData "M1")) c))
          as (A' & _ & C' & D' & F').
        rewrite (F' A). auto.
  - destruct (includes words "M6"); [|discriminate Hm]. injection Hm as <-.
    split; split; [reflexivity | | reflexivity |].
    + intros W. simpl snd.
      destruct (workflow_pause_running (Some (ReasonData "M6")) c W) as (W1 & S1).
      rewrite W1, S1. destruct (Hs (Some (ReasonData "M6")) c) as (A & B & C & D). auto.
    + simpl snd. destruct (Hf (Some (ReasonData "M6")) c) as (A & B & C & D & _). auto.
Qed.

(** *** Expression lines *)

(** X15. A line that starts with [%] and is not [%wait] is evaluated,
    never transmitted: the filter returns the empty string and the data
    handlers drop it, so pulling such a line changes nothing but the
    shared context.  The one exception is the Feeder in alarm, whose
    data handler resets the Feeder before it looks at the line; even
    then nothing is written. *)
Theorem expression_lines_are_not_transmitted : forall (line : string) c,
  startsWithPercent (JsString.trim (JsString.removeComments line)) = true ->
  JsString.trim (JsString.removeComments line) <> WAIT ->
  senderPull line c = setSharedContext (assigned line c) c
  /\ (isOpen c && alarm (runner c) = false ->
      feederPull line c = setSharedContext (assigned line c) c)
  /\ connWrites (log (feederPull line c)) = connWrites (log c).
Proof.
  intros line c P Nw.
  unfold senderPull, feederPull, senderDataFilter, feederDataFilter, assigned.
  rewrite P.
  destruct (String.eqb_spec (JsString.trim (JsString.removeComments line)) WAIT) as [X|_];
    [contradiction|].
  set (x := setSharedContext _ c).
  assert (X : isOpen x = isOpen c /\ runner x = runner c /\ log x = log c
              /\ workflow x = workflow c) by auto.
  destruct X as (X1 & X2 & X3 & X4).
  split; [|split].
  - unfold senderOnData.
    destruct (negb (isOpen x)); [reflexivity|].
    destruct (WorkflowState_eqb _ _); reflexivity.
  - intros H. unfold feederOnData. rewrite X1, X2.
    destruct (isOpen c); [|reflexivity]. simpl in H. rewrite H. reflexivity.
  - unfold feederOnData, feeder_reset.
    destruct (negb (isOpen x)); [reflexivity|].
    destruct (alarm (runner x)); simpl; [|reflexivity].
    unfold connWrites. rewrite filter_app. simpl. apply app_nil_r.
Qed.

(** *** Loading a program *)

Lemma splitLinesFrom_app_LF : forall n content cur t,
  (String.length content <= n)%nat ->
  exists pre, pre <> []
    /\ JsString.splitLinesFrom cur (content ++ JsString.LF ++ t)
       = (pre ++ JsString.splitLinesFrom EmptyString t)%list.
Proof.
  induction n as [|n IH]; intros content cur t Hn.
  - destruct content; [|simpl in Hn; lia].
    exists [cur]. split; [discriminate | reflexivity].
  - destruct content as [|x r].
    + exists [cur]. split; [discriminate | reflexivity].
    + simpl in Hn.
      change ((String x r ++ JsString.LF ++ t)%string)
        with (String x (r ++ JsString.LF ++ t)%string).
      cbn [JsString.splitLinesFrom].
      destruct (nat_of_ascii x =? 10)%nat.
      * destruct (IH r EmptyString t) as (pre & Hp & Hs); [lia|].
        exists (cur :: pre). split; [discriminate | rewrite Hs; reflexivity].
      * destruct r as [|d r0].
        -- change ((EmptyString ++ JsString.LF ++ t)%string)
             with (String (ascii_of_nat 10) t).
           cbv beta iota.
           match goal with |- context [if ?b then _ else _] => destruct b end.
           ++ exists [cur]. split; [discriminate | reflexivity].
           ++ apply (IH EmptyString (cur ++ String x EmptyString)%string t). simpl; lia.
        -- change ((String d r0 ++ JsString.LF ++ t)%string)
             with (String d (r0 ++ JsString.LF ++ t)%string).
           cbv beta iota.
           match goal with |- context [if ?b then _ else _] => destruct b end.
           ++ destruct (IH r0 EmptyString t) as (pre & Hp & Hs); [simpl in Hn; lia|].
              exists (cur :: pre). split; [discriminate | rewrite Hs; reflexivity].
           ++ apply (IH (String d r0) (cur ++ String x EmptyString)%string t).
              simpl in *; lia.
Qed.

(** X16. Every load ends the program with the dwell: after
    [sender:load] the program is the lines of the content followed by
    the line [%wait ; Wait for the planner to empty], so it has at least
    two lines and the load is never refused, even for empty content; the
    counters are at zero and the workflow is idle.  That last line is a
    wait to the Sender's filter: it holds the Sender and is replaced by
    [G4 P0.5]. *)
Theorem loaded_program_ends_with_dwell : forall (content : string) c,
  let c' := command (CmdSenderLoad content) c in
  (exists body, body <> [] /\ lines (sender c') = (body ++ [DWELL])%list)
  /\ sent (sender c') = 0%nat
  /\ received (sender c') = 0%nat
  /\ workflow c' = WORKFLOW_STATE_IDLE
  /\ (forall x : Controller E,
        senderDataFilter DWELL x = ("G4 P0.5", sender_hold (Some (ReasonData WAIT)) x)).
Proof.
  intros content c c'. unfold c'. simpl command. unfold sender_load, Sender.load.
  destruct (content ++ JsString.LF ++ DWELL)%string eqn:Ec.
  { exfalso. destruct content; discriminate Ec. }
  rewrite <- Ec. clear Ec.
  match goal with |- context [workflow_stop ?x] =>
    assert (V : sender x
                = mkSender (JsString.splitLines (content ++ JsString.LF ++ DWELL))
                    0 0 (hold (sender c)) (holdReason (sender c)));
    [|generalize dependent x]
  end.
  { match goal with |- sender (event_trigger ?ev ?y) = _ =>
      destruct (view_parts E _ _ (view_event_trigger E ev y)) as (_ & S) end.
    rewrite S. reflexivity. }
  intros x V.
  assert (L : lines (sender (workflow_stop x)) = lines (sender x)
              /\ sent (sender (workflow_stop x)) = 0%nat
              /\ received (sender (workflow_stop x)) = 0%nat).
  { unfold workflow_stop. destruct (workflow x); simpl; rewrite ?V; auto. }
  destruct L as (L1 & L2 & L3). rewrite L1, L2, L3, idle_workflow_stop, V. cbn [lines].
  split; [|split; [reflexivity|split; [reflexivity|split; [reflexivity|]]]].
  2:{ intros y. vm_compute. reflexivity. }
  unfold JsString.splitLines.
  destruct (splitLinesFrom_app_LF (String.length content) content EmptyString DWELL (le_n _))
    as (pre & Hp & Hs).
  exists pre. split; [exact Hp|]. rewrite Hs. reflexivity.
Qed.

(** *** Event triggers *)

Lemma Fired_same : forall W c c',
  isOpen c' = isOpen c -> log c' = log c -> Fired W c -> Fired W c'.
Proof. unfold Fired; intros W c c' _ L H. rewrite L. exact H. Qed.

Lemma Fired_record : forall W a c,
  match a with ConnWrite _ _ | Trigger _ => False | _ => True end ->
  Fired W c -> Fired W (record a c).
Proof.
  unfold Fired, triggers; intros W a c Ha H. simpl. rewrite flat_map_app, H.
  destruct a; try contradiction; apply app_nil_r.
Qed.

Lemma Fired_write : forall W d c, Fired W c -> Fired W (write d c).
Proof.
  unfold Fired, triggers; intros W d c H. unfold write, emit.
  destruct (negb (isOpen c)); [exact H|].
  simpl. rewrite !flat_map_app, H. simpl. rewrite !app_nil_r. reflexivity.
Qed.

Lemma Fired_senderOnData : forall W line c, Fired W c -> Fired W (senderOnData line c).
Proof.
  unfold Fired, triggers; intros W line c H. unfold senderOnData.
  repeat match goal with |- context [if ?b then _ else _] => destruct b end; try exact H.
  simpl. rewrite flat_map_app, H. apply app_nil_r.
Qed.

Lemma Fired_feederOnData : forall W line c, Fired W c -> Fired W (feederOnData line c).
Proof.
  unfold Fired, triggers; intros W line c H. unfold feederOnData, feeder_reset, emit.
  repeat match goal with |- context [if ?b then _ else _] => destruct b end; try exact H;
    simpl; rewrite !flat_map_app, H; simpl; rewrite !app_nil_r; reflexivity.
Qed.

Ltac fired L :=
  match goal with
  | |- Fired ?W _ =>
      apply (L (Fired W));
      try exact (Fired_same W); try exact (Fired_record W); try exact (Fired_write W);
      try (apply (inv_senderPull_onData (Fired W));
           [exact (Fired_same W) | exact (Fired_record W) | exact (Fired_senderOnData W)]);
      try (apply (inv_feederPull_onData (Fired W));
           [exact (Fired_same W) | exact (Fired_record W) | exact (Fired_feederOnData W)])
  end.

Lemma Fired_writeln : forall W d c, Fired W c -> Fired W (writeln d c).
Proof.
  intros W d c H; unfold writeln. apply Fired_write, Fired_record; [exact I | exact H].
Qed.

Lemma Fired_event_trigger : forall W ev c,
  Fired W c -> Fired (W ++ [ev]) (event_trigger ev c).
Proof.
  intros W ev c H; unfold event_trigger.
  assert (H0 : Fired (W ++ [ev]) (record (Trigger ev) c)).
  { unfold Fired, triggers in *. simpl. rewrite flat_map_app, H. reflexivity. }
  revert H0.
  assert (R : eventRules (record (Trigger ev) c) = eventRules c) by reflexivity.
  rewrite <- R; clear R.
  generalize (record (Trigger ev) c) at 1 3 as c0.
  generalize (eventRules (record (Trigger ev) c)) as rules.
  induction rules as [|rule rules IH]; intros c0 H0; [exact H0|].
  simpl; apply IH.
  destruct (String.eqb (ruleEvent rule) ev); [|exact H0].
  destruct (ruleSystem rule); [apply Fired_record; [exact I | exact H0]|].
  fired inv_command_gcode. exact H0.
Qed.

Lemma Fired_nil : forall W c, Fired W c -> Fired (W ++ []) c.
Proof. intros W c H. rewrite app_nil_r. exact H. Qed.

Lemma Fired_sender_load : forall W content c,
  Fired W c -> Fired (W ++ ["sender:load"]) (sender_load content c).
Proof.
  intros W content c H. unfold sender_load, Sender.load.
  destruct (content ++ JsString.LF ++ DWELL)%string eqn:Ec.
  { exfalso. destruct content; discriminate Ec. }
  fired inv_workflow_stop. apply Fired_event_trigger. unfold emit.
  apply Fired_record; [exact I|].
  apply Fired_same with (c := record SenderLoad c); try reflexivity.
  apply Fired_record; [exact I | exact H].
Qed.

(** X17. The event triggers fired are exactly those of the commands
    that fire one: each of [sender:load], [sender:unload],
    [sender:start], [sender:stop], [sender:pause], [sender:resume],
    [feedhold], [cyclestart], [homing] and [sleep] fires its own trigger
    once; [macro:run] with a macro that is found fires [macro:run];
    [macro:load] with a macro that is found fires [macro:load] and then,
    through [sender:load], [sender:load]; [watchdir:load] fires
    [sender:load] once the file is read; the last step of the bring-up
    fires [controller:ready]; and nothing else fires any: no frame, no
    workflow transition, no other command, no macro that is not found,
    no file that cannot be read, and no G-code that a configured trigger
    injects. *)
Theorem triggers_follow_commands : forall (e : Event) c,
  triggers (log (step c e)) = (triggers (log c) ++ triggerOf e)%list.
Proof.
  intros e c.
  change (Fired (triggers (log c) ++ triggerOf e) (step c e)).
  assert (H : Fired (triggers (log c)) c) by reflexivity.
  revert H. generalize (triggers (log c)) as W. intros W H.
  destruct e as [r|q|f|rn|cmd|w|phase| |]; simpl step.
  - apply Fired_nil. fired inv_on_r. exact H.
  - apply Fired_nil. fired inv_on_qr. exact H.
  - apply Fired_nil. fired inv_on_f. exact H.
  - apply Fired_nil. exact H.
  - destruct cmd; simpl.
    + apply Fired_sender_load, H.
    + unfold sender_unload, emit. apply Fired_event_trigger.
      apply Fired_record; [exact I|].
      apply Fired_same with (c := record SenderUnload (workflow_stop c)); try reflexivity.
      apply Fired_record; [exact I|]. fired inv_workflow_stop. exact H.
    + unfold sender_start. fired inv_sender_next. fired inv_feeder_reset.
      fired inv_workflow_start. apply Fired_event_trigger, H.
    + unfold sender_stop. apply Fired_writeln.
      destruct force; [fired inv_writelnAll|];
        fired inv_workflow_stop; apply Fired_event_trigger, H.
    + unfold sender_pause. do 2 apply Fired_writeln. fired inv_workflow_pause.
      apply Fired_event_trigger, H.
    + unfold sender_resume. apply Fired_writeln. fired inv_workflow_resume.
      apply Fired_writeln, Fired_event_trigger, H.
    + apply Fired_nil. unfold feeder_start. destruct (workflow c); try exact H;
        (fired inv_feeder_next; fired inv_feeder_unhold; do 2 apply Fired_writeln; exact H).
    + apply Fired_nil. fired inv_feeder_reset. exact H.
    + do 2 apply Fired_writeln. apply Fired_event_trigger, H.
    + do 2 apply Fired_writeln. apply Fired_event_trigger, H.
    + apply Fired_writeln, Fired_event_trigger, H.
    + apply Fired_event_trigger, H.
    + apply Fired_nil, Fired_writeln, H.
    + apply Fired_nil, Fired_write. fired inv_feeder_reset. fired inv_workflow_stop. exact H.
    + apply Fired_nil. fired inv_command_gcode. exact H.
    + apply Fired_nil. fired inv_command_gcode. exact H.
    + apply Fired_nil. unfold override_rapid.
      repeat match goal with |- context [if ?x then _ else _] => destruct x end;
        try exact H; fired inv_command_gcode; exact H.
    + apply Fired_nil. open_feeds; repeat (fired inv_command_gcode); exact H.
    + apply Fired_nil. open_feeds; repeat (fired inv_command_gcode); exact H.
    + apply Fired_nil. open_feeds; repeat (fired inv_command_gcode); exact H.
    + apply Fired_nil. open_feeds; repeat (fired inv_command_gcode); exact H.
    + apply Fired_nil. fired inv_command_gcode. exact H.
    + unfold macro_run. destruct (findMacro id macros); [|apply Fired_nil, H].
      fired inv_command_gcode. apply Fired_event_trigger, H.
    + unfold macro_load. destruct (findMacro id macros); [|apply Fired_nil, H].
      change (W ++ ["macro:load"; "sender:load"])%list
        with (W ++ ["macro:load"] ++ ["sender:load"])%list.
      rewrite app_assoc. apply Fired_sender_load, Fired_event_trigger, H.
    + destruct data; [apply Fired_sender_load | apply Fired_nil]; exact H.
  - apply Fired_nil. destruct w; simpl;
      [fired inv_workflow_start | fired inv_workflow_stop | fired inv_workflow_pause
      | fired inv_workflow_resume]; exact H.
  - unfold initController.
    do 7 (destruct phase as [|phase];
          [apply Fired_nil; first [fired inv_sendAll | fired inv_send]; exact H|]).
    destruct phase as [|phase].
    { apply Fired_nil. fired inv_sendAll. fired inv_send. exact H. }
    destruct phase as [|phase]; [apply Fired_event_trigger, H | apply Fired_nil, H].
  - apply Fired_nil. fired inv_workflow_stop. unfold emit.
    apply Fired_record; [exact I | exact H].
  - apply Fired_nil.
    change (Fired W (record (Emit "connection:close" (PText EmptyString)) c)).
    apply Fired_record; [exact I | exact H].
Qed.

(** *** The query timer *)

Lemma SameOpen_same : forall (b : bool) c c',
  isOpen c' = isOpen c -> log c' = log c -> isOpen c = b -> isOpen c' = b.
Proof. intros; congruence. Qed.

Lemma SameOpen_record : forall (b : bool) a c,
  match a with ConnWrite _ _ | Trigger _ => False | _ => True end ->
  isOpen c = b -> isOpen (record a c) = b.
Proof. intros b a c _ H; exact H. Qed.

Lemma SameOpen_trigger : forall (b : bool) ev c,
  isOpen c = b -> isOpen (record (Trigger ev) c) = b.
Proof. intros b ev c H; exact H. Qed.

Lemma SameOpen_write : forall (b : bool) d c, isOpen c = b -> isOpen (write d c) = b.
Proof. intros b d c H. unfold write, emit. destruct (negb (isOpen c)); exact H. Qed.

Lemma SameOpen_senderOnData : forall (b : bool) line c,
  isOpen c = b -> isOpen (senderOnData line c) = b.
Proof.
  intros b line c H. unfold senderOnData.
  repeat match goal with |- context [if ?x then _ else _] => destruct x end; exact H.
Qed.

Lemma SameOpen_feederOnData : forall (b : bool) line c,
  isOpen c = b -> isOpen (feederOnData line c) = b.
Proof.
  intros b line c H. unfold feederOnData.
  repeat match goal with |- context [if ?x then _ else _] => destruct x end; exact H.
Qed.

Ltac same_open L b :=
  apply (L (fun x => isOpen x = b));
  try exact (SameOpen_same b); try exact (SameOpen_record b);
  try exact (SameOpen_trigger b); try exact (SameOpen_write b);
  try (apply (inv_senderPull_onData (fun x => isOpen x = b));
       [exact (SameOpen_same b) | exact (SameOpen_record b)
       | exact (SameOpen_senderOnData b)]);
  try (apply (inv_feederPull_onData (fun x => isOpen x = b));
       [exact (SameOpen_same b) | exact (SameOpen_record b)
       | exact (SameOpen_feederOnData b)]).

Lemma isOpen_step : forall (e : Event) c,
  e <> ConnectionOpened -> e <> ConnectionClosed -> isOpen (step c e) = isOpen c.
Proof. intros e c H1 H2. same_open inv_step (isOpen c); auto. Qed.

Lemma isOpen_sender_stop : forall force c, isOpen (sender_stop force c) = isOpen c.
Proof. intros force c. same_open inv_sender_stop (isOpen c); auto. Qed.

Lemma emit_quiet : forall (b : bool) evs c,
  isOpen (if b then emitAll evs c else c) = isOpen c
  /\ triggers (log (if b then emitAll evs c else c)) = triggers (log c)
  /\ workflow (if b then emitAll evs c else c) = workflow c.
Proof.
  intros b evs c. destruct b; [|auto].
  unfold emitAll. revert c.
  induction evs as [|ev evs IH]; intros c; [auto|].
  simpl. destruct (IH (emit ev (PText EmptyString) c)) as (A & B & C).
  rewrite A, B, C. repeat split; auto.
  unfold emit, triggers. simpl. rewrite flat_map_app. apply app_nil_r.
Qed.

(** What a firing of the timer does to the three things the timing
    argument looks at. *)
Lemma queryTimer_effect : forall (t : Tick) (s : Timed E),
  let live := isOpen (ctl s) && ready s && (senderFinishTime s >? 0)%Z in
  let stop := live && machineIdle t && (Z.abs (now t - senderFinishTime s) >? 500)%Z in
  isOpen (ctl (queryTimer t s)) = isOpen (ctl s)
  /\ ready (queryTimer t s) = ready s
  /\ senderFinishTime (queryTimer t s)
     = (if live
        then if negb (machineIdle t) then now t
             else if (Z.abs (now t - senderFinishTime s) >? 500)%Z then 0%Z
                  else senderFinishTime s
        else senderFinishTime s)
  /\ triggers (log (ctl (queryTimer t s)))
     = (triggers (log (ctl s)) ++ (if stop then ["sender:stop"] else []))%list
  /\ (stop = true -> workflow (ctl (queryTimer t s)) = WORKFLOW_STATE_IDLE).
Proof.
  intros t s live stop. unfold stop, live, queryTimer.
  destruct (isOpen (ctl s)) eqn:O; simpl negb; cbv iota;
    [|simpl; rewrite app_nil_r, O; repeat split; auto; discriminate].
  set (c1 := if feederPeek t then _ else ctl s).
  set (c2 := if senderPeek t then _ else c1).
  set (c3 := if newSettings t then _ else c2).
  set (c4 := if newState t then _ else c3).
  assert (Q : isOpen c4 = true /\ triggers (log c4) = triggers (log (ctl s))).
  { assert (P2 : isOpen c2 = true /\ triggers (log c2) = triggers (log (ctl s))).
    { unfold c2, c1.
      repeat match goal with
             | |- context [if ?b then emitAll ?evs ?x else ?x] =>
                 let A := fresh in let B := fresh in
                 destruct (emit_quiet b evs x) as (A & B & _); rewrite A, B; clear A B
             end.
      auto. }
    assert (P3 : isOpen c3 = true /\ triggers (log c3) = triggers (log (ctl s))).
    { unfold c3. destruct (newSettings t); [|exact P2].
      match goal with
      | |- context [emitAll ?evs ?x] => destruct (emit_quiet true evs x) as (A & B & _)
      end.
      cbv iota in A, B. rewrite A, B. exact P2. }
    unfold c4.
    match goal with
    | |- context [if ?b then emitAll ?evs ?x else ?x] =>
        destruct (emit_quiet b evs x) as (A & B & _); rewrite A, B
    end.
    exact P3. }
  destruct Q as (Q1 & Q2). clearbody c4. clear c1 c2 c3.
  destruct (ready s); simpl;
    [|rewrite app_nil_r; repeat split; auto; discriminate].
  destruct (senderFinishTime s >? 0)%Z; simpl;
    [|rewrite app_nil_r; repeat split; auto; discriminate].
  destruct (machineIdle t); simpl;
    [|rewrite app_nil_r; repeat split; auto; discriminate].
  destruct (Z.abs (now t - senderFinishTime s) >? 500)%Z; simpl;
    [|rewrite app_nil_r; repeat split; auto; discriminate].
  rewrite isOpen_sender_stop.
  repeat split; auto.
  - change (Fired (triggers (log (ctl s)) ++ ["sender:stop"]) (sender_stop false c4)).
    unfold sender_stop. apply Fired_writeln. fired inv_workflow_stop.
    apply Fired_event_trigger. exact Q2.
  - destruct (view_parts E _ _ (view_writeln E QUEUE_REPORT
        (workflow_stop (event_trigger "sender:stop" c4)))) as (W & _).
    unfold sender_stop. rewrite W. intros _. apply idle_workflow_stop.
Qed.

Lemma nondecreasing_head : forall l a,
  nondecreasing (a :: l) = true -> Forall (fun y => (a <= y)%Z) l.
Proof.
  induction l as [|b l IH]; intros a H; [constructor|].
  simpl in H. apply andb_true_iff in H. destruct H as (H1 & H2).
  apply Z.leb_le in H1. constructor; [exact H1|].
  apply IH in H2. eapply Forall_impl; [|exact H2]. simpl. intros y Hy. lia.
Qed.

Lemma nondecreasing_tail : forall l a,
  nondecreasing (a :: l) = true -> nondecreasing l = true.
Proof.
  intros [|b l] a H; [reflexivity|]. simpl in H. apply andb_true_iff in H. apply H.
Qed.

Lemma nondecreasing_before : forall l1 x l2,
  nondecreasing (l1 ++ x :: l2) = true -> Forall (fun y => (y <= x)%Z) l1.
Proof.
  induction l1 as [|a l1 IH]; intros x l2 H; [constructor|].
  simpl app in H. constructor.
  - apply nondecreasing_head in H. rewrite Forall_forall in H.
    apply H. apply in_or_app. right. left. reflexivity.
  - apply (IH x l2). eapply nondecreasing_tail. exact H.
Qed.

Lemma busyTimes_in_timesOf : forall evs x, In x (busyTimes evs) -> In x (timesOf evs).
Proof.
  induction evs as [|ev evs IH]; intros x H; [exact H|].
  unfold busyTimes, timesOf in *. simpl in *.
  apply in_app_or in H. apply in_or_app.
  destruct H as [H | H]; [left | right; apply IH, H].
  destruct ev; try exact H. destruct (machineIdle t); [contradiction | exact H].
Qed.

Lemma timedStep_steady : forall (s : Timed E) ev,
  steady ev = true ->
  isOpen (ctl (timedStep s ev)) = isOpen (ctl s) /\ ready (timedStep s ev) = ready s.
Proof.
  intros s ev H. destruct ev as [t| |ft|e| |]; try discriminate H;
    cbn [timedStep ctl ready]; auto.
  - destruct (queryTimer_effect t s) as (A & B & _). auto.
  - destruct e; try discriminate H; cbn [ctl ready]; split; auto;
      apply isOpen_step; discriminate.
Qed.

Lemma busyTimes_app : forall a b, busyTimes (a ++ b) = (busyTimes a ++ busyTimes b)%list.
Proof. intros; unfold busyTimes; apply flat_map_app. Qed.

Lemma timesOf_app : forall a b, timesOf (a ++ b) = (timesOf a ++ timesOf b)%list.
Proof. intros; unfold timesOf; apply flat_map_app. Qed.

Lemma latestBusy_quiet : forall (s s' : Timed E) seen ev,
  busyTimes [ev] = [] ->
  isOpen (ctl s') = isOpen (ctl s) -> ready s' = ready s ->
  senderFinishTime s' = senderFinishTime s \/ senderFinishTime s' = 0%Z ->
  latestBusy s seen -> latestBusy s' (seen ++ [ev]).
Proof.
  unfold latestBusy. intros s s' seen ev Hb O R F H L N P.
  rewrite busyTimes_app, Hb, app_nil_r in *.
  destruct F as [F | F]; [|lia].
  rewrite F in *. rewrite O, R in L. auto.
Qed.

Lemma latestBusy_new : forall (s s' : Timed E) seen ev x,
  busyTimes [ev] = [x] ->
  Forall (fun y => (y <= x)%Z) (busyTimes seen) ->
  isOpen (ctl s') = isOpen (ctl s) -> ready s' = ready s ->
  senderFinishTime s' = x
  \/ (isOpen (ctl s) && ready s = true -> (senderFinishTime s' <= 0)%Z) ->
  latestBusy s seen -> latestBusy s' (seen ++ [ev]).
Proof.
  unfold latestBusy. intros s s' seen ev x Hb Hle O R F H L N P.
  rewrite busyTimes_app, Hb.
  destruct F as [F | F].
  - rewrite F. split.
    + apply in_or_app. right. left. reflexivity.
    + apply Forall_app. split; [exact Hle | constructor; [lia | constructor]].
  - rewrite O, R in L. specialize (F L). lia.
Qed.

Lemma latestBusy_run : forall evs seen (s : Timed E),
  forallb steady evs = true ->
  nondecreasing (timesOf (seen ++ evs)) = true ->
  latestBusy s seen ->
  latestBusy (runTimed s evs) (seen ++ evs)
  /\ isOpen (ctl (runTimed s evs)) = isOpen (ctl s)
  /\ ready (runTimed s evs) = ready s.
Proof.
  induction evs as [|ev evs IH]; intros seen s St Mono H.
  - rewrite app_nil_r. auto.
  - simpl in St. apply andb_true_iff in St. destruct St as (St1 & St2).
    destruct (timedStep_steady s ev St1) as (O & R).
    assert (Hle : forall x, In x (timesOf [ev]) ->
                    Forall (fun y => (y <= x)%Z) (busyTimes seen)).
    { intros x Hx. rewrite timesOf_app in Mono.
      assert (M : exists rest, (timesOf seen ++ timesOf (ev :: evs))%list
                               = (timesOf seen ++ x :: rest)%list).
      { change (ev :: evs) with ([ev] ++ evs)%list. rewrite timesOf_app.
        destruct (timesOf [ev]) as [|y [|z l]] eqn:Te; try contradiction.
        - destruct Hx as [-> | []]. eexists. reflexivity.
        - exfalso. unfold timesOf in Te. simpl in Te. rewrite app_nil_r in Te.
          destruct ev; discriminate Te. }
      destruct M as (rest & M). rewrite M in Mono.
      apply nondecreasing_before in Mono. rewrite Forall_forall in *.
      intros y Hy. apply Mono, busyTimes_in_timesOf, Hy. }
    assert (H1 : latestBusy (timedStep s ev) (seen ++ [ev])).
    { destruct ev as [t| |ft|e| |]; try discriminate St1.
      - destruct (queryTimer_effect t s) as (_ & _ & F & _).
        destruct (machineIdle t) eqn:Mi.
        + apply latestBusy_quiet with (s := s); auto.
          * unfold busyTimes; simpl. rewrite Mi. reflexivity.
          * simpl timedStep. rewrite F. simpl.
            destruct (_ && _ && _); auto. destruct (_ >? 500)%Z; auto.
        + apply latestBusy_new with (s := s) (x := now t); auto.
          * unfold busyTimes; simpl. rewrite Mi. reflexivity.
          * apply Hle. left. reflexivity.
          * simpl timedStep. rewrite F. simpl.
            destruct (isOpen (ctl s) && ready s) eqn:Lv; simpl.
            -- destruct (senderFinishTime s >? 0)%Z eqn:P; auto.
               right. intros _. rewrite Z.gtb_ltb in P. apply Z.ltb_ge in P. exact P.
            -- right. intros X; discriminate X.
      - apply latestBusy_quiet with (s := s); auto.
      - apply latestBusy_new with (s := s) (x := ft); auto.
        apply Hle. left. reflexivity.
      - apply latestBusy_quiet with (s := s); auto.
        destruct e; try discriminate St1; auto. }
    replace (seen ++ ev :: evs)%list with ((seen ++ [ev]) ++ evs)%list in *
      by (rewrite <- app_assoc; reflexivity).
    destruct (IH (seen ++ [ev])%list (timedStep s ev) St2 Mono H1) as (A & B & C).
    simpl. rewrite B, C, O, R. auto.
Qed.

(** X18. The timer ends a job only after a quiet half second.  When a
    firing of the query timer issues [sender:stop], every time at which
    the machine was seen busy since the start of the history (the end
    of the program, and each earlier firing that did not find the
    machine idle) lies more than 500 ms back; that firing found the
    machine idle, clears the finish time and leaves the workflow idle.
    The history may contain any frames, commands and workflow
    transitions as long as the connection stays as it is and the clock
    does not run backwards. *)
Theorem timer_stops_after_quiet_half_second :
  forall (evs : list TimerEvent) (t : Tick) (s : Timed E),
  forallb steady evs = true ->
  nondecreasing (timesOf (evs ++ [TimerFired t])) = true ->
  let s1 := runTimed s evs in
  triggers (log (ctl (queryTimer t s1))) <> triggers (log (ctl s1)) ->
  Forall (fun x => (now t - x > 500)%Z) (busyTimes evs)
  /\ machineIdle t = true
  /\ senderFinishTime (queryTimer t s1) = 0%Z
  /\ workflow (ctl (queryTimer t s1)) = WORKFLOW_STATE_IDLE.
Proof.
  intros evs t s St Mono s1 Hstop.
  destruct (queryTimer_effect t s1) as (_ & _ & F & T & W).
  destruct (isOpen (ctl s1) && ready s1) eqn:Lv;
    [|exfalso; apply Hstop; rewrite T; simpl; apply app_nil_r].
  destruct (senderFinishTime s1 >? 0)%Z eqn:P;
    [|exfalso; apply Hstop; rewrite T; simpl; apply app_nil_r].
  destruct (machineIdle t) eqn:Mi;
    [|exfalso; apply Hstop; rewrite T; simpl; apply app_nil_r].
  destruct (Z.abs (now t - senderFinishTime s1) >? 500)%Z eqn:Far;
    [|exfalso; apply Hstop; rewrite T; simpl; apply app_nil_r].
  simpl in F, W. split; [|auto].
  assert (H0 : latestBusy s []) by (intros _ N; exfalso; apply N; reflexivity).
  assert (Mono' : nondecreasing (timesOf ([] ++ evs)) = true).
  { simpl. rewrite timesOf_app in Mono. clear - Mono.
    revert Mono. generalize (timesOf evs) as l. unfold timesOf. simpl.
    induction l as [|a l IH]; intros H; [reflexivity|].
    destruct l as [|b l]; [reflexivity|].
    simpl in *. apply andb_true_iff in H. destruct H as (H1 & H2).
    rewrite H1. simpl. apply IH. exact H2. }
  destruct (latestBusy_run evs [] s St Mono' H0) as (L & _ & _).
  simpl app in L. fold s1 in L. unfold latestBusy in L.
  destruct (busyTimes evs) as [|b bs] eqn:Bt; [constructor|].
  rewrite Z.gtb_ltb in P. apply Z.ltb_lt in P.
  assert (Ne : b :: bs <> []) by (intros X; discriminate X).
  destruct (L Lv Ne ltac:(lia)) as (In1 & Le1).
  rewrite timesOf_app in Mono.
  assert (Hn : (senderFinishTime s1 <= now t)%Z).
  { apply nondecreasing_before with (l2 := []) in Mono.
    rewrite Forall_forall in Mono. apply Mono, busyTimes_in_timesOf.
    rewrite Bt. exact In1. }
  clear Bt.
  rewrite Z.gtb_ltb in Far. apply Z.ltb_lt in Far.
  eapply Forall_impl; [|exact Le1]. simpl. intros x Hx. lia.
Qed.

Lemma quiet_timedStep : forall (s : Timed E) ev,
  (senderFinishTime s <= 0)%Z ->
  match ev with SenderFinished _ => False | _ => True end ->
  (senderFinishTime (timedStep s ev) <= 0)%Z.
Proof.
  intros s ev H Hev. destruct ev as [t| |ft|e| |]; try contradiction; simpl; try lia.
  - destruct (queryTimer_effect t s) as (_ & _ & F & _). rewrite F.
    assert (P : (senderFinishTime s >? 0)%Z = false)
      by (rewrite Z.gtb_ltb; apply Z.ltb_ge; exact H).
    rewrite P, andb_false_r. exact H.
  - destruct e; simpl; lia.
Qed.

(** X19. No end of program, no stop.  While the finish time is clear
    the timer never issues [sender:stop]: whatever happens other than
    the Sender reporting the end of the program, the finish time stays
    clear and the next firing of the timer fires no trigger.  A firing
    that issues the stop clears the finish time, so one end of program
    gives at most one stop. *)
Theorem timer_stops_once_per_finish : forall (evs : list TimerEvent) (t : Tick) (s : Timed E),
  (senderFinishTime s <= 0)%Z ->
  Forall (fun ev => match ev with SenderFinished _ => False | _ => True end) evs ->
  let s1 := runTimed s evs in
  (senderFinishTime s1 <= 0)%Z
  /\ triggers (log (ctl (queryTimer t s1))) = triggers (log (ctl s1))
  /\ (senderFinishTime (queryTimer t s1) <= 0)%Z.
Proof.
  intros evs t s H F s1.
  assert (H1 : (senderFinishTime s1 <= 0)%Z).
  { unfold s1. clear s1. revert s H.
    induction F as [|ev evs Hev F IH]; intros s H; [exact H|].
    simpl. apply IH, quiet_timedStep; assumption. }
  split; [exact H1|].
  destruct (queryTimer_effect t s1) as (_ & _ & Fs & T & _).
  assert (P : (senderFinishTime s1 >? 0)%Z = false)
    by (rewrite Z.gtb_ltb; apply Z.ltb_ge; exact H1).
  rewrite T, Fs, P, andb_false_r. simpl. rewrite app_nil_r. auto.
Qed.

(** *** A held Feeder *)

Lemma FeederQuiet_same : forall W c c',
  isOpen c' = isOpen c -> log c' = log c ->
  feederWrites (log c) = W -> feederWrites (log c') = W.
Proof. intros W c c' _ L H. rewrite L. exact H. Qed.

Lemma FeederQuiet_record : forall W a c,
  match a with ConnWrite _ _ | Trigger _ => False | _ => True end ->
  feederWrites (log c) = W -> feederWrites (log (record a c)) = W.
Proof.
  intros W a c Ha H. unfold feederWrites in *. simpl. rewrite filter_app, H.
  destruct a; try contradiction; apply app_nil_r.
Qed.

Lemma FeederQuiet_senderOnData : forall W line c,
  feederWrites (log c) = W -> feederWrites (log (senderOnData line c)) = W.
Proof.
  intros W line c H. unfold senderOnData.
  repeat match goal with |- context [if ?x then _ else _] => destruct x end; try exact H.
  unfold feederWrites in *. simpl. rewrite filter_app, H. apply app_nil_r.
Qed.

Ltac feeder_quiet L :=
  match goal with
  | |- feederWrites (log _) = ?W =>
      apply (L (fun x => feederWrites (log x) = W));
      try exact (FeederQuiet_same W); try exact (FeederQuiet_record W);
      try (apply (inv_senderPull_onData (fun x => feederWrites (log x) = W));
           [exact (FeederQuiet_same W) | exact (FeederQuiet_record W)
           | exact (FeederQuiet_senderOnData W)])
  end.

Lemma feeder_ackNext : forall c,
  feeder (ackNext c) = feeder c /\ feederWrites (log (ackNext c)) = feederWrites (log c).
Proof.
  intros c. split.
  - unfold ackNext. simpl. rewrite feeder_sender_next.
    unfold sender_ack. destruct (_ =? _)%nat; reflexivity.
  - feeder_quiet inv_ackNext. reflexivity.
Qed.

Lemma held_feeder_next : forall c,
  fhold (feeder c) = true ->
  feeder (feeder_next c) = feeder c
  /\ feederWrites (log (feeder_next c)) = feederWrites (log c).
Proof.
  intros c H. unfold feeder_next. simpl fhold. rewrite H. split; [reflexivity|].
  unfold feederWrites. simpl. rewrite filter_app. apply app_nil_r.
Qed.

Lemma held_feeder_frame : forall (e : Event) c,
  isFrame e = true ->
  fhold (feeder c) = true ->
  reasonData (fholdReason (feeder c)) <> Some WAIT ->
  feeder (step c e) = feeder c
  /\ feederWrites (log (step c e)) = feederWrites (log c).
Proof.
  intros e c Hf Hh Hr.
  destruct e as [r|q|f| | | | | |]; try discriminate Hf; simpl step.
  - unfold on_r.
    destruct (ignoreUnrecognized_state E r c) as (_ & L & _ & F & _).
    rewrite <- F, <- L. rewrite <- F in Hh. clear F L Hr.
    revert Hh. generalize (ignoreUnrecognized r c). intros c1 Hh.
    destruct (workflow c1).
    + apply held_feeder_next, Hh.
    + destruct (negb _); [apply (feeder_ackNext (setSenderStatus SENDER_STATUS_ACK c1))|].
      auto.
    + destruct (_ <? _)%nat;
        [apply (feeder_ackNext (setSenderStatus SENDER_STATUS_ACK c1))
        | apply held_feeder_next, Hh].
  - unfold on_qr. destruct (q <=? LOW_WATER_MARK E)%Z; [auto|].
    fold (afterHysteresis q c).
    assert (A : feeder (afterHysteresis q c) = feeder c
                /\ log (afterHysteresis q c) = log c)
      by (unfold afterHysteresis; destruct (q >=? HIGH_WATER_MARK E)%Z; auto).
    destruct A as (A1 & A2). rewrite <- A1, <- A2. rewrite <- A1 in Hh, Hr.
    clear A1 A2. revert Hh Hr. generalize (afterHysteresis q c). intros c1 Hh Hr.
    assert (Hfeed :
      feeder (feeder_next
       (if fhold (feeder c1)
        then match reasonData (fholdReason (feeder c1)) with
             | Some d =>
                 if String.eqb d WAIT && (q >=? plannerBufferPoolSize (runner c1))%Z
                 then feeder_unhold c1 else c1
             | None => c1
             end
        else c1)) = feeder c1
      /\ feederWrites (log (feeder_next
       (if fhold (feeder c1)
        then match reasonData (fholdReason (feeder c1)) with
             | Some d =>
                 if String.eqb d WAIT && (q >=? plannerBufferPoolSize (runner c1))%Z
                 then feeder_unhold c1 else c1
             | None => c1
             end
        else c1))) = feederWrites (log c1)).
    { rewrite Hh. destruct (reasonData (fholdReason (feeder c1))) as [d|];
        [|apply held_feeder_next, Hh].
      destruct (String.eqb_spec d WAIT) as [->|_];
        [exfalso; apply Hr; reflexivity|].
      simpl andb. cbv iota. apply held_feeder_next, Hh. }
    destruct (workflow c1).
    + exact Hfeed.
    + destruct (senderStatus c1); [auto | | apply feeder_ackNext].
      match goal with |- context [if ?b then _ else _] => destruct b end; [|auto].
      simpl. rewrite feeder_sender_next. split; [reflexivity|].
      feeder_quiet inv_sender_next.
      unfold sender_unhold, feederWrites. simpl. rewrite filter_app. apply app_nil_r.
    + destruct (senderStatus c1); [exact Hfeed | exact Hfeed | apply feeder_ackNext].
  - unfold on_f, emit.
    assert (Hrec : forall a (x : Controller E),
               match a with Emit _ _ => True | _ => False end ->
               feeder (record a x) = feeder x
               /\ feederWrites (log (record a x)) = feederWrites (log x)).
    { intros a x Ha. split; [reflexivity|]. apply FeederQuiet_record; [|reflexivity].
      destruct a; try contradiction; exact I. }
    destruct (negb _).
    + destruct (workflow c) eqn:W.
      * simpl workflow. rewrite W.
        match goal with |- context [feeder_next ?x] =>
          destruct (held_feeder_next x Hh) as (A & B); rewrite A, B end.
        apply Hrec. exact I.
      * match goal with |- context [record ?a (record ?b c)] =>
          destruct (Hrec a (record b c) I) as (R1 & R2);
          destruct (Hrec b c I) as (R3 & R4);
          set (x := record a (record b c)) in *
        end.
        destruct (negb (ignoreErrors c)).
        -- rewrite feeder_workflow_pause. split; [congruence|].
           rewrite <- R4, <- R2. feeder_quiet inv_workflow_pause. reflexivity.
        -- split; congruence.
      * simpl workflow. rewrite W. apply Hrec. exact I.
    + destruct (workflow c); auto. apply held_feeder_next, Hh.
Qed.

(** X20. A Feeder held by a program pause waits for the operator.
    Once the Feeder is held for a reason other than [%wait] (an [M0],
    [M1] or [M6] among the manual commands), no frame from the firmware
    releases it: through any sequence of [r], [qr] and [f] frames, in
    any workflow state, the Feeder keeps its queue and its hold and
    writes nothing. *)
Theorem held_feeder_ignores_frames : forall (events : list Event) c,
  forallb isFrame events = true ->
  fhold (feeder c) = true ->
  reasonData (fholdReason (feeder c)) <> Some WAIT ->
  feeder (run c events) = feeder c
  /\ feederWrites (log (run c events)) = feederWrites (log c).
Proof.
  induction events as [|e events IH]; intros c Hf Hh Hr; [auto|].
  simpl in Hf. apply andb_true_iff in Hf. destruct Hf as (Hf1 & Hf2).
  destruct (held_feeder_frame e c Hf1 Hh Hr) as (A & B).
  simpl. rewrite <- A in Hh, Hr.
  destruct (IH (step c e) Hf2 Hh Hr) as (A' & B').
  rewrite A', B', A, B. auto.
Qed.

(** *** Relaxed JSON *)

Ltac bits x :=
  let b0 := fresh in let b1 := fresh in let b2 := fresh in let b3 := fresh in
  let b4 := fresh in let b5 := fresh in let b6 := fresh in let b7 := fresh in
  destruct x as [b0 b1 b2 b3 b4 b5 b6 b7];
  destruct b0, b1, b2, b3, b4, b5, b6, b7.

Lemma replaceTrue_step : forall (a : ascii) (r : string),
  replaceTrue (String a r)
  = match afterTrue (String a r) with
    | Some rest => String "t" (replaceTrue rest)
    | None => String a (replaceTrue r)
    end.
Proof.
  intros a r. bits a; try reflexivity.
  destruct r as [|b r]; [reflexivity|]. bits b; try reflexivity.
  destruct r as [|c r]; [reflexivity|]. bits c; try reflexivity.
  destruct r as [|d r]; [reflexivity|]. bits d; reflexivity.
Qed.


Lemma stripPrefix_some : forall p s rest,
  stripPrefix p s = Some rest -> s = (p ++ rest)%string.
Proof.
  induction p as [|a p IH]; intros s rest H; simpl in *.
  - injection H as ->. reflexivity.
  - destruct s as [|b s]; [discriminate H|].
    destruct (Ascii.eqb_spec a b) as [->|_]; [|discriminate H].
    rewrite (IH _ _ H). reflexivity.
Qed.

Lemma replaceTrue_bounded : forall n s,
  (String.length s <= n)%nat ->
  (String.length (replaceTrue s) <= String.length s)%nat
  /\ (occurs DQchar s = false -> occurs DQchar (replaceTrue s) = false)
  /\ (occurs "t" s = false -> replaceTrue s = s).
Proof.
  induction n as [|n IH]; intros s Hn.
  - destruct s; [simpl; auto | simpl in Hn; lia].
  - destruct s as [|a r]; [simpl; auto|].
    rewrite replaceTrue_step.
    destruct (afterTrue (String a r)) as [rest|] eqn:A.
    + apply stripPrefix_some in A. rewrite A in *.
      rewrite string_length_app in *. simpl String.length in *.
      destruct (IH rest) as (L & Q & _); [lia|].
      split; [simpl; lia|]. split.
      * intros H. rewrite occurs_app in H. apply orb_false_elim in H.
        destruct H as (_ & H). simpl. rewrite (Q H). reflexivity.
      * intros H. rewrite occurs_app in H. apply orb_false_elim in H.
        destruct H as (H & _). discriminate H.
    + simpl in Hn. destruct (IH r) as (L & Q & T); [lia|].
      split; [simpl; lia|]. split.
      * intros H. simpl in *. apply orb_false_elim in H. destruct H as (H1 & H2).
        rewrite H1, (Q H2). reflexivity.
      * intros H. simpl in H. apply orb_false_elim in H. destruct H as (_ & H2).
        rewrite (T H2). reflexivity.
Qed.

Lemma removeQuotes_spec : forall s,
  occurs DQchar (removeQuotes s) = false
  /\ (String.length (removeQuotes s) <= String.length s)%nat
  /\ (occurs DQchar s = false -> removeQuotes s = s)
  /\ (occurs "t" s = false -> occurs "t" (removeQuotes s) = false).
Proof.
  induction s as [|a s (I1 & I2 & I3 & I4)]; [simpl; auto|].
  simpl. destruct (nat_of_ascii a =? 34)%nat eqn:Q.
  - apply Nat.eqb_eq in Q. apply (f_equal ascii_of_nat) in Q.
    rewrite ascii_nat_embedding in Q. subst a.
    split; [exact I1|]. split; [lia|]. split.
    + intros H. discriminate H.
    + intros H. apply orb_false_elim in H. apply I4, H.
  - assert (Na : Ascii.eqb a DQchar = false).
    { destruct (Ascii.eqb_spec a DQchar) as [->|_]; [discriminate Q | reflexivity]. }
    simpl. split; [|split; [lia|split]].
    + rewrite I1. rewrite Ascii.eqb_sym in Na.
      first [rewrite Na | rewrite Ascii.eqb_sym, Na]. reflexivity.
    + intros H. apply orb_false_elim in H. destruct H as (_ & H). rewrite (I3 H). reflexivity.
    + intros H. apply orb_false_elim in H. destruct H as (H1 & H2).
      rewrite H1, (I4 H2). reflexivity.
Qed.

(** X21. [relaxedJSON] only ever shortens what it is given: its result
    holds no double quote and is no longer than its argument, and a
    string with neither a double quote nor a [t] comes back as it is. *)
Theorem relaxedJSON_minifies : forall (json : string),
  occurs DQchar (relaxedJSON json) = false
  /\ (String.length (relaxedJSON json) <= String.length json)%nat
  /\ (occurs DQchar json = false -> occurs "t" json = false -> relaxedJSON json = json).
Proof.
  intros json. unfold relaxedJSON.
  destruct (removeQuotes_spec json) as (Q1 & Q2 & Q3 & Q4).
  destruct (replaceTrue_bounded _ (removeQuotes json) (le_n _)) as (R1 & R2 & R3).
  split; [apply R2, Q1|]. split; [lia|].
  intros H1 H2. rewrite (R3 (Q4 H2)). apply Q3, H1.
Qed.

(** *** Opening the connection *)

(** X22. Opening the connection keeps the loaded program.  The
    callback of [open] calls [command('unload')] when a program is
    loaded, but the handler table has no such key (the handler is
    [sender:unload]), so the call does nothing: what [open] does to the
    controller is to mark the connection open, tell the sockets and stop
    the workflow, and the program lines are those loaded before. *)
Theorem open_keeps_the_program : forall c,
  onOpen c = Some (step c ConnectionOpened)
  /\ lines (sender (step c ConnectionOpened)) = lines (sender c)
  /\ isOpen (step c ConnectionOpened) = true
  /\ workflow (step c ConnectionOpened) = WORKFLOW_STATE_IDLE.
Proof.
  intros c. unfold onOpen. simpl step.
  set (c1 := workflow_stop _).
  split; [destruct (lines (sender c1)); reflexivity|].
  unfold c1. rewrite idle_workflow_stop.
  unfold workflow_stop. simpl workflow. destruct (workflow c); auto.
Qed.

(** *** Feeder lines answer pulls *)

Lemma Pulled_same : forall W P c c',
  isOpen c' = isOpen c -> log c' = log c -> Pulled W P c -> Pulled W P c'.
Proof. intros W P c c' _ L H. unfold Pulled. rewrite L. exact H. Qed.

Lemma Pulled_grow : forall W P c c' w p,
  feederWrites (log c') = (feederWrites (log c) ++ w)%list ->
  feederPulls (log c') = (feederPulls (log c) ++ p)%list ->
  (List.length w <= List.length p)%nat ->
  Pulled W P c -> Pulled W P c'.
Proof.
  intros W P c c' w p Hw Hp Hl (w0 & p0 & A & B & C).
  exists (w0 ++ w)%list, (p0 ++ p)%list.
  rewrite Hw, Hp, A, B, !app_assoc, !length_app. repeat split; lia.
Qed.

Lemma Pulled_record : forall W P a c,
  match a with ConnWrite _ _ | Trigger _ => False | _ => True end ->
  Pulled W P c -> Pulled W P (record a c).
Proof.
  intros W P a c Ha H.
  apply Pulled_grow with (c := c) (w := []) (p := feederPulls [a]); [| |simpl; lia|exact H].
  - unfold feederWrites. simpl. rewrite filter_app.
    destruct a; try contradiction; reflexivity.
  - unfold feederPulls. simpl. apply filter_app.
Qed.

Lemma Pulled_quiet : forall W P c c',
  feederWrites (log c') = feederWrites (log c) ->
  feederPulls (log c') = feederPulls (log c) ->
  Pulled W P c -> Pulled W P c'.
Proof.
  intros W P c c' Hw Hp H.
  apply Pulled_grow with (c := c) (w := []) (p := []); auto;
    rewrite app_nil_r; assumption.
Qed.

Lemma Pulled_trigger : forall W P ev c,
  Pulled W P c -> Pulled W P (record (Trigger ev) c).
Proof.
  intros W P ev c. apply Pulled_quiet;
    [unfold feederWrites | unfold feederPulls]; simpl; rewrite filter_app; apply app_nil_r.
Qed.

Lemma Pulled_write : forall W P d c, Pulled W P c -> Pulled W P (write d c).
Proof.
  intros W P d c. unfold write, emit. destruct (negb (isOpen c)); [auto|].
  apply Pulled_quiet; [unfold feederWrites | unfold feederPulls]; simpl;
    rewrite !filter_app; simpl; rewrite !app_nil_r; reflexivity.
Qed.

Lemma Pulled_senderOnData : forall W P line c,
  Pulled W P c -> Pulled W P (senderOnData line c).
Proof.
  intros W P line c. unfold senderOnData.
  repeat match goal with |- context [if ?x then _ else _] => destruct x end; auto.
  apply Pulled_quiet; [unfold feederWrites | unfold feederPulls]; simpl;
    rewrite filter_app; apply app_nil_r.
Qed.

Lemma feederWrites_feederDataFilter : forall line c,
  feederWrites (log (snd (feederDataFilter line c))) = feederWrites (log c).
Proof.
  intros line c; unfold feederDataFilter, feeder_hold.
  repeat match goal with
         | |- context [if ?b then _ else _] => destruct b
         | |- context [match ?x with _ => _ end] => destruct x
         end; simpl; try reflexivity;
    unfold feederWrites; rewrite ?filter_app; simpl; rewrite ?app_nil_r; reflexivity.
Qed.

(** The Feeder's data handler writes at most one line. *)
Lemma feederOnData_one : forall line c,
  exists w, feederWrites (log (feederOnData line c)) = (feederWrites (log c) ++ w)%list
    /\ (List.length w <= 1)%nat.
Proof.
  intros line c. unfold feederOnData, feeder_reset, emit.
  repeat match goal with |- context [if ?b then _ else _] => destruct b end;
    try (exists []; rewrite app_nil_r; split; [reflexivity | simpl; lia]).
  - exists []. rewrite app_nil_r. split; [|simpl; lia].
    unfold feederWrites. simpl. rewrite filter_app. apply app_nil_r.
  - eexists. split.
    + unfold feederWrites. simpl. rewrite !filter_app. simpl. rewrite app_nil_r.
      reflexivity.
    + simpl. lia.
Qed.

(** One pull of the Feeder: one more call of [next()], at most one more
    line. *)
Lemma Pulled_feederPull : forall W P line f c,
  Pulled W P c -> Pulled W P (feederPull line (setFeeder f (record FeederNext c))).
Proof.
  intros W P line f c H. unfold feederPull.
  pose proof (feederWrites_feederDataFilter line (setFeeder f (record FeederNext c))) as Fw.
  pose proof (feederPulls_feederDataFilter line (setFeeder f (record FeederNext c))) as Fp.
  destruct (feederDataFilter line (setFeeder f (record FeederNext c))) as [out c1].
  simpl snd in Fw, Fp.
  destruct (feederOnData_one out c1) as (w & A & B).
  apply Pulled_grow with (c := c) (w := w) (p := [FeederNext]); [| |exact B|exact H].
  - rewrite A, Fw. unfold feederWrites. simpl. rewrite filter_app. simpl.
    rewrite app_nil_r. reflexivity.
  - rewrite feederPulls_feederOnData, Fp. unfold feederPulls. simpl.
    apply filter_app.
Qed.

Lemma Pulled_step : forall W P (e : Event) c, Pulled W P c -> Pulled W P (step c e).
Proof.
  intros W P e c H.
  assert (G : e <> ConnectionOpened -> e <> ConnectionClosed -> Pulled W P (step c e)).
  { intros H1 H2. revert H. apply inv_step; auto.
    - apply Pulled_same.
    - apply Pulled_record.
    - apply Pulled_trigger.
    - apply Pulled_write.
    - apply (inv_senderPull_onData (Pulled W P));
        [apply Pulled_same | apply Pulled_record | apply Pulled_senderOnData].
    - apply Pulled_feederPull. }
  destruct e; try (apply G; discriminate); simpl.
  - apply inv_workflow_stop; [apply Pulled_same | apply Pulled_record|].
    unfold emit. apply Pulled_record; [exact I|].
    apply Pulled_quiet with (c := c); [reflexivity | reflexivity | exact H].
  - apply Pulled_quiet with (c := record (Emit "connection:close" (PText EmptyString)) c);
      [reflexivity | reflexivity|].
    apply Pulled_record; [exact I | exact H].
Qed.

(** X23. Every line of the Feeder answers a pull.  Whatever events are
    processed, the Feeder's data handler writes no more lines than
    [feeder.next()] is called: each call hands out at most one line,
    whether it comes from a frame, from [feeder:start] or from a
    [gcode] command that finds no line waiting. *)
Theorem feeder_lines_answer_pulls : forall (events : list Event) c,
  exists w p,
    feederWrites (log (run c events)) = (feederWrites (log c) ++ w)%list
    /\ feederPulls (log (run c events)) = (feederPulls (log c) ++ p)%list
    /\ (List.length w <= List.length p)%nat.
Proof.
  intros events c.
  change (Pulled (feederWrites (log c)) (feederPulls (log c)) (run c events)).
  assert (H : Pulled (feederWrites (log c)) (feederPulls (log c)) c).
  { exists [], []. rewrite !app_nil_r. repeat split; auto. }
  revert H. generalize (feederWrites (log c)) as W, (feederPulls (log c)) as P. revert c.
  induction events as [|e events IH]; intros c W P H; [exact H|].
  simpl. apply IH, Pulled_step, H.
Qed.

(** *** One program line per event *)

Lemma SenderQuiet_same : forall W c c',
  isOpen c' = isOpen c -> log c' = log c ->
  senderWrites (log c) = W -> senderWrites (log c') = W.
Proof. intros W c c' _ L H. rewrite L. exact H. Qed.

Lemma SenderQuiet_record : forall W a c,
  match a with ConnWrite _ _ | Trigger _ => False | _ => True end ->
  senderWrites (log c) = W -> senderWrites (log (record a c)) = W.
Proof.
  intros W a c Ha H. unfold senderWrites in *. simpl. rewrite filter_app, H.
  destruct a; try contradiction; apply app_nil_r.
Qed.

Lemma SenderQuiet_trigger : forall W ev c,
  senderWrites (log c) = W -> senderWrites (log (record (Trigger ev) c)) = W.
Proof.
  intros W ev c H. unfold senderWrites in *. simpl. rewrite filter_app, H. apply app_nil_r.
Qed.

Lemma SenderQuiet_write : forall W d c,
  senderWrites (log c) = W -> senderWrites (log (write d c)) = W.
Proof.
  intros W d c H. unfold write, emit. destruct (negb (isOpen c)); [exact H|].
  unfold senderWrites in *. simpl. rewrite !filter_app, H. simpl. rewrite !app_nil_r.
  reflexivity.
Qed.

Lemma SenderQuiet_feederOnData : forall W line c,
  senderWrites (log c) = W -> senderWrites (log (feederOnData line c)) = W.
Proof. intros W line c H. rewrite senderWrites_feederOnData. exact H. Qed.

Ltac quiet_sender L :=
  match goal with
  | |- senderWrites (log _) = ?W =>
      apply (L (fun x => senderWrites (log x) = W));
      try exact (SenderQuiet_same W); try exact (SenderQuiet_record W);
      try exact (SenderQuiet_trigger W); try exact (SenderQuiet_write W);
      try (apply (inv_feederPull_onData (fun x => senderWrites (log x) = W));
           [exact (SenderQuiet_same W) | exact (SenderQuiet_record W)
           | exact (SenderQuiet_feederOnData W)])
  end.

Lemma senderWrites_senderDataFilter : forall line c,
  senderWrites (log (snd (senderDataFilter line c))) = senderWrites (log c).
Proof.
  intros line c; unfold senderDataFilter.
  destruct (startsWithPercent _).
  - destruct (String.eqb _ WAIT); simpl; [|reflexivity].
    unfold senderWrites. rewrite filter_app. apply app_nil_r.
  - simpl.
    match goal with
    | |- senderWrites (log (if _ then workflow_pause ?r ?c1 else ?c1)) = _ =>
        assert (H1 : senderWrites (log c1) = senderWrites (log c))
    end.
    { destruct (programMode _) as [m|]; [|reflexivity].
      destruct (String.eqb m "M0"); [apply senderWrites_workflow_pause|].
      destruct (String.eqb m "M1"); [apply senderWrites_workflow_pause | reflexivity]. }
    destruct (includes _ "M6"); [rewrite senderWrites_workflow_pause|]; exact H1.
Qed.

Lemma sender_next_one : forall c0 c,
  senderWrites (log c) = senderWrites (log c0) ->
  exists w, senderWrites (log (sender_next c)) = (senderWrites (log c0) ++ w)%list
    /\ (List.length w <= 1)%nat.
Proof.
  intros c0 c H. unfold sender_next.
  assert (H0 : senderWrites (log (record SenderNext c)) = senderWrites (log c0))
    by (rewrite senderWrites_record, H; apply app_nil_r).
  assert (Nil : forall x : Controller E,
            senderWrites (log x) = senderWrites (log c0) ->
            exists w, senderWrites (log x) = (senderWrites (log c0) ++ w)%list
              /\ (List.length w <= 1)%nat).
  { intros x Hx. exists []. rewrite app_nil_r. split; [exact Hx | simpl; lia]. }
  destruct (hold _ || _); [apply Nil, H0|].
  destruct (nth_error _ _) as [line|]; [|apply Nil, H0].
  pose proof (senderWrites_senderDataFilter line (record SenderNext c)) as F.
  destruct (senderDataFilter line (record SenderNext c)) as [out c1].
  simpl snd in F. rewrite H0 in F.
  change (exists w, senderWrites (log (senderOnData out c1))
                    = (senderWrites (log c0) ++ w)%list /\ (List.length w <= 1)%nat).
  unfold senderOnData.
  repeat match goal with |- context [if ?b then _ else _] => destruct b end;
    try (apply Nil, F).
  eexists. split.
  - rewrite senderWrites_record, F. reflexivity.
  - simpl. lia.
Qed.

Lemma ackNext_one : forall c0 c,
  senderWrites (log c) = senderWrites (log c0) ->
  exists w, senderWrites (log (ackNext c)) = (senderWrites (log c0) ++ w)%list
    /\ (List.length w <= 1)%nat.
Proof.
  intros c0 c H. unfold ackNext.
  change (exists w, senderWrites (log (sender_next (sender_ack c)))
                    = (senderWrites (log c0) ++ w)%list /\ (List.length w <= 1)%nat).
  apply sender_next_one. rewrite senderWrites_sender_ack. exact H.
Qed.

Lemma workflow_resume_one : forall c0 c,
  senderWrites (log c) = senderWrites (log c0) ->
  exists w, senderWrites (log (workflow_resume c)) = (senderWrites (log c0) ++ w)%list
    /\ (List.length w <= 1)%nat.
Proof.
  intros c0 c H. unfold workflow_resume.
  destruct (workflow c); try (exists []; rewrite app_nil_r; split; [exact H | simpl; lia]).
  unfold on_workflow_resume. apply sender_next_one.
  quiet_sender inv_sender_unhold. quiet_sender inv_feeder_reset.
  unfold emit. apply SenderQuiet_record; [exact I | exact H].
Qed.

Lemma senderWrites_sender_load : forall content c,
  senderWrites (log (sender_load content c)) = senderWrites (log c).
Proof.
  intros content c. unfold sender_load. destruct (Sender.load _ _) as [s|]; [|reflexivity].
  quiet_sender inv_workflow_stop. quiet_sender inv_event_trigger. unfold emit.
  apply SenderQuiet_record; [exact I|].
  apply SenderQuiet_same with (c := record SenderLoad c); try reflexivity.
  apply SenderQuiet_record; [exact I | reflexivity].
Qed.

Lemma sender_writes_of_step : forall (e : Event) c,
  exists w, senderWrites (log (step c e)) = (senderWrites (log c) ++ w)%list
    /\ (List.length w <= 1)%nat
    /\ (pullsSender e = false -> w = []).
Proof.
  intros e c.
  assert (Q : forall c2,
             senderWrites (log c2) = senderWrites (log c) ->
             exists w, senderWrites (log c2) = (senderWrites (log c) ++ w)%list
               /\ (List.length w <= 1)%nat /\ (pullsSender e = false -> w = [])).
  { intros c2 H. exists []. rewrite app_nil_r. split; [exact H|]. split; [simpl; lia | auto]. }
  assert (P : forall c2,
             pullsSender e = true ->
             (exists w, senderWrites (log c2) = (senderWrites (log c) ++ w)%list
                /\ (List.length w <= 1)%nat) ->
             exists w, senderWrites (log c2) = (senderWrites (log c) ++ w)%list
               /\ (List.length w <= 1)%nat /\ (pullsSender e = false -> w = [])).
  { intros c2 He (w & A & B). exists w. split; [exact A|]. split; [exact B|].
    intros X. rewrite He in X. discriminate X. }
  destruct e as [r|q|f|rn|cmd|w|phase| |]; simpl step.
  - apply P; [reflexivity|]. unfold on_r.
    destruct (ignoreUnrecognized_state E r c) as (_ & L & _).
    rewrite <- L. generalize (ignoreUnrecognized r c). intros c1.
    destruct (workflow c1).
    + exists []. rewrite app_nil_r. split; [apply senderWrites_feeder_next | simpl; lia].
    + destruct (negb _); [apply ackNext_one; reflexivity|].
      exists []. rewrite app_nil_r. split; [reflexivity | simpl; lia].
    + destruct (_ <? _)%nat; [apply ackNext_one; reflexivity|].
      exists []. rewrite app_nil_r. split; [apply senderWrites_feeder_next | simpl; lia].
  - apply P; [reflexivity|]. unfold on_qr.
    destruct (q <=? LOW_WATER_MARK E)%Z;
      [exists []; rewrite app_nil_r; split; [reflexivity | simpl; lia]|].
    fold (afterHysteresis q c).
    assert (A : log (afterHysteresis q c) = log c)
      by (unfold afterHysteresis; destruct (q >=? HIGH_WATER_MARK E)%Z; reflexivity).
    rewrite <- A. generalize (afterHysteresis q c). intros c1.
    assert (Hfeed : exists w,
      senderWrites (log (feeder_next
         (if fhold (feeder c1)
          then match reasonData (fholdReason (feeder c1)) with
               | Some d =>
                   if String.eqb d WAIT && (q >=? plannerBufferPoolSize (runner c1))%Z
                   then feeder_unhold c1 else c1
               | None => c1
               end
          else c1))) = (senderWrites (log c1) ++ w)%list /\ (List.length w <= 1)%nat).
    { exists []. rewrite app_nil_r. split; [|simpl; lia].
      rewrite senderWrites_feeder_next.
      destruct (fhold (feeder c1)); [|reflexivity].
      destruct (reasonData _); [|reflexivity].
      match goal with |- context [if ?b then feeder_unhold _ else _] => destruct b end;
        [|reflexivity].
      unfold feeder_unhold, senderWrites. simpl. rewrite filter_app. apply app_nil_r. }
    destruct (workflow c1).
    + exact Hfeed.
    + destruct (senderStatus c1);
        [exists []; rewrite app_nil_r; split; [reflexivity | simpl; lia]
        | | apply ackNext_one; reflexivity].
      match goal with |- context [if ?b then _ else _] => destruct b end;
        [|exists []; rewrite app_nil_r; split; [reflexivity | simpl; lia]].
      change (exists w, senderWrites (log (sender_next (sender_unhold c1)))
                        = (senderWrites (log c1) ++ w)%list /\ (List.length w <= 1)%nat).
      apply sender_next_one.
      unfold sender_unhold, senderWrites. simpl. rewrite filter_app. apply app_nil_r.
    + destruct (senderStatus c1);
        [exact Hfeed | exact Hfeed | apply ackNext_one; reflexivity].
  - apply Q. quiet_sender inv_on_f. reflexivity.
  - apply Q. reflexivity.
  - assert (F := inv_feeds (fun x => senderWrites (log x) = senderWrites (log c))
                   (SenderQuiet_same _) (SenderQuiet_record _) (SenderQuiet_trigger _)
                   (inv_feederPull_onData _ (SenderQuiet_same _) (SenderQuiet_record _)
                      (SenderQuiet_feederOnData _)) cmd c eq_refl).
    destruct cmd; simpl command; try (apply Q; exact F);
      try (apply Q;
           first [ quiet_sender inv_command_gcode; reflexivity
                 | quiet_sender inv_feeder_reset; reflexivity
                 | quiet_sender inv_event_trigger; reflexivity
                 | unfold writeln;
                   repeat (apply SenderQuiet_write, SenderQuiet_record; [exact I|]);
                   first [reflexivity | quiet_sender inv_event_trigger; reflexivity] ]).
    + apply Q. apply senderWrites_sender_load.
    + apply Q. unfold sender_unload. quiet_sender inv_event_trigger. unfold emit.
      apply SenderQuiet_record; [exact I|].
      apply SenderQuiet_same with (c := record SenderUnload (workflow_stop c));
        try reflexivity.
      apply SenderQuiet_record; [exact I|]. quiet_sender inv_workflow_stop. reflexivity.
    + apply P; [reflexivity|]. unfold sender_start. apply sender_next_one.
      quiet_sender inv_feeder_reset. quiet_sender inv_workflow_start.
      quiet_sender inv_event_trigger. reflexivity.
    + apply Q. unfold sender_stop, writeln.
      apply SenderQuiet_write, SenderQuiet_record; [exact I|].
      destruct force; [quiet_sender inv_writelnAll|];
        quiet_sender inv_workflow_stop; quiet_sender inv_event_trigger; reflexivity.
    + apply Q. unfold sender_pause, writeln.
      do 2 (apply SenderQuiet_write, SenderQuiet_record; [exact I|]).
      quiet_sender inv_workflow_pause. quiet_sender inv_event_trigger. reflexivity.
    + apply P; [reflexivity|]. unfold sender_resume.
      match goal with |- context [workflow_resume ?x] =>
        destruct (workflow_resume_one c x) as (w & A & B)
      end.
      { unfold writeln. apply SenderQuiet_write, SenderQuiet_record; [exact I|].
        quiet_sender inv_event_trigger. reflexivity. }
      exists w. split; [|exact B]. rewrite <- A.
      unfold writeln. apply SenderQuiet_write, SenderQuiet_record; [exact I|]. reflexivity.
    + apply Q. unfold feeder_start. destruct (workflow c); try reflexivity;
        (rewrite senderWrites_feeder_next; unfold feeder_unhold;
         apply SenderQuiet_same with (c := record FeederUnhold
                  (writeln QUEUE_REPORT (writeln "~" c))); try reflexivity;
         apply SenderQuiet_record; [exact I|]; unfold writeln;
         do 2 (apply SenderQuiet_write, SenderQuiet_record; [exact I|]); reflexivity).
    + apply Q. apply SenderQuiet_write. quiet_sender inv_feeder_reset.
      quiet_sender inv_workflow_stop. reflexivity.
    + apply Q. unfold override_rapid.
      repeat match goal with |- context [if ?x then _ else _] => destruct x end;
        try reflexivity; quiet_sender inv_command_gcode; reflexivity.
    + apply Q. unfold macro_load. destruct (findMacro id macros); [|reflexivity].
      rewrite senderWrites_sender_load. quiet_sender inv_event_trigger. reflexivity.
    + apply Q. unfold watchdir_load. destruct data; [|reflexivity].
      apply senderWrites_sender_load.
  - destruct w; simpl workflow_call.
    + apply Q. quiet_sender inv_workflow_start. reflexivity.
    + apply Q. quiet_sender inv_workflow_stop. reflexivity.
    + apply Q. quiet_sender inv_workflow_pause. reflexivity.
    + apply P; [reflexivity|]. apply workflow_resume_one. reflexivity.
  - apply Q. quiet_sender inv_initController. reflexivity.
  - apply Q. quiet_sender inv_workflow_stop. unfold emit.
    apply SenderQuiet_record; [exact I | reflexivity].
  - apply Q.
    change (senderWrites (log (record (Emit "connection:close" (PText EmptyString)) c))
            = senderWrites (log c)).
    apply SenderQuiet_record; [exact I | reflexivity].
Qed.

(** X24. One program line per event, and only from the events that
    pull.  Processing one event makes the Sender's data handler write
    at most one line, and it writes none unless the event is an [r] or
    [qr] frame, [sender:start], [sender:resume] or the workflow's
    resume: footers, the other commands, the bring-up and the G-code of
    configured triggers never put a program line on the wire. *)
Theorem one_program_line_per_event : forall (e : Event) c,
  (exists w, senderWrites (log (step c e)) = (senderWrites (log c) ++ w)%list
     /\ (List.length w <= 1)%nat)
  /\ (pullsSender e = false -> senderWrites (log (step c e)) = senderWrites (log c)).
Proof.
  intros e c. destruct (sender_writes_of_step e c) as (w & A & B & C). split.
  - exists w. split; assumption.
  - intros H. rewrite A, (C H). apply app_nil_r.
Qed.

(** *** The moves of the workflow *)

Lemma pausesOnly_refl : forall w, pausesOnly w w.
Proof. intros w; left; reflexivity. Qed.

Lemma pausesOnly_sender_next : forall c, pausesOnly (workflow c) (workflow (sender_next c)).
Proof.
  intros c.
  destruct (sender_next_effect E c) as (_ & _ & _ & _ & _ & _ & _ & [W | (W1 & W2 & _)]);
    [left | right]; auto.
Qed.

Lemma pausesOnly_ackNext : forall c, pausesOnly (workflow c) (workflow (ackNext c)).
Proof.
  intros c. unfold ackNext.
  change (pausesOnly (workflow c) (workflow (sender_next (sender_ack c)))).
  replace (workflow c) with (workflow (sender_ack c))
    by (unfold sender_ack; destruct (_ =? _)%nat; reflexivity).
  apply pausesOnly_sender_next.
Qed.

Lemma pausesOnly_workflow_pause : forall r c,
  pausesOnly (workflow c) (workflow (workflow_pause r c)).
Proof.
  intros r c. unfold workflow_pause.
  destruct (workflow c) eqn:W; [left; exact W | right; auto | left; exact W].
Qed.

Lemma workflow_feeder_next : forall c, workflow (feeder_next c) = workflow c.
Proof. intros c. apply (view_parts E _ _ (view_feeder_next E c)). Qed.

Lemma pausesOnly_on_r : forall r c, pausesOnly (workflow c) (workflow (on_r r c)).
Proof.
  intros r c. unfold on_r.
  destruct (ignoreUnrecognized_state E r c) as (V & _).
  destruct (view_parts E _ _ V) as (W & _). rewrite <- W.
  generalize (ignoreUnrecognized r c). intros c1.
  destruct (workflow c1) eqn:W1.
  - left. rewrite workflow_feeder_next. exact W1.
  - destruct (negb _); [|left; exact W1].
    rewrite <- W1. apply (pausesOnly_ackNext (setSenderStatus SENDER_STATUS_ACK c1)).
  - destruct (_ <? _)%nat.
    + rewrite <- W1. apply (pausesOnly_ackNext (setSenderStatus SENDER_STATUS_ACK c1)).
    + left. rewrite workflow_feeder_next. exact W1.
Qed.

Lemma pausesOnly_on_qr : forall q c, pausesOnly (workflow c) (workflow (on_qr q c)).
Proof.
  intros q c. unfold on_qr.
  destruct (q <=? LOW_WATER_MARK E)%Z; [left; reflexivity|].
  fold (afterHysteresis q c).
  assert (A : workflow (afterHysteresis q c) = workflow c)
    by (unfold afterHysteresis; destruct (q >=? HIGH_WATER_MARK E)%Z; reflexivity).
  rewrite <- A. generalize (afterHysteresis q c). intros c1.
  assert (Hfeed : workflow (feeder_next
       (if fhold (feeder c1)
        then match reasonData (fholdReason (feeder c1)) with
             | Some d =>
                 if String.eqb d WAIT && (q >=? plannerBufferPoolSize (runner c1))%Z
                 then feeder_unhold c1 else c1
             | None => c1
             end
        else c1)) = workflow c1).
  { rewrite workflow_feeder_next.
    destruct (fhold (feeder c1)); [|reflexivity].
    destruct (reasonData _); [|reflexivity].
    match goal with |- context [if ?b then feeder_unhold _ else _] => destruct b end;
      reflexivity. }
  destruct (workflow c1) eqn:W1.
  - left. rewrite Hfeed. reflexivity.
  - destruct (senderStatus c1);
      [left; exact W1 | | rewrite <- W1; apply pausesOnly_ackNext].
    match goal with |- context [if ?b then _ else _] => destruct b end; [|left; exact W1].
    rewrite <- W1.
    apply (pausesOnly_sender_next (sender_unhold c1)).
  - destruct (senderStatus c1);
      [left; rewrite Hfeed; reflexivity | left; rewrite Hfeed; reflexivity
      | rewrite <- W1; apply pausesOnly_ackNext].
Qed.

Lemma pausesOnly_on_f : forall f c, pausesOnly (workflow c) (workflow (on_f f c)).
Proof.
  intros f c. unfold on_f, emit.
  destruct (negb _).
  - destruct (workflow c) eqn:W.
    + left. simpl workflow. rewrite W. rewrite workflow_feeder_next. exact W.
    + destruct (negb (ignoreErrors c)); [|left; exact W].
      rewrite <- W.
      match goal with |- pausesOnly _ (workflow (workflow_pause ?r ?x)) =>
        apply (pausesOnly_workflow_pause r x) end.
    + left. simpl workflow. rewrite W. exact W.
  - destruct (workflow c) eqn:W; left; try exact W.
    rewrite workflow_feeder_next. exact W.
Qed.

Lemma workflow_event_trigger : forall ev c, workflow (event_trigger ev c) = workflow c.
Proof. intros ev c. apply (view_parts E _ _ (view_event_trigger E ev c)). Qed.

Lemma workflow_writeln : forall d c, workflow (writeln d c) = workflow c.
Proof. intros d c. apply (view_parts E _ _ (view_writeln E d c)). Qed.

Lemma resume_moves : forall c,
  workflow (workflow_resume c) = workflow c
  \/ (workflow c = WORKFLOW_STATE_PAUSED
      /\ workflow (workflow_resume c) = WORKFLOW_STATE_RUNNING).
Proof.
  intros c. unfold workflow_resume.
  destruct (workflow c) eqn:W; try (left; exact W).
  unfold on_workflow_resume.
  match goal with |- context [sender_next ?x] =>
    destruct (pausesOnly_sender_next x) as [P | (_ & P)]
  end.
  - right. split; [reflexivity|]. rewrite P. reflexivity.
  - left. exact P.
Qed.

Lemma allowed_stay : forall e w,
  match e with
  | Cmd (CmdSenderLoad _) | Cmd CmdSenderUnload | Cmd (CmdSenderStop _) | Cmd CmdReset
  | Cmd (CmdMacroLoad _ _) | Cmd (CmdWatchdirLoad _ _)
  | Workflow WfStop | ConnectionOpened | Cmd CmdSenderStart | Workflow WfStart => False
  | _ => True
  end -> allowed e w w = true.
Proof.
  intros e w H.
  destruct e as [r|q|f|rn|cmd|wf|phase| |]; try contradiction;
    try destruct cmd; try destruct wf; try contradiction; destruct w; reflexivity.
Qed.

Lemma idle_sender_load : forall content c,
  workflow (sender_load content c) = WORKFLOW_STATE_IDLE.
Proof.
  intros content c. unfold sender_load. destruct (Sender.load _ _) as [s|] eqn:L.
  - apply idle_workflow_stop.
  - exfalso. unfold Sender.load in L.
    destruct (content ++ JsString.LF ++ DWELL)%string eqn:Ec; [|discriminate L].
    destruct content; discriminate Ec.
Qed.

(** X25. The moves of the workflow.  Every event moves the workflow
    only as its kind allows: [sender:load], [sender:unload],
    [sender:stop], [reset], [macro:load] with a macro that is found,
    [watchdir:load] once the file is read, the workflow's stop and the
    opening of the connection end idle; [sender:start] ends running, or
    paused when the first line pauses; frames and pauses leave the state
    or take it from running to paused; resumes leave it or take it from
    paused to running; every other command (the overrides, the motor
    commands, [lasertest], [gcode], [macro:run], a macro that is not
    found, a file that cannot be read), the bring-up, Runner updates and
    the closing of the connection leave it where it is.  In particular
    the firmware can pause a run, but never start, resume or stop one. *)
Theorem workflow_moves_as_allowed : forall (e : Event) c,
  allowed e (workflow c) (workflow (step c e)) = true.
Proof.
  intros e c.
  assert (Same : forall c2, workflow c2 = workflow c ->
            match e with
            | Cmd (CmdSenderLoad _) | Cmd CmdSenderUnload | Cmd (CmdSenderStop _)
            | Cmd CmdReset | Cmd (CmdMacroLoad _ _) | Cmd (CmdWatchdirLoad _ _)
            | Workflow WfStop | ConnectionOpened | Cmd CmdSenderStart
            | Workflow WfStart => False
            | _ => True
            end -> allowed e (workflow c) (workflow c2) = true).
  { intros c2 H He. rewrite H. apply allowed_stay, He. }
  assert (Pause : forall w', pausesOnly (workflow c) w' ->
            (WorkflowState_eqb (workflow c) w'
             || (WorkflowState_eqb (workflow c) WORKFLOW_STATE_RUNNING
                 && WorkflowState_eqb w' WORKFLOW_STATE_PAUSED)) = true).
  { intros w' [-> | (-> & ->)]; [destruct (workflow c)|]; reflexivity. }
  assert (Resume : forall w',
            w' = workflow c
            \/ (workflow c = WORKFLOW_STATE_PAUSED /\ w' = WORKFLOW_STATE_RUNNING) ->
            (WorkflowState_eqb (workflow c) w'
             || (WorkflowState_eqb (workflow c) WORKFLOW_STATE_PAUSED
                 && WorkflowState_eqb w' WORKFLOW_STATE_RUNNING)) = true).
  { intros w' [-> | (-> & ->)]; [destruct (workflow c)|]; reflexivity. }
  destruct e as [r|q|f|rn|cmd|wf|phase| |]; simpl step.
  - apply Pause, pausesOnly_on_r.
  - apply Pause, pausesOnly_on_qr.
  - apply Pause, pausesOnly_on_f.
  - apply Same; [reflexivity | exact I].
  - pose proof (view_feeds E cmd c) as F.
    destruct cmd; simpl command;
      try (apply Same; [exact (proj1 (view_parts E _ _ F)) | exact I]).
    + unfold allowed. rewrite idle_sender_load. reflexivity.
    + unfold allowed, sender_unload.
      rewrite workflow_event_trigger. simpl workflow.
      rewrite idle_workflow_stop. reflexivity.
    + unfold allowed, sender_start.
      match goal with |- context [sender_next ?x] =>
        pose proof (busy_sender_next x) as B
      end.
      simpl workflow in B. rewrite busy_workflow_start in B.
      destruct (workflow (sender_next _)); try reflexivity.
      exfalso. apply B; [discriminate | reflexivity].
    + unfold allowed, sender_stop. rewrite workflow_writeln.
      destruct force.
      * destruct (view_parts E _ _ (view_writelnAll E
            (forceStopLines (firmwareBuild (workflow_stop (event_trigger "sender:stop" c))))
            (workflow_stop (event_trigger "sender:stop" c)))) as (W & _).
        rewrite W, idle_workflow_stop. reflexivity.
      * rewrite idle_workflow_stop. reflexivity.
    + unfold sender_pause. cbv beta iota delta [allowed]. apply Pause.
      rewrite !workflow_writeln.
      rewrite <- (workflow_event_trigger "sender:pause" c).
      apply pausesOnly_workflow_pause.
    + unfold sender_resume. cbv beta iota delta [allowed]. apply Resume.
      rewrite workflow_writeln.
      match goal with |- context [workflow_resume ?x] =>
        assert (Wx : workflow x = workflow c)
          by (rewrite workflow_writeln; apply workflow_event_trigger);
        destruct (resume_moves x) as [R | (R1 & R2)]
      end.
      * left. rewrite R. exact Wx.
      * right. rewrite <- Wx. auto.
    + apply Same; [|exact I]. unfold feeder_start.
      destruct (workflow c) eqn:W; try exact W;
        (rewrite workflow_feeder_next; unfold feeder_unhold; simpl workflow;
         rewrite !workflow_writeln; exact W).
    + apply Same; [reflexivity | exact I].
    + apply Same; [|exact I]. rewrite !workflow_writeln. apply workflow_event_trigger.
    + apply Same; [|exact I]. rewrite !workflow_writeln. apply workflow_event_trigger.
    + apply Same; [|exact I]. rewrite !workflow_writeln. apply workflow_event_trigger.
    + apply Same; [|exact I]. apply workflow_event_trigger.
    + apply Same; [|exact I]. apply workflow_writeln.
    + unfold allowed.
      destruct (view_parts E _ _ (view_write E (String (ascii_of_nat 24) EmptyString)
                  (feeder_reset (workflow_stop c)))) as (W & _).
      rewrite W. simpl workflow. rewrite idle_workflow_stop. reflexivity.
    + apply Same; [|exact I]. apply (view_parts E _ _ (view_command_gcode E _ c)).
    + apply Same; [|exact I]. apply (view_parts E _ _ (view_command_gcode E _ c)).
    + apply Same; [|exact I]. unfold override_rapid.
      repeat match goal with |- context [if ?x then _ else _] => destruct x end;
        try reflexivity; apply (view_parts E _ _ (view_command_gcode E _ c)).
    + apply Same; [|exact I]. apply (view_parts E _ _ (view_command_gcode E _ c)).
    + unfold allowed, macro_load. destruct (findMacro id macros).
      * rewrite idle_sender_load. reflexivity.
      * destruct (workflow c); reflexivity.
    + unfold allowed, watchdir_load. destruct data.
      * rewrite idle_sender_load. reflexivity.
      * destruct (workflow c); reflexivity.
  - destruct wf; simpl workflow_call.
    + unfold allowed. rewrite busy_workflow_start. reflexivity.
    + unfold allowed. rewrite idle_workflow_stop. reflexivity.
    + cbv beta iota delta [allowed]. apply Pause. apply pausesOnly_workflow_pause.
    + cbv beta iota delta [allowed]. apply Resume.
      destruct (resume_moves c) as [R | (R1 & R2)]; auto.
  - apply Same; [|exact I]. apply (view_parts E _ _ (view_initController phase c)).
  - unfold allowed. rewrite idle_workflow_stop. reflexivity.
  - apply Same; [reflexivity | exact I].
Qed.

(** *** Pause then resume, on the wire *)



End MoreProperties.
(** ** Witnesses of the further properties *)

Module MoreWitness.
Import Example MoreExample.

Lemma openState_reachable : reachable openState.
Proof. exists runner0, tt, false, [], [ConnectionOpened]. reflexivity. Defined.

Lemma loadedState_reachable : reachable loadedState.
Proof.
  exists runner0, tt, false, [], [ConnectionOpened; Cmd (CmdSenderLoad program)].
  reflexivity.
Defined.

Lemma pausedState_reachable : reachable pausedState.
Proof. exists runner0, tt, false, [], (midRun ++ [Cmd CmdSenderPause])%list. reflexivity. Defined.

Lemma stoppedState_reachable : reachable stoppedState.
Proof.
  exists runner0, tt, false, [], (midRun ++ [Cmd (CmdSenderStop false)])%list. reflexivity.
Defined.

(** X1 on the controller as constructed: a command, a frame and a start
    while the connection is closed write nothing. *)
Lemma closed_connection_writes_nothing_witness :
  isOpen start = false
  /\ connWrites (log (run start [Cmd (CmdGcode ["G0 X1"]); FrameR (JObj []);
                                 Cmd CmdSenderStart]))
     = connWrites (log start).
Proof.
  assert (O : isOpen start = false) by reflexivity.
  split; [exact O|].
  apply (closed_connection_writes_nothing env
           [Cmd (CmdGcode ["G0 X1"]); FrameR (JObj []); Cmd CmdSenderStart] start O).
  repeat constructor; discriminate.
Defined.

(** X2 on a line without a comment. *)
Lemma comment_stripping_witness :
  occurs ";" "G1 X1 F100" = false
  /\ JsString.removeComments "G1 X1 F100" = "G1 X1 F100".
Proof.
  assert (H : occurs ";" "G1 X1 F100" = false) by reflexivity.
  split; [exact H|].
  apply (proj1 (proj2 (comment_stripping "G1 X1 F100"))). exact H.
Defined.

(** X3 on a single clean command. *)
Lemma gcode_feeds_clean_lines_witness :
  occurs LFchar "G0 X1" = false /\ notBlank "G0 X1" = true
  /\ gcodeData ["G0 X1"] = ["G0 X1"].
Proof.
  assert (H1 : occurs LFchar "G0 X1" = false) by reflexivity.
  assert (H2 : notBlank "G0 X1" = true) by reflexivity.
  split; [exact H1|]. split; [exact H2|].
  apply (proj1 (proj2 (gcode_feeds_clean_lines [] "G0 X1"))); assumption.
Defined.

(** X4 at the first step of the bring-up, on a closed connection. *)
Lemma init_respects_serial_buffer_witness :
  0%nat <> 8%nat /\ isOpen start = false /\ initController 0 start = start.
Proof.
  assert (P : 0%nat <> 8%nat) by discriminate.
  assert (O : isOpen start = false) by reflexivity.
  split; [exact P|]. split; [exact O|].
  apply (proj2 (init_respects_serial_buffer env 0 start P)). exact O.
Defined.

(** A pause and a resume over an assignment line: the Sender takes the
    line, [sent] grows from 1 to 2, and nothing is written. *)
Lemma pause_resume_takes_assignment_line :
  let c' := command CmdSenderResume (command CmdSenderPause assignmentNext) in
  sent (sender assignmentNext) = 1%nat
  /\ sent (sender c') = 2%nat
  /\ senderWrites (log c') = senderWrites (log assignmentNext).
Proof.
  split; [vm_compute; reflexivity|]. split; vm_compute; reflexivity.
Qed.

(** X6 in the paused run: five lines are out, four acknowledged. *)
Lemma paused_r_drains_without_sending_witness :
  reachable pausedState
  /\ workflow pausedState = WORKFLOW_STATE_PAUSED
  /\ sent (sender (on_r (JObj [("n", JNum 5)]) pausedState)) = sent (sender pausedState)
  /\ received (sender (on_r (JObj [("n", JNum 5)]) pausedState)) = 5%nat.
Proof.
  assert (W : workflow pausedState = WORKFLOW_STATE_PAUSED) by (vm_compute; reflexivity).
  split; [exact pausedState_reachable|]. split; [exact W|].
  pose proof (paused_r_drains_without_sending env (JObj [("n", JNum 5)]) pausedState
                pausedState_reachable W) as H.
  cbv zeta in H. destruct H as (H1 & _ & H3 & _).
  split; [exact H1|]. rewrite H3. vm_compute. reflexivity.
Defined.

(** X7 for an [r] frame on the idle controller. *)
Lemma idle_frames_go_to_the_feeder_witness :
  workflow openState = WORKFLOW_STATE_IDLE
  /\ isFrame (FrameR (JObj [])) = true
  /\ sender (step openState (FrameR (JObj []))) = sender openState.
Proof.
  assert (W : workflow openState = WORKFLOW_STATE_IDLE) by (vm_compute; reflexivity).
  assert (F : isFrame (FrameR (JObj [])) = true) by reflexivity.
  split; [exact W|]. split; [exact F|].
  pose proof (idle_frames_go_to_the_feeder env (FrameR (JObj [])) openState W F) as H.
  cbv zeta in H. destruct H as (H1 & _). exact H1.
Defined.

(** X8 in the running program, with reports of 8 and 20 free slots. *)
Lemma deferred_ack_is_applied_once_witness :
  workflow midProgram = WORKFLOW_STATE_RUNNING
  /\ (8 <= LOW_WATER_MARK env)%Z /\ (LOW_WATER_MARK env < 20)%Z
  /\ (HIGH_WATER_MARK env <= 20)%Z
  /\ received (sender (run midProgram [FrameQr 8; FrameR (JObj []); FrameQr 20]))
     = S (received (sender midProgram)).
Proof.
  assert (W : workflow midProgram = WORKFLOW_STATE_RUNNING) by (vm_compute; reflexivity).
  assert (A : (8 <= LOW_WATER_MARK env)%Z) by (vm_compute; discriminate).
  assert (B : (LOW_WATER_MARK env < 20)%Z) by (vm_compute; reflexivity).
  assert (C : (HIGH_WATER_MARK env <= 20)%Z) by (vm_compute; discriminate).
  split; [exact W|]. split; [exact A|]. split; [exact B|]. split; [exact C|].
  pose proof (deferred_ack_is_applied_once env 8 20 (JObj []) midProgram W A B C) as H.
  cbv zeta in H. destruct H as (_ & _ & _ & H & _). exact H.
Defined.

(** X10 for a footer with status code 3 in the running program: the
    workflow pauses and the Sender is held. *)
Lemma footer_keeps_counters_witness :
  workflow (on_f errorFooter midProgram) <> workflow midProgram
  /\ hold (sender (on_f errorFooter midProgram)) = true.
Proof.
  assert (N : workflow (on_f errorFooter midProgram) <> workflow midProgram)
    by (vm_compute; discriminate).
  split; [exact N|].
  pose proof (footer_keeps_counters env errorFooter midProgram) as H.
  cbv zeta in H. destruct H as (_ & _ & _ & _ & _ & _ & H). exact (H N).
Defined.

(** X11 after the operator stopped the run. *)
Lemma idle_means_rewound_witness :
  reachable stoppedState
  /\ workflow stoppedState = WORKFLOW_STATE_IDLE
  /\ sent (sender stoppedState) = 0%nat.
Proof.
  assert (W : workflow stoppedState = WORKFLOW_STATE_IDLE) by (vm_compute; reflexivity).
  split; [exact stoppedState_reachable|]. split; [exact W|].
  exact (proj1 (idle_means_rewound env stoppedState stoppedState_reachable W)).
Defined.

(** X12 on the loaded program. *)
Lemma sender_start_pulls_first_line_witness :
  workflow loadedState <> WORKFLOW_STATE_RUNNING
  /\ sent (sender (command CmdSenderStart loadedState))
     = Nat.min 1 (total (sender loadedState)).
Proof.
  assert (W : workflow loadedState <> WORKFLOW_STATE_RUNNING) by (vm_compute; discriminate).
  split; [exact W|].
  pose proof (sender_start_pulls_first_line env loadedState) as H.
  cbv zeta in H. destruct H as (_ & _ & _ & H).
  exact (proj1 (proj2 (H W))).
Defined.

(** X13 for a jog command in alarm. *)
Lemma alarm_drops_manual_gcode_witness :
  alarm (runner alarmState) = true
  /\ isOpen alarmState = true
  /\ fhold (feeder alarmState) = false
  /\ pending (feeder alarmState) = false
  /\ queue (feeder (command (CmdGcode ["G0 X1"; "G0 X2"]) alarmState)) = [].
Proof.
  assert (A : alarm (runner alarmState) = true) by (vm_compute; reflexivity).
  assert (O : isOpen alarmState = true) by (vm_compute; reflexivity).
  assert (F : fhold (feeder alarmState) = false) by (vm_compute; reflexivity).
  assert (P : pending (feeder alarmState) = false) by (vm_compute; reflexivity).
  split; [exact A|]. split; [exact O|]. split; [exact F|]. split; [exact P|].
  pose proof (alarm_drops_manual_gcode env ["G0 X1"; "G0 X2"] alarmState A O F P) as H.
  cbv zeta in H. destruct H as (H & _). exact H.
Defined.

(** X14 for a tool change that also stops the program: the reason
    kept is [M0]. *)
Lemma pause_codes_hold_the_pipeline_witness :
  startsWithPercent (JsString.trim (JsString.removeComments "M6 T2 M0 ; change")) = false
  /\ pauseCode (envParseWords env (translated "M6 T2 M0 ; change" midProgram)) = Some "M0"
  /\ workflow midProgram = WORKFLOW_STATE_RUNNING
  /\ workflow (snd (senderDataFilter "M6 T2 M0 ; change" midProgram))
     = WORKFLOW_STATE_PAUSED.
Proof.
  assert (P : startsWithPercent (JsString.trim (JsString.removeComments "M6 T2 M0 ; change"))
              = false) by (vm_compute; reflexivity).
  assert (M : pauseCode (envParseWords env (translated "M6 T2 M0 ; change" midProgram))
              = Some "M0") by (vm_compute; reflexivity).
  assert (W : workflow midProgram = WORKFLOW_STATE_RUNNING) by (vm_compute; reflexivity).
  split; [exact P|]. split; [exact M|]. split; [exact W|].
  pose proof (pause_codes_hold_the_pipeline env "M6 T2 M0 ; change" "M0" midProgram P M) as H.
  destruct H as ((_ & H) & _). cbv zeta in H. exact (proj1 (H W)).
Defined.

(** X15 for an assignment line. *)
Lemma expression_lines_are_not_transmitted_witness :
  startsWithPercent (JsString.trim (JsString.removeComments "%zsafe=10")) = true
  /\ JsString.trim (JsString.removeComments "%zsafe=10") <> WAIT
  /\ senderPull "%zsafe=10" midProgram
     = setSharedContext (assigned "%zsafe=10" midProgram) midProgram.
Proof.
  assert (P : startsWithPercent (JsString.trim (JsString.removeComments "%zsafe=10")) = true)
    by (vm_compute; reflexivity).
  assert (N : JsString.trim (JsString.removeComments "%zsafe=10") <> WAIT)
    by (vm_compute; discriminate).
  split; [exact P|]. split; [exact N|].
  exact (proj1 (expression_lines_are_not_transmitted env "%zsafe=10" midProgram P N)).
Defined.

(** X18 on the history of [finishHistory]: the stop comes at 1700, 600
    ms after the machine was last seen busy. *)
Lemma timer_stops_after_quiet_half_second_witness :
  forallb steady finishHistory = true
  /\ nondecreasing (timesOf (finishHistory ++ [TimerFired (idleTick 1700)])) = true
  /\ triggers (log (ctl (queryTimer (idleTick 1700) (runTimed readyTimer finishHistory))))
     <> triggers (log (ctl (runTimed readyTimer finishHistory)))
  /\ Forall (fun x => (now (idleTick 1700) - x > 500)%Z) (busyTimes finishHistory).
Proof.
  assert (S : forallb steady finishHistory = true) by (vm_compute; reflexivity).
  assert (M : nondecreasing (timesOf (finishHistory ++ [TimerFired (idleTick 1700)])) = true)
    by (vm_compute; reflexivity).
  assert (T : triggers (log (ctl (queryTimer (idleTick 1700)
                                    (runTimed readyTimer finishHistory))))
              <> triggers (log (ctl (runTimed readyTimer finishHistory))))
    by (vm_compute; discriminate).
  split; [exact S|]. split; [exact M|]. split; [exact T|].
  pose proof (timer_stops_after_quiet_half_second env finishHistory (idleTick 1700)
                readyTimer S M) as H.
  cbv zeta in H. exact (proj1 (H T)).
Defined.

(** X19 on a controller whose program has not ended. *)
Lemma timer_stops_once_per_finish_witness :
  (senderFinishTime readyTimer <= 0)%Z
  /\ triggers (log (ctl (queryTimer (idleTick 900)
                           (runTimed readyTimer
                              [TimerFired (busyTick 250); Ctl (FrameQr 32);
                               TimerFired (idleTick 500)]))))
     = triggers (log (ctl (runTimed readyTimer
                             [TimerFired (busyTick 250); Ctl (FrameQr 32);
                              TimerFired (idleTick 500)]))).
Proof.
  assert (Z0 : (senderFinishTime readyTimer <= 0)%Z) by (vm_compute; discriminate).
  split; [exact Z0|].
  pose proof (timer_stops_once_per_finish env
                [TimerFired (busyTick 250); Ctl (FrameQr 32); TimerFired (idleTick 500)]
                (idleTick 900) readyTimer Z0) as H.
  cbv zeta in H. apply H. repeat constructor.
Defined.

(** X20 after an [M0] typed by hand: acknowledgements and queue reports
    leave the line behind it in the queue. *)
Lemma held_feeder_ignores_frames_witness :
  fhold (feeder heldFeederState) = true
  /\ reasonData (fholdReason (feeder heldFeederState)) <> Some WAIT
  /\ queue (feeder (run heldFeederState [FrameR (JObj []); FrameQr 32; FrameF [1; 0]%Z]))
     = ["G0 X1"].
Proof.
  assert (Hh : fhold (feeder heldFeederState) = true) by (vm_compute; reflexivity).
  assert (Hr : reasonData (fholdReason (feeder heldFeederState)) <> Some WAIT)
    by (vm_compute; discriminate).
  split; [exact Hh|]. split; [exact Hr|].
  rewrite (proj1 (held_feeder_ignores_frames env
                    [FrameR (JObj []); FrameQr 32; FrameF [1; 0]%Z] heldFeederState
                    eq_refl Hh Hr)).
  vm_compute. reflexivity.
Defined.

(** X21 on a probe, which has neither a quote nor a [t]. *)
Lemma relaxedJSON_minifies_witness :
  occurs DQchar "{spe:n}" = false /\ occurs "t" "{spe:n}" = false
  /\ relaxedJSON "{spe:n}" = "{spe:n}".
Proof.
  assert (Q : occurs DQchar "{spe:n}" = false) by reflexivity.
  assert (T : occurs "t" "{spe:n}" = false) by reflexivity.
  split; [exact Q|]. split; [exact T|].
  exact (proj2 (proj2 (relaxedJSON_minifies "{spe:n}")) Q T).
Defined.

(** X24 for a forced stop in the middle of the program. *)
Lemma one_program_line_per_event_witness :
  pullsSender (Cmd (CmdSenderStop true)) = false
  /\ senderWrites (log (step midProgram (Cmd (CmdSenderStop true))))
     = senderWrites (log midProgram).
Proof.
  assert (N : pullsSender (Cmd (CmdSenderStop true)) = false) by reflexivity.
  split; [exact N|].
  exact (proj2 (one_program_line_per_event env (Cmd (CmdSenderStop true)) midProgram) N).
Defined.

End MoreWitness.
